(** * Timetable scheduler: a shallow embedding of
    [server/services/scheduler.ts] and of the storage operations of
    [server/storage.ts] that it calls.

    Conventions.
    - Identifiers, day names and wall-clock times are JavaScript strings:
      [string]. Integer columns ([period], [weeklyFrequency]) are [Z];
      counters that only grow from zero are [nat]. A number inside a
      template literal is its decimal numeral ([pretty]).
    - A JavaScript [Map<string, V>] is a [gmap string V], a [Set<string>] a
      [gset string]; the keys keep the string concatenation of the source.
    - The database is a record of tables, each a list of rows in table
      order. Columns the scheduler never reads (timestamps, contact data,
      the generated id of a timetable entry) are left out. Storage calls are
      the queries of [storage.ts] evaluated on those lists; they always
      fulfil. The outer [catch] blocks of [generateTimetable] and
      [validateTimetable], which turn a rejected storage call into a failure
      result, are therefore never entered and are left out. Only
      [initializeFromStructure] takes the outcome of its storage call as
      an argument, because its [catch] branch changes the grid. What a run
      stores is stated for grids whose slots the insert into
      [timetable_entries] accepts ([storableSlot]).
    - [Math.random] is not modelled as a number stream: the two [sort]
      calls that use it are taken from a [RandomSource], which only promises
      a permutation of its input.
    - The week of a run ([weekStart], [weekEnd]), which the source computes
      from [new Date()], is an argument.
    - The one comparison of [suggestOptimizations] that is not exact on
      whole numbers is computed on binary64 floats, as JavaScript does. *)

From Stdlib Require Import ZArith Ascii String Floats.
From stdpp Require Import gmap strings list sorting pretty.

Open Scope Z_scope.

(** ** JavaScript helpers *)

Module JS.

(** Truthiness of a value of type [string | undefined]: the empty string and
    [undefined] are falsy. *)
Definition truthy (v : option string) : bool :=
  match v with
  | Some s => negb (bool_decide (s = ""))
  | None => false
  end.

(** The branch taken by [if (v) ...]: the value itself when it is truthy. *)
Definition whenTruthy (v : option string) : option string :=
  if truthy v then v else None.

(** [x || fallback] for an optional string. *)
Definition orElse (v : option string) (fallback : string) : string :=
  match v with
  | Some s => if bool_decide (s = "") then fallback else s
  | None => fallback
  end.

(** [s.split('-')]: the pieces between the hyphens, never an empty list. *)
Fixpoint splitGo (cur : string) (s : string) : list string :=
  match s with
  | EmptyString => [String.rev cur]
  | String c rest =>
      if bool_decide (c = "-"%char) then String.rev cur :: splitGo "" rest
      else splitGo (String c cur) rest
  end.

Definition split (s : string) : list string := splitGo "" s.

Definition isWhiteSpace (c : ascii) : bool :=
  let n := N_of_ascii c in
  bool_decide (n = 32 ∨ (9 <= n ∧ n <= 13))%N.

Fixpoint trimStart (s : string) : string :=
  match s with
  | String c rest => if isWhiteSpace c then trimStart rest else s
  | EmptyString => s
  end.

Definition digitValue (c : ascii) : option Z :=
  let n := Z.of_N (N_of_ascii c) in
  if bool_decide (48 <= n ∧ n <= 57) then Some (n - 48)
  else if bool_decide (97 <= n ∧ n <= 122) then Some (n - 87)
  else if bool_decide (65 <= n ∧ n <= 90) then Some (n - 55)
  else None.

(** The longest prefix of digits of the radix, read as a number; [None]
    when that prefix is empty. *)
Fixpoint parseDigits (radix : Z) (acc : option Z) (s : string) : option Z :=
  match s with
  | EmptyString => acc
  | String c rest =>
      match digitValue c with
      | Some d =>
          if bool_decide (d < radix)
          then parseDigits radix (Some (radix * default 0 acc + d)) rest
          else acc
      | None => acc
      end
  end.

(** [parseInt(s)] with no radix argument; [None] stands for [NaN] (which is
    also the result for [undefined]). *)
Definition parseIntString (s : string) : option Z :=
  let t := trimStart s in
  let '(sign, t) :=
    match t with
    | String "-" rest => (-1, rest)
    | String "+" rest => (1, rest)
    | _ => (1, t)
    end in
  let '(radix, t) :=
    match t with
    | String "0" (String "x" rest) => (16, rest)
    | String "0" (String "X" rest) => (16, rest)
    | _ => (10, t)
    end in
  (λ n, sign * n) <$> parseDigits radix None t.

Definition parseInt (v : option string) : option Z :=
  match v with
  | Some s => parseIntString s
  | None => None
  end.

End JS.

(** ** Rows of [shared/schema.ts] *)

Module Class.
Record t := mk {
  id : string;
  grade : string;
  section : string;
  schoolId : string;
}.
End Class.

Module Subject.
Record t := mk {
  id : string;
  name : string;
  schoolId : string;
}.
End Subject.

Module Teacher.
(** [availability] is the JSON object of the column: a day without a key
    reads as [undefined]. *)
Record t := mk {
  id : string;
  subjects : list string;
  availability : gmap string (list string);
  schoolId : string;
  isActive : bool;
}.
End Teacher.

Module ClassSubjectAssignment.
Record t := mk {
  id : string;
  classId : string;
  subjectId : string;
  weeklyFrequency : Z;
  assignedTeacherId : option string;
}.
End ClassSubjectAssignment.

Module TimetableVersion.
Record t := mk {
  id : string;
  classId : string;
  version : string;
  weekStart : string;
  weekEnd : string;
  isActive : bool;
}.
End TimetableVersion.

(** [TimetableEntry] and [InsertTimetableEntry] at once: the solver leaves
    [versionId] unset and [generateTimetable] stamps it. *)
Module TimetableEntry.
Record t := mk {
  classId : string;
  teacherId : string;
  subjectId : string;
  day : string;
  period : Z;
  startTime : string;
  endTime : string;
  room : option string;
  versionId : option string;
  isActive : bool;
}.
End TimetableEntry.

Module StructureSlot.
Record t := mk {
  period : Z;
  startTime : string;
  endTime : string;
  isBreak : option bool;
}.
End StructureSlot.

Module TimetableStructure.
Record t := mk {
  schoolId : string;
  workingDays : option (list string);
  timeSlots : option (list StructureSlot.t);
  isActive : bool;
}.
End TimetableStructure.

(** ** [scheduler.ts]: the time grid *)

Module TimeSlot.
Record t := mk {
  day : string;
  period : Z;
  startTime : string;
  endTime : string;
}.
End TimeSlot.

Module ScheduleConstraint.
Record t := mk {
  classId : string;
  subjectId : string;
  periodsNeeded : Z;
  preferredTeachers : list string;
}.
End ScheduleConstraint.

(** The one mutable field of the class; [scheduler.ts] exports a single
    instance, so the field lives across calls. *)
Record TimetableScheduler := { timeSlots : list TimeSlot.t }.

(** Outcome of an awaited storage call. *)
Inductive Awaited (A : Type) :=
| Fulfilled (a : A)
| Rejected.
Arguments Fulfilled {A} a.
Arguments Rejected {A}.

Definition weekdays : list string :=
  ["monday"; "tuesday"; "wednesday"; "thursday"; "friday"].

Definition periodTimes : list StructureSlot.t :=
  [ StructureSlot.mk 1 "08:00" "08:45" None;
    StructureSlot.mk 2 "08:45" "09:30" None;
    StructureSlot.mk 3 "09:30" "10:15" None;
    StructureSlot.mk 4 "10:15" "11:00" None;
    StructureSlot.mk 5 "11:15" "12:00" None;
    StructureSlot.mk 6 "12:00" "12:45" None;
    StructureSlot.mk 7 "12:45" "13:30" None;
    StructureSlot.mk 8 "13:30" "14:15" None ].

Definition slotOf (day : string) (s : StructureSlot.t) : TimeSlot.t :=
  TimeSlot.mk day (StructureSlot.period s) (StructureSlot.startTime s)
    (StructureSlot.endTime s).

(** [initializeTimeSlots]: pushes the forty default slots onto whatever
    [this.timeSlots] holds. *)
Definition initializeTimeSlots (this : TimetableScheduler) : TimetableScheduler :=
  {| timeSlots :=
       timeSlots this ++ flat_map (λ day, map (slotOf day) periodTimes) weekdays |}.

(** The constructor: the field initialiser, then [initializeTimeSlots]. *)
Definition constructor : TimetableScheduler :=
  initializeTimeSlots {| timeSlots := [] |}.

Definition schedulable (s : StructureSlot.t) : bool :=
  negb (default false (StructureSlot.isBreak s)).

(** [initializeFromStructure]: [getTimetableStructureBySchool] is the awaited
    storage call. *)
Definition initializeFromStructure
    (getTimetableStructureBySchool : string → Awaited (option TimetableStructure.t))
    (schoolId : option string) (this : TimetableScheduler) : TimetableScheduler :=
  let fetched :=
    match JS.whenTruthy schoolId with
    | Some sid => getTimetableStructureBySchool sid
    | None => Fulfilled None
    end in
  match fetched with
  | Fulfilled (Some structure) =>
      let workingDays := default weekdays (TimetableStructure.workingDays structure) in
      let slots := default periodTimes (TimetableStructure.timeSlots structure) in
      {| timeSlots :=
           flat_map (λ day, map (slotOf day) (filter (λ s, schedulable s = true) slots))
             workingDays |}
  | Fulfilled None => this
  | Rejected => initializeTimeSlots this
  end.

(** ** [scheduler.ts]: the schedule solver *)

(** The two randomised [sort] calls of [solveSchedule]. Their comparators
    answer ties with [Math.random() - 0.5], so the outcome is only known to
    be a permutation. [prioritizeSlots i count slots] is the sort of the
    [i]-th constraint of the shuffled list, [count] being the daily subject
    count the comparator reads. *)
Record RandomSource := {
  shuffleConstraints : list ScheduleConstraint.t → list ScheduleConstraint.t;
  shuffleConstraints_perm : ∀ cs, shuffleConstraints cs ≡ₚ cs;
  prioritizeSlots : nat → (TimeSlot.t → nat) → list TimeSlot.t → list TimeSlot.t;
  prioritizeSlots_perm : ∀ i count slots, prioritizeSlots i count slots ≡ₚ slots;
}.

(** The locals of one [solveSchedule] call. *)
Record SolverState := {
  schedule : list TimetableEntry.t;
  assignments : gmap string (gset string);
  dailySubjectCount : gmap string (gmap string nat);
}.

Definition initialState : SolverState :=
  {| schedule := []; assignments := ∅; dailySubjectCount := ∅ |}.

Definition dayKeyOf (classId day : string) : string := classId +:+ "-" +:+ day.

Definition slotKeyOf (classId : string) (timeSlot : TimeSlot.t) : string :=
  classId +:+ "-" +:+ TimeSlot.day timeSlot +:+ "-" +:+ pretty (TimeSlot.period timeSlot).

Definition rangeOf (timeSlot : TimeSlot.t) : string :=
  TimeSlot.startTime timeSlot +:+ "-" +:+ TimeSlot.endTime timeSlot.

Definition getDailySubjectCount (st : SolverState) (classId day subjectId : string) : nat :=
  default 0%nat (dailySubjectCount st !! dayKeyOf classId day ≫= λ dayMap, dayMap !! subjectId).

Definition incrementDailySubjectCount (classId day subjectId : string)
    (counts : gmap string (gmap string nat)) : gmap string (gmap string nat) :=
  let dayKey := dayKeyOf classId day in
  let counts :=
    if bool_decide (is_Some (counts !! dayKey)) then counts else <[dayKey := ∅]> counts in
  let dayMap := default ∅ (counts !! dayKey) in
  let currentCount := default 0%nat (dayMap !! subjectId) in
  <[dayKey := <[subjectId := S currentCount]> dayMap]> counts.

(** Teachers who can teach the subject of the constraint. *)
Definition qualifiedTeachers (c : ScheduleConstraint.t) (teachers : list Teacher.t)
    : list Teacher.t :=
  filter (λ t, ScheduleConstraint.subjectId c ∈ Teacher.subjects t ∧ Teacher.isActive t = true)
    teachers.

(** [eligibleTeachers] after the preferred-teacher step. *)
Definition eligibleTeachers (c : ScheduleConstraint.t) (teachers : list Teacher.t)
    : list Teacher.t :=
  let eligible := qualifiedTeachers c teachers in
  if bool_decide (0 < length (ScheduleConstraint.preferredTeachers c))%nat then
    let assignedTeachers :=
      filter (λ t, Teacher.id t ∈ ScheduleConstraint.preferredTeachers c) eligible in
    if bool_decide (0 < length assignedTeachers)%nat then assignedTeachers else eligible
  else eligible.

(** One key of [assignments] seen by the teacher check: the key is split at
    every hyphen and its second and third pieces are read as day and period. *)
Definition keyNamesSlot (slotKey : string) (timeSlot : TimeSlot.t) : bool :=
  let parts := JS.split slotKey in
  bool_decide (parts !! 1%nat = Some (TimeSlot.day timeSlot))
  && bool_decide (JS.parseInt (parts !! 2%nat) = Some (TimeSlot.period timeSlot)).

(** The callback of [eligibleTeachers.find]. *)
Definition teacherCanTake (st : SolverState) (timeSlot : TimeSlot.t) (teacher : Teacher.t)
    : bool :=
  match Teacher.availability teacher !! TimeSlot.day timeSlot with
  | None => true
  | Some [] => true
  | Some teacherAvailability =>
      if negb (bool_decide (rangeOf timeSlot ∈ teacherAvailability)) then false
      else
        negb (existsb
                (λ '(slotKey, assignedTeachers),
                   keyNamesSlot slotKey timeSlot
                   && bool_decide (Teacher.id teacher ∈ assignedTeachers))
                (map_to_list (assignments st)))
  end.

(** The "make assignment" block. *)
Definition assign (c : ScheduleConstraint.t) (timeSlot : TimeSlot.t)
    (availableTeacher : Teacher.t) (st : SolverState) : SolverState :=
  let classId := ScheduleConstraint.classId c in
  let subjectId := ScheduleConstraint.subjectId c in
  {| schedule :=
       schedule st ++
       [ {| TimetableEntry.classId := classId;
            TimetableEntry.teacherId := Teacher.id availableTeacher;
            TimetableEntry.subjectId := subjectId;
            TimetableEntry.day := TimeSlot.day timeSlot;
            TimetableEntry.period := TimeSlot.period timeSlot;
            TimetableEntry.startTime := TimeSlot.startTime timeSlot;
            TimetableEntry.endTime := TimeSlot.endTime timeSlot;
            TimetableEntry.room := None;
            TimetableEntry.versionId := None;
            TimetableEntry.isActive := true |} ];
     assignments :=
       <[slotKeyOf classId timeSlot := {[Teacher.id availableTeacher]}]> (assignments st);
     dailySubjectCount :=
       incrementDailySubjectCount classId (TimeSlot.day timeSlot) subjectId
         (dailySubjectCount st) |}.

(** The loop over [prioritizedTimeSlots]. *)
Fixpoint placePeriods (c : ScheduleConstraint.t) (eligible : list Teacher.t)
    (slots : list TimeSlot.t) (periodsScheduled : Z) (st : SolverState) : SolverState :=
  match slots with
  | [] => st
  | timeSlot :: rest =>
      if bool_decide (ScheduleConstraint.periodsNeeded c ≤ periodsScheduled) then st
      else
        let classId := ScheduleConstraint.classId c in
        if bool_decide (is_Some (assignments st !! slotKeyOf classId timeSlot))
        then placePeriods c eligible rest periodsScheduled st
        else if bool_decide
                  (2 ≤ getDailySubjectCount st classId (TimeSlot.day timeSlot)
                         (ScheduleConstraint.subjectId c))%nat
        then placePeriods c eligible rest periodsScheduled st
        else
          match List.find (teacherCanTake st timeSlot) eligible with
          | Some availableTeacher =>
              placePeriods c eligible rest (periodsScheduled + 1)
                (assign c timeSlot availableTeacher st)
          | None => placePeriods c eligible rest periodsScheduled st
          end
  end.

(** The body of the loop over [shuffledConstraints], for the constraint at
    position [i]. *)
Definition scheduleConstraint (rs : RandomSource) (slots : list TimeSlot.t)
    (teachers : list Teacher.t) (subjects : list Subject.t)
    (i : nat) (c : ScheduleConstraint.t) (st : SolverState) : SolverState :=
  match List.find (λ s, bool_decide (Subject.id s = ScheduleConstraint.subjectId c)) subjects with
  | None => st
  | Some subject =>
      let eligible := eligibleTeachers c teachers in
      if bool_decide (length eligible = 0%nat) then st
      else
        let prioritizedTimeSlots :=
          prioritizeSlots rs i
            (λ slot, getDailySubjectCount st (ScheduleConstraint.classId c)
                       (TimeSlot.day slot) (ScheduleConstraint.subjectId c))
            slots in
        placePeriods c eligible prioritizedTimeSlots 0 st
  end.

Fixpoint solveLoop (rs : RandomSource) (slots : list TimeSlot.t)
    (teachers : list Teacher.t) (subjects : list Subject.t)
    (i : nat) (cs : list ScheduleConstraint.t) (st : SolverState) : SolverState :=
  match cs with
  | [] => st
  | c :: rest =>
      solveLoop rs slots teachers subjects (S i) rest
        (scheduleConstraint rs slots teachers subjects i c st)
  end.

(** [solveSchedule]; [slots] is [this.timeSlots]. *)
Definition solveSchedule (rs : RandomSource) (slots : list TimeSlot.t)
    (constraints : list ScheduleConstraint.t) (teachers : list Teacher.t)
    (subjects : list Subject.t) : list TimetableEntry.t :=
  schedule (solveLoop rs slots teachers subjects 0 (shuffleConstraints rs constraints)
              initialState).

(** A random source whose ties all come out "keep the order": constraints
    stay as given and slots are merge-sorted by their count. *)
Definition sortByCount (count : TimeSlot.t → nat) (slots : list TimeSlot.t) : list TimeSlot.t :=
  merge_sort (λ a b, bool_decide (count a ≤ count b)%nat) slots.

Definition steadySource : RandomSource :=
  {| shuffleConstraints := λ cs, cs;
     shuffleConstraints_perm := λ cs, reflexivity cs;
     prioritizeSlots := λ _, sortByCount;
     prioritizeSlots_perm := λ _ count slots, merge_sort_Permutation _ slots |}.

(** ** [storage.ts]: the queries the scheduler calls *)

(** A row of [getClassSubjectAssignments]: the assignment joined with its
    subject and, when there is one, its assigned teacher. *)
Module AssignmentRow.
Record t := mk {
  id : string;
  classId : string;
  subjectId : string;
  weeklyFrequency : Z;
  assignedTeacherId : option string;
  subject : Subject.t;
  assignedTeacher : option Teacher.t;
}.
End AssignmentRow.

Module storage.

(** The tables; [uuidCounter] stands for [gen_random_uuid()]. *)
Record Db := {
  classes : list Class.t;
  subjects : list Subject.t;
  teachers : list Teacher.t;
  classSubjectAssignments : list ClassSubjectAssignment.t;
  timetableStructures : list TimetableStructure.t;
  timetableVersions : list TimetableVersion.t;
  timetableEntries : list TimetableEntry.t;
  uuidCounter : N;
}.

Definition withVersions (vs : list TimetableVersion.t) (db : Db) : Db :=
  {| classes := classes db; subjects := subjects db; teachers := teachers db;
     classSubjectAssignments := classSubjectAssignments db;
     timetableStructures := timetableStructures db;
     timetableVersions := vs;
     timetableEntries := timetableEntries db;
     uuidCounter := uuidCounter db |}.

Definition withEntries (es : list TimetableEntry.t) (db : Db) : Db :=
  {| classes := classes db; subjects := subjects db; teachers := teachers db;
     classSubjectAssignments := classSubjectAssignments db;
     timetableStructures := timetableStructures db;
     timetableVersions := timetableVersions db;
     timetableEntries := es;
     uuidCounter := uuidCounter db |}.

Definition gen_random_uuid (db : Db) : string * Db :=
  ("uuid-" +:+ pretty (uuidCounter db),
   {| classes := classes db; subjects := subjects db; teachers := teachers db;
      classSubjectAssignments := classSubjectAssignments db;
      timetableStructures := timetableStructures db;
      timetableVersions := timetableVersions db;
      timetableEntries := timetableEntries db;
      uuidCounter := N.succ (uuidCounter db) |}).

Definition getTeachers (db : Db) (schoolId : option string) : list Teacher.t :=
  match JS.whenTruthy schoolId with
  | Some sid =>
      filter (λ t, Teacher.isActive t = true ∧ Teacher.schoolId t = sid) (teachers db)
  | None => filter (λ t, Teacher.isActive t = true) (teachers db)
  end.

Definition getSubjects (db : Db) (schoolId : option string) : list Subject.t :=
  match JS.whenTruthy schoolId with
  | Some sid => filter (λ s, Subject.schoolId s = sid) (subjects db)
  | None => subjects db
  end.

Definition getClasses (db : Db) (schoolId : option string) : list Class.t :=
  match JS.whenTruthy schoolId with
  | Some sid => filter (λ c, Class.schoolId c = sid) (classes db)
  | None => classes db
  end.

Definition getClass (db : Db) (id : string) : option Class.t :=
  head (filter (λ c, Class.id c = id) (classes db)).

(** [getClassSubjectAssignments(classId)]: inner join with [subjects], left
    join with [teachers], filtered by class when [classId] is truthy. The
    school-scoped variant is not called by the scheduler. *)
Definition getClassSubjectAssignments (db : Db) (classId : option string)
    : list AssignmentRow.t :=
  let joined :=
    a ← classSubjectAssignments db;
    s ← filter (λ s, ClassSubjectAssignment.subjectId a = Subject.id s) (subjects db);
    let row := AssignmentRow.mk (ClassSubjectAssignment.id a)
                 (ClassSubjectAssignment.classId a) (ClassSubjectAssignment.subjectId a)
                 (ClassSubjectAssignment.weeklyFrequency a)
                 (ClassSubjectAssignment.assignedTeacherId a) s in
    match filter (λ t, ClassSubjectAssignment.assignedTeacherId a = Some (Teacher.id t))
            (teachers db) with
    | [] => [row None]
    | ts => (λ t, row (Some t)) <$> ts
    end in
  match JS.whenTruthy classId with
  | Some cid => filter (λ r, AssignmentRow.classId r = cid) joined
  | None => joined
  end.

Definition getTimetableStructureBySchool (db : Db) (schoolId : string)
    : option TimetableStructure.t :=
  head (filter (λ s, TimetableStructure.schoolId s = schoolId
                     ∧ TimetableStructure.isActive s = true)
          (timetableStructures db)).

(** [getTimetableEntries()] without a school: the active entries. *)
Definition getTimetableEntries (db : Db) : list TimetableEntry.t :=
  filter (λ e, TimetableEntry.isActive e = true) (timetableEntries db).

Definition deactivateEntry (e : TimetableEntry.t) : TimetableEntry.t :=
  {| TimetableEntry.classId := TimetableEntry.classId e;
     TimetableEntry.teacherId := TimetableEntry.teacherId e;
     TimetableEntry.subjectId := TimetableEntry.subjectId e;
     TimetableEntry.day := TimetableEntry.day e;
     TimetableEntry.period := TimetableEntry.period e;
     TimetableEntry.startTime := TimetableEntry.startTime e;
     TimetableEntry.endTime := TimetableEntry.endTime e;
     TimetableEntry.room := TimetableEntry.room e;
     TimetableEntry.versionId := TimetableEntry.versionId e;
     TimetableEntry.isActive := false |}.

(** [bulkCreateTimetableEntries]: every existing entry of a class that
    receives new entries is deactivated, then the new rows are inserted.
    The classes are taken without repeats; the order of the updates has no
    influence on the table. *)
Definition bulkCreateTimetableEntries (db : Db) (entries : list TimetableEntry.t) : Db :=
  if bool_decide (length entries = 0%nat) then db
  else
    let classIds := remove_dups (TimetableEntry.classId <$> entries) in
    let deactivated :=
      foldl (λ rows classId,
               (λ e, if bool_decide (TimetableEntry.classId e = classId)
                     then deactivateEntry e else e) <$> rows)
        (timetableEntries db) classIds in
    withEntries (deactivated ++ entries) db.

Definition setIsActive (active : bool) (v : TimetableVersion.t) : TimetableVersion.t :=
  {| TimetableVersion.id := TimetableVersion.id v;
     TimetableVersion.classId := TimetableVersion.classId v;
     TimetableVersion.version := TimetableVersion.version v;
     TimetableVersion.weekStart := TimetableVersion.weekStart v;
     TimetableVersion.weekEnd := TimetableVersion.weekEnd v;
     TimetableVersion.isActive := active |}.

(** The [where] clause "this class and this week". *)
Definition inWeek (classId weekStart weekEnd : string) (v : TimetableVersion.t) : Prop :=
  TimetableVersion.classId v = classId
  ∧ TimetableVersion.weekStart v = weekStart
  ∧ TimetableVersion.weekEnd v = weekEnd.

Global Instance inWeek_dec classId weekStart weekEnd v :
  Decision (inWeek classId weekStart weekEnd v).
Proof. unfold inWeek. apply _. Defined.

(** [UPDATE timetable_versions SET is_active = ... WHERE ...]. *)
Definition updateIsActive (P : TimetableVersion.t → Prop) `{!∀ v, Decision (P v)}
    (active : bool) (vs : list TimetableVersion.t) : list TimetableVersion.t :=
  (λ v, if decide (P v) then setIsActive active v else v) <$> vs.

(** [createTimetableVersion]; the row order of the table is the order of
    creation. *)
Definition createTimetableVersion (db : Db)
    (classId version weekStart weekEnd : string) (isActive : bool)
    : TimetableVersion.t * Db :=
  let '(id, db) := gen_random_uuid db in
  let created := TimetableVersion.mk id classId version weekStart weekEnd isActive in
  (created, withVersions (timetableVersions db ++ [created]) db).

Definition getTimetableVersionsForClass (db : Db) (classId weekStart weekEnd : string)
    : list TimetableVersion.t :=
  filter (inWeek classId weekStart weekEnd) (timetableVersions db).

Definition activeCount (classId weekStart weekEnd : string)
    (vs : list TimetableVersion.t) : nat :=
  length (filter (λ v, inWeek classId weekStart weekEnd v
                       ∧ TimetableVersion.isActive v = true) vs).

Definition setActiveVersion (db : Db) (versionId classId : string) : Db :=
  match filter (λ v, TimetableVersion.id v = versionId) (timetableVersions db) with
  | [] => db
  | version :: _ =>
      let weekStart := TimetableVersion.weekStart version in
      let weekEnd := TimetableVersion.weekEnd version in
      let deactivateWeek := updateIsActive (inWeek classId weekStart weekEnd) false in
      let activateSelected := updateIsActive (λ v, TimetableVersion.id v = versionId) true in
      let vs := activateSelected (deactivateWeek (timetableVersions db)) in
      let vs :=
        if bool_decide (1 < activeCount classId weekStart weekEnd vs)%nat
        then activateSelected (deactivateWeek vs)
        else vs in
      withVersions vs db
  end.

End storage.

(** ** [scheduler.ts]: [generateTimetable] *)

Record GenerationResult := {
  success : bool;
  message : string;
  entriesCreated : option nat;
  version : option string;
}.

Definition failure (message : string) : GenerationResult :=
  {| success := false; message := message; entriesCreated := None; version := None |}.

(** An element of [versionsCreated]. *)
Module VersionCreated.
Record t := mk {
  classId : string;
  version : string;
  versionId : string;
}.
End VersionCreated.

(** "Get all data": the classes of the run, or the early failure. *)
Definition loadClasses (db : storage.Db) (classId userSchoolId : option string)
    : GenerationResult + list Class.t :=
  match JS.whenTruthy classId with
  | Some cid =>
      match storage.getClass db cid with
      | None => inl (failure "Class not found.")
      | Some singleClass => inr [singleClass]
      end
  | None =>
      let classes := storage.getClasses db None in
      match JS.whenTruthy userSchoolId with
      | Some sid => inr (filter (λ cls, Class.schoolId cls = sid) classes)
      | None => inl (failure "Please generate timetable for specific classes.")
      end
  end.

(** The loop "process each class": one new active version per class.
    [weekStart] and [weekEnd] are the ISO dates computed from [new Date()]. *)
Fixpoint createVersions (db : storage.Db) (weekStart weekEnd : string)
    (classes : list Class.t) (versionsCreated : list VersionCreated.t)
    : storage.Db * list VersionCreated.t :=
  match classes with
  | [] => (db, versionsCreated)
  | classData :: rest =>
      let existingVersions :=
        storage.getTimetableVersionsForClass db (Class.id classData) weekStart weekEnd in
      let newVersionNumber := (length existingVersions + 1)%nat in
      let versionString := "v0." +:+ pretty newVersionNumber in
      let '(newVersion, db) :=
        storage.createTimetableVersion db (Class.id classData) versionString
          weekStart weekEnd true in
      let db := storage.setActiveVersion db (TimetableVersion.id newVersion) (Class.id classData) in
      createVersions db weekStart weekEnd rest
        (versionsCreated ++
         [VersionCreated.mk (Class.id classData) versionString (TimetableVersion.id newVersion)])
  end.

Definition buildConstraints (db : storage.Db) (classes : list Class.t)
    : list ScheduleConstraint.t :=
  classData ← classes;
  assignment ← storage.getClassSubjectAssignments db (Some (Class.id classData));
  let assignedTeachers :=
    match JS.whenTruthy (AssignmentRow.assignedTeacherId assignment) with
    | Some teacherId => [teacherId]
    | None => []
    end in
  [ ScheduleConstraint.mk (Class.id classData) (AssignmentRow.subjectId assignment)
      (AssignmentRow.weeklyFrequency assignment) assignedTeachers ].

(** What [generateTimetable] holds when it calls [solveSchedule]. *)
Record Run := {
  run_classes : list Class.t;
  run_subjects : list Subject.t;
  run_teachers : list Teacher.t;
  run_scheduler : TimetableScheduler;
  run_db : storage.Db;
  run_versionsCreated : list VersionCreated.t;
  run_constraints : list ScheduleConstraint.t;
}.

(** [generateTimetable] up to the call of [solveSchedule]. *)
Definition prepareRun (this : TimetableScheduler) (db : storage.Db)
    (weekStart weekEnd : string) (classId userSchoolId : option string)
    : GenerationResult + Run :=
  match loadClasses db classId userSchoolId with
  | inl early => inl early
  | inr classes =>
      match JS.whenTruthy (Class.schoolId <$> head classes) with
      | None => inl (failure "Classes must be associated with a school.")
      | Some schoolId =>
          let subjects := storage.getSubjects db None in
          let teachers := storage.getTeachers db (Some schoolId) in
          if bool_decide (length classes = 0%nat)
             || bool_decide (length subjects = 0%nat)
             || bool_decide (length teachers = 0%nat)
          then inl (failure "Please ensure you have added classes, subjects, and teachers before generating timetable.")
          else
            let this :=
              initializeFromStructure
                (λ sid, Fulfilled (storage.getTimetableStructureBySchool db sid))
                (Some schoolId) this in
            let '(db, versionsCreated) := createVersions db weekStart weekEnd classes [] in
            inr {| run_classes := classes; run_subjects := subjects;
                   run_teachers := teachers; run_scheduler := this; run_db := db;
                   run_versionsCreated := versionsCreated;
                   run_constraints := buildConstraints db classes |}
      end
  end.

Definition stampVersion (versionsCreated : list VersionCreated.t) (entry : TimetableEntry.t)
    : TimetableEntry.t :=
  match List.find (λ v, bool_decide (VersionCreated.classId v = TimetableEntry.classId entry))
          versionsCreated with
  | Some classVersion =>
      {| TimetableEntry.classId := TimetableEntry.classId entry;
         TimetableEntry.teacherId := TimetableEntry.teacherId entry;
         TimetableEntry.subjectId := TimetableEntry.subjectId entry;
         TimetableEntry.day := TimetableEntry.day entry;
         TimetableEntry.period := TimetableEntry.period entry;
         TimetableEntry.startTime := TimetableEntry.startTime entry;
         TimetableEntry.endTime := TimetableEntry.endTime entry;
         TimetableEntry.room := TimetableEntry.room entry;
         TimetableEntry.versionId := Some (VersionCreated.versionId classVersion);
         TimetableEntry.isActive := TimetableEntry.isActive entry |}
  | None => entry
  end.

(** [generateTimetable] from the result of [solveSchedule] on. *)
Definition finishRun (run : Run) (schedule : list TimetableEntry.t)
    : GenerationResult * storage.Db :=
  if bool_decide (length schedule = 0%nat) then
    (failure "Unable to generate a valid timetable with current constraints. Please check teacher availability and subject requirements.",
     run_db run)
  else
    let scheduleWithVersions := stampVersion (run_versionsCreated run) <$> schedule in
    let db := storage.bulkCreateTimetableEntries (run_db run) scheduleWithVersions in
    let versionString :=
      match run_versionsCreated run with
      | v :: _ => VersionCreated.version v
      | [] => "v0.1"
      end in
    ({| success := true;
        message := "Timetable generated successfully with " +:+ pretty (length schedule)
                   +:+ " entries.";
        entriesCreated := Some (length schedule);
        version := Some versionString |},
     db).

(** [generateTimetable(classId?, userSchoolId?)] on the scheduler [this] and
    the database [db]; returns the result with the database and the
    scheduler after the call. *)
Definition generateTimetable (this : TimetableScheduler) (db : storage.Db)
    (rs : RandomSource) (weekStart weekEnd : string)
    (classId userSchoolId : option string)
    : GenerationResult * storage.Db * TimetableScheduler :=
  match prepareRun this db weekStart weekEnd classId userSchoolId with
  | inl early => (early, db, this)
  | inr run =>
      let schedule :=
        solveSchedule rs (timeSlots (run_scheduler run)) (run_constraints run)
          (run_teachers run) (run_subjects run) in
      let '(result, db) := finishRun run schedule in
      (result, db, run_scheduler run)
  end.

(** ** [scheduler.ts]: [validateTimetable] *)

Record ValidationResult := {
  isValid : bool;
  conflicts : list string;
}.

Definition daySlotKey (entry : TimetableEntry.t) : string :=
  TimetableEntry.day entry +:+ "-" +:+ pretty (TimetableEntry.period entry).

(** The callback of [timetableEntries.find] in the teacher check. *)
Definition clashesWith (entry e : TimetableEntry.t) : bool :=
  bool_decide (TimetableEntry.teacherId e = TimetableEntry.teacherId entry)
  && bool_decide (TimetableEntry.day e = TimetableEntry.day entry)
  && bool_decide (TimetableEntry.period e = TimetableEntry.period entry)
  && negb (bool_decide (TimetableEntry.classId e = TimetableEntry.classId entry)).

(** One iteration of the teacher double-booking loop: the map of the slots
    seen per teacher, and the pairs [(entry, conflictEntry)] reported. *)
Definition teacherConflictStep (timetableEntries : list TimetableEntry.t)
    (acc : gmap string (gset string) * list (TimetableEntry.t * TimetableEntry.t))
    (entry : TimetableEntry.t)
    : gmap string (gset string) * list (TimetableEntry.t * TimetableEntry.t) :=
  let '(teacherSchedule, reported) := acc in
  let slotKey := daySlotKey entry in
  let teacherId := TimetableEntry.teacherId entry in
  let teacherSchedule :=
    if bool_decide (is_Some (teacherSchedule !! teacherId)) then teacherSchedule
    else <[teacherId := ∅]> teacherSchedule in
  let teacherSlots := default ∅ (teacherSchedule !! teacherId) in
  if bool_decide (slotKey ∈ teacherSlots) then
    match List.find (clashesWith entry) timetableEntries with
    | Some conflictEntry => (teacherSchedule, reported ++ [(entry, conflictEntry)])
    | None => (teacherSchedule, reported)
    end
  else (<[teacherId := teacherSlots ∪ {[slotKey]}]> teacherSchedule, reported).

Definition teacherConflictPairs (timetableEntries : list TimetableEntry.t)
    : list (TimetableEntry.t * TimetableEntry.t) :=
  snd (foldl (teacherConflictStep timetableEntries) (∅, []) timetableEntries).

Definition teacherConflictMessage (p : TimetableEntry.t * TimetableEntry.t) : string :=
  let '(entry, conflictEntry) := p in
  "Teacher conflict: Teacher " +:+ TimetableEntry.teacherId entry
  +:+ " is scheduled for both Class " +:+ TimetableEntry.classId entry
  +:+ " and Class " +:+ TimetableEntry.classId conflictEntry
  +:+ " on " +:+ TimetableEntry.day entry
  +:+ " period " +:+ pretty (TimetableEntry.period entry).

(** One iteration of the room loop. *)
Definition roomConflictStep (acc : gmap string (gset string) * list string)
    (entry : TimetableEntry.t) : gmap string (gset string) * list string :=
  let '(roomSchedule, found) := acc in
  match JS.whenTruthy (TimetableEntry.room entry) with
  | None => acc
  | Some room =>
      let slotKey := daySlotKey entry in
      let roomSchedule :=
        if bool_decide (is_Some (roomSchedule !! room)) then roomSchedule
        else <[room := ∅]> roomSchedule in
      let roomSlots := default ∅ (roomSchedule !! room) in
      if bool_decide (slotKey ∈ roomSlots) then
        (roomSchedule,
         found ++ ["Room conflict: Room " +:+ room +:+ " is double-booked on "
                   +:+ TimetableEntry.day entry +:+ " period "
                   +:+ pretty (TimetableEntry.period entry)])
      else (<[room := roomSlots ∪ {[slotKey]}]> roomSchedule, found)
  end.

Definition roomConflicts (timetableEntries : list TimetableEntry.t) : list string :=
  snd (foldl roomConflictStep (∅, []) timetableEntries).

(** One iteration of the loop that fills [classSubjectCount]. *)
Definition countStep (classSubjectCount : gmap string (gmap string nat))
    (entry : TimetableEntry.t) : gmap string (gmap string nat) :=
  let classId := TimetableEntry.classId entry in
  let classSubjectCount :=
    if bool_decide (is_Some (classSubjectCount !! classId)) then classSubjectCount
    else <[classId := ∅]> classSubjectCount in
  let subjectCount := default ∅ (classSubjectCount !! classId) in
  let currentCount := default 0%nat (subjectCount !! TimetableEntry.subjectId entry) in
  <[classId := <[TimetableEntry.subjectId entry := S currentCount]> subjectCount]>
    classSubjectCount.

Definition classSubjectCountOf (timetableEntries : list TimetableEntry.t)
    : gmap string (gmap string nat) :=
  foldl countStep ∅ timetableEntries.

Definition subjectNameOf (assignment : AssignmentRow.t) : string :=
  JS.orElse (Some (Subject.name (AssignmentRow.subject assignment))) "Unknown Subject".

Definition insufficientMessage (classData : Class.t) (assignment : AssignmentRow.t)
    (actualCount : nat) : string :=
  "Insufficient periods: Class " +:+ Class.grade classData +:+ "-" +:+ Class.section classData
  +:+ " needs " +:+ pretty (AssignmentRow.weeklyFrequency assignment)
  +:+ " periods of " +:+ subjectNameOf assignment
  +:+ " but only has " +:+ pretty actualCount.

Definition excessMessage (classData : Class.t) (assignment : AssignmentRow.t)
    (actualCount : nat) : string :=
  "Excess periods: Class " +:+ Class.grade classData +:+ "-" +:+ Class.section classData
  +:+ " has " +:+ pretty actualCount
  +:+ " periods of " +:+ subjectNameOf assignment
  +:+ " but only needs " +:+ pretty (AssignmentRow.weeklyFrequency assignment).

(** The messages pushed for one assignment of one class. *)
Definition frequencyCheck (actualCounts : gmap string nat) (classData : Class.t)
    (assignment : AssignmentRow.t) : list string :=
  let actualCount := default 0%nat (actualCounts !! AssignmentRow.subjectId assignment) in
  (if bool_decide (Z.of_nat actualCount < AssignmentRow.weeklyFrequency assignment)
   then [insufficientMessage classData assignment actualCount] else [])
  ++
  (if bool_decide (AssignmentRow.weeklyFrequency assignment < Z.of_nat actualCount)
   then [excessMessage classData assignment actualCount] else []).

Definition frequencyConflicts (db : storage.Db)
    (classSubjectCount : gmap string (gmap string nat)) : list string :=
  classData ← storage.getClasses db None;
  let assignments := storage.getClassSubjectAssignments db (Some (Class.id classData)) in
  let actualCounts := default ∅ (classSubjectCount !! Class.id classData) in
  assignment ← assignments;
  frequencyCheck actualCounts classData assignment.

Definition validateTimetable (db : storage.Db) : ValidationResult :=
  let timetableEntries := storage.getTimetableEntries db in
  let conflicts :=
    (teacherConflictMessage <$> teacherConflictPairs timetableEntries)
    ++ roomConflicts timetableEntries
    ++ frequencyConflicts db (classSubjectCountOf timetableEntries) in
  {| isValid := bool_decide (length conflicts = 0%nat); conflicts := conflicts |}.

(** ** [storage.ts]: further operations on the same tables *)


Definition withStructures (ss : list TimetableStructure.t) (db : storage.Db) : storage.Db :=
  {| storage.classes := storage.classes db; storage.subjects := storage.subjects db;
     storage.teachers := storage.teachers db;
     storage.classSubjectAssignments := storage.classSubjectAssignments db;
     storage.timetableStructures := ss;
     storage.timetableVersions := storage.timetableVersions db;
     storage.timetableEntries := storage.timetableEntries db;
     storage.uuidCounter := storage.uuidCounter db |}.



(** The third conjunct of the [where] clause of [getAvailableTeachers]:
    [NOT IN assignedIds] when the list is not empty, [TRUE] otherwise. *)
Definition notAssigned (assignedIds : list string) (t : Teacher.t) : Prop :=
  if bool_decide (0 < length assignedIds)%nat then Teacher.id t ∉ assignedIds else True.

Global Instance notAssigned_dec assignedIds t : Decision (notAssigned assignedIds t).
Proof. unfold notAssigned. case_bool_decide; apply _. Defined.

Definition getAvailableTeachers (db : storage.Db) (day : string) (period : Z)
    (subjectId schoolId : string) : list Teacher.t :=
  let assignedTeachers :=
    filter (λ e, TimetableEntry.day e = day ∧ TimetableEntry.period e = period
                 ∧ TimetableEntry.isActive e = true)
      (storage.timetableEntries db) in
  let assignedIds := TimetableEntry.teacherId <$> assignedTeachers in
  filter (λ t, Teacher.isActive t = true ∧ Teacher.schoolId t = schoolId
               ∧ notAssigned assignedIds t ∧ subjectId ∈ Teacher.subjects t)
    (storage.teachers db).

Definition getTimetableForClass (db : storage.Db) (classId : string) : list TimetableEntry.t :=
  filter (λ e, TimetableEntry.classId e = classId ∧ TimetableEntry.isActive e = true)
    (storage.timetableEntries db).

Definition getTimetableForTeacher (db : storage.Db) (teacherId : string)
    : list TimetableEntry.t :=
  filter (λ e, TimetableEntry.teacherId e = teacherId ∧ TimetableEntry.isActive e = true)
    (storage.timetableEntries db).

Definition clearTimetable (db : storage.Db) : storage.Db := storage.withEntries [] db.

(** [getTimetableEntriesForVersion]: no filter on [isActive]. *)
Definition getTimetableEntriesForVersion (db : storage.Db) (versionId : string)
    : list TimetableEntry.t :=
  filter (λ e, TimetableEntry.versionId e = Some versionId) (storage.timetableEntries db).

(** [getActiveTimetableVersion]: [limit(1)] without an [orderBy], read here
    as the first row in table order, and [null] for no row. *)
Definition getActiveTimetableVersion (db : storage.Db) (classId weekStart weekEnd : string)
    : option TimetableVersion.t :=
  head (filter (λ v, storage.inWeek classId weekStart weekEnd v
                     ∧ TimetableVersion.isActive v = true)
          (storage.timetableVersions db)).

(** [InsertTimetableStructure]: only [schoolId] is required, the other
    columns have the defaults of [shared/schema.ts]. *)
Module InsertTimetableStructure.
Record t := mk {
  schoolId : string;
  workingDays : option (list string);
  timeSlots : option (list StructureSlot.t);
  isActive : option bool;
}.
End InsertTimetableStructure.

Definition defaultWorkingDays : list string :=
  ["monday"; "tuesday"; "wednesday"; "thursday"; "friday"; "saturday"].

Definition defaultTimeSlots : list StructureSlot.t :=
  [ StructureSlot.mk 1 "07:30" "08:15" None;
    StructureSlot.mk 2 "08:15" "09:00" None;
    StructureSlot.mk 3 "09:00" "09:45" None;
    StructureSlot.mk 4 "09:45" "10:15" None;
    StructureSlot.mk 5 "10:15" "11:00" (Some true);
    StructureSlot.mk 6 "11:00" "11:45" None;
    StructureSlot.mk 7 "11:45" "12:30" None;
    StructureSlot.mk 8 "12:30" "13:15" None ].

(** The row the [insert] stores and returns. *)
Definition insertedStructure (structure : InsertTimetableStructure.t) : TimetableStructure.t :=
  {| TimetableStructure.schoolId := InsertTimetableStructure.schoolId structure;
     TimetableStructure.workingDays :=
       Some (default defaultWorkingDays (InsertTimetableStructure.workingDays structure));
     TimetableStructure.timeSlots :=
       Some (default defaultTimeSlots (InsertTimetableStructure.timeSlots structure));
     TimetableStructure.isActive := default true (InsertTimetableStructure.isActive structure) |}.

Definition retireStructure (s : TimetableStructure.t) : TimetableStructure.t :=
  {| TimetableStructure.schoolId := TimetableStructure.schoolId s;
     TimetableStructure.workingDays := TimetableStructure.workingDays s;
     TimetableStructure.timeSlots := TimetableStructure.timeSlots s;
     TimetableStructure.isActive := false |}.

(** [createTimetableStructure]: the active structures of the school are
    deactivated, then the new row is inserted. *)
Definition createTimetableStructure (db : storage.Db) (structure : InsertTimetableStructure.t)
    : TimetableStructure.t * storage.Db :=
  let deactivated :=
    (λ s, if decide (TimetableStructure.schoolId s = InsertTimetableStructure.schoolId structure
                     ∧ TimetableStructure.isActive s = true)
          then retireStructure s else s) <$> storage.timetableStructures db in
  let newStructure := insertedStructure structure in
  (newStructure, withStructures (deactivated ++ [newStructure]) db).

(** ** [scheduler.ts]: [suggestOptimizations] *)

(** A count as a JavaScript number (a binary64 float); exact below 2^53. *)
Definition toNumber (n : nat) : float := PrimFloat.of_uint63 (Uint63.of_Z (Z.of_nat n)).

(** One iteration of the loop that fills [teacherWorkload]. *)
Definition workloadStep (teacherWorkload : gmap string nat) (entry : TimetableEntry.t)
    : gmap string nat :=
  let current := default 0%nat (teacherWorkload !! TimetableEntry.teacherId entry) in
  <[TimetableEntry.teacherId entry := (current + 1)%nat]> teacherWorkload.

Definition teacherWorkloadOf (timetableEntries : list TimetableEntry.t) : gmap string nat :=
  foldl workloadStep ∅ timetableEntries.

(** [maxWorkload - minWorkload > avgWorkload * 0.3] in the arithmetic of
    JavaScript numbers: the sum of no number is [0], [Math.max()] is
    [-Infinity], [Math.min()] is [Infinity], and [0 / 0] is [NaN], which
    compares false. The literal is the binary64 value of [0.3]. The sum, the
    maximum and the minimum of whole numbers do not depend on the order of
    [workloads]. *)
Definition workloadUnbalanced (workloads : list nat) : bool :=
  let sum := foldl (λ a b, PrimFloat.add a (toNumber b)) PrimFloat.zero workloads in
  let avgWorkload := PrimFloat.div sum (toNumber (length workloads)) in
  let maxWorkload :=
    foldl (λ a b, if PrimFloat.ltb a (toNumber b) then toNumber b else a)
      PrimFloat.neg_infinity workloads in
  let minWorkload :=
    foldl (λ a b, if PrimFloat.ltb (toNumber b) a then toNumber b else a)
      PrimFloat.infinity workloads in
  PrimFloat.ltb (PrimFloat.mul avgWorkload 0x1.3333333333333p-2%float)
    (PrimFloat.sub maxWorkload minWorkload).

(** [afternoonPeriods > morningPeriods * 1.5]; both sides are whole or half
    numbers, so the comparison is the one of [2 * afternoon] with
    [3 * morning]. *)
Definition afternoonHeavy (timetableEntries : list TimetableEntry.t) : bool :=
  let morningPeriods := length (filter (λ e, TimetableEntry.period e ≤ 4) timetableEntries) in
  let afternoonPeriods := length (filter (λ e, 5 ≤ TimetableEntry.period e) timetableEntries) in
  bool_decide (3 * morningPeriods < 2 * afternoonPeriods)%nat.

(** One iteration of the loop that fills [dailySchedules]. *)
Definition dailyScheduleStep (dailySchedules : gmap string (gmap string (list string)))
    (entry : TimetableEntry.t) : gmap string (gmap string (list string)) :=
  let classId := TimetableEntry.classId entry in
  let day := TimetableEntry.day entry in
  let dailySchedules :=
    if bool_decide (is_Some (dailySchedules !! classId)) then dailySchedules
    else <[classId := ∅]> dailySchedules in
  let classSchedule := default ∅ (dailySchedules !! classId) in
  let classSchedule :=
    if bool_decide (is_Some (classSchedule !! day)) then classSchedule
    else <[day := []]> classSchedule in
  <[classId := <[day := default [] (classSchedule !! day) ++ [TimetableEntry.subjectId entry]]>
                 classSchedule]> dailySchedules.

Definition dailySchedulesOf (timetableEntries : list TimetableEntry.t)
    : gmap string (gmap string (list string)) :=
  foldl dailyScheduleStep ∅ timetableEntries.

(** The [for] loop over one day: some element equals its successor. *)
Fixpoint hasRepeat (subjects : list string) : bool :=
  match subjects with
  | a :: (b :: _) as rest => bool_decide (a = b) || hasRepeat rest
  | _ => false
  end.

Definition hasConsecutiveSameSubjects (dailySchedules : gmap string (gmap string (list string)))
    : bool :=
  existsb (λ '(_, schedule), existsb (λ '(_, subjects), hasRepeat subjects)
                               (map_to_list schedule))
    (map_to_list dailySchedules).

Definition suggestOptimizations (db : storage.Db) : list string :=
  let timetableEntries := storage.getTimetableEntries db in
  let workloads := (map_to_list (teacherWorkloadOf timetableEntries)).*2 in
  let suggestions :=
    (if workloadUnbalanced workloads
     then ["Consider redistributing teacher workload for better balance."] else [])
    ++ (if afternoonHeavy timetableEntries
        then ["Consider moving some subjects to morning hours for better student engagement."]
        else [])
    ++ (if hasConsecutiveSameSubjects (dailySchedulesOf timetableEntries)
        then ["Avoid scheduling the same subject in consecutive periods for better learning outcomes."]
        else []) in
  if bool_decide (length suggestions = 0%nat)
  then ["Current timetable appears well-optimized. No major issues detected."]
  else suggestions.

(** * Vocabulary of the statements *)

(** The default grid in the words of the specification: Monday to Friday,
    eight periods a day, 08:00-08:45 through 13:30-14:15. *)
Definition defaultGrid : list TimeSlot.t :=
  day ← ["monday"; "tuesday"; "wednesday"; "thursday"; "friday"];
  [ TimeSlot.mk day 1 "08:00" "08:45"; TimeSlot.mk day 2 "08:45" "09:30";
    TimeSlot.mk day 3 "09:30" "10:15"; TimeSlot.mk day 4 "10:15" "11:00";
    TimeSlot.mk day 5 "11:15" "12:00"; TimeSlot.mk day 6 "12:00" "12:45";
    TimeSlot.mk day 7 "12:45" "13:30"; TimeSlot.mk day 8 "13:30" "14:15" ].

(** The grid a structure describes: its working days times its slots that
    are not breaks. *)
Definition gridOf (structure : TimetableStructure.t) : list TimeSlot.t :=
  day ← default weekdays (TimetableStructure.workingDays structure);
  slotOf day <$> filter (λ s, StructureSlot.isBreak s ≠ Some true)
                   (default periodTimes (TimetableStructure.timeSlots structure)).

(** The teacher's availability list for a day; a day without an entry in
    the availability object reads as the empty list. *)
Definition availabilityOn (t : Teacher.t) (day : string) : list string :=
  default [] (Teacher.availability t !! day).

(** The "startTime-endTime" string of an entry. *)
Definition entryRange (e : TimetableEntry.t) : string :=
  TimetableEntry.startTime e +:+ "-" +:+ TimetableEntry.endTime e.

(** The entry names a teacher of the roster who is active, qualified for
    the subject of the entry and available at its time. *)
Definition teacherFits (teachers : list Teacher.t) (e : TimetableEntry.t) : Prop :=
  ∃ t, t ∈ teachers
       ∧ Teacher.id t = TimetableEntry.teacherId e
       ∧ Teacher.isActive t = true
       ∧ TimetableEntry.subjectId e ∈ Teacher.subjects t
       ∧ (availabilityOn t (TimetableEntry.day e) = []
          ∨ entryRange e ∈ availabilityOn t (TimetableEntry.day e)).

(** Number of entries of a schedule for one class, day and subject. *)
Definition entriesOn (es : list TimetableEntry.t) (classId day subjectId : string) : nat :=
  length (filter (λ e, TimetableEntry.classId e = classId
                       ∧ TimetableEntry.day e = day
                       ∧ TimetableEntry.subjectId e = subjectId) es).

(** The cell of the weekly grid an entry occupies for its class, and the
    one it occupies for its teacher. No double booking of a schedule [es]
    reads [NoDup (classSlot <$> es)] and [NoDup (teacherSlot <$> es)]. *)
Definition classSlot (e : TimetableEntry.t) : string * string * Z :=
  (TimetableEntry.classId e, TimetableEntry.day e, TimetableEntry.period e).

Definition teacherSlot (e : TimetableEntry.t) : string * string * Z :=
  (TimetableEntry.teacherId e, TimetableEntry.day e, TimetableEntry.period e).

(** The entries a constraint adds come from its pool and carry its class
    and subject. *)
Definition addedFrom (c : ScheduleConstraint.t) (eligible : list Teacher.t)
    (before after : SolverState) : Prop :=
  ∃ added,
    schedule after = schedule before ++ added
    ∧ ∀ e, e ∈ added →
        TimetableEntry.classId e = ScheduleConstraint.classId c
        ∧ TimetableEntry.subjectId e = ScheduleConstraint.subjectId c
        ∧ ∃ t, t ∈ eligible ∧ TimetableEntry.teacherId e = Teacher.id t.

(** Exactly one version of the class and week is active. *)
Definition exactlyOneActive (vs : list TimetableVersion.t)
    (classId weekStart weekEnd : string) : Prop :=
  storage.activeCount classId weekStart weekEnd vs = 1%nat.

(** A call [setActiveVersion(versionId, classId)]. *)
Definition Call : Type := string * string.

(** The version id of the call names a version of the class of the call. *)
Definition resolves (vs : list TimetableVersion.t) (call : Call) : Prop :=
  ∃ v, v ∈ vs ∧ TimetableVersion.id v = call.1 ∧ TimetableVersion.classId v = call.2.

(** The call activates a version of this class and week. *)
Definition targets (vs : list TimetableVersion.t) (classId weekStart weekEnd : string)
    (call : Call) : Prop :=
  ∃ v, v ∈ vs ∧ TimetableVersion.id v = call.1 ∧ call.2 = classId
       ∧ storage.inWeek classId weekStart weekEnd v.

Global Instance targets_dec (vs : list TimetableVersion.t) classId weekStart weekEnd call :
  Decision (targets vs classId weekStart weekEnd call).
Proof.
  refine (cast_if (decide (Exists (λ v, TimetableVersion.id v = call.1 ∧ call.2 = classId
                                        ∧ storage.inWeek classId weekStart weekEnd v) vs)));
    unfold targets; rewrite Exists_exists in *; firstorder.
Defined.

(** The calls of a sequence, one after the other. *)
Definition runCalls (db : storage.Db) (calls : list Call) : storage.Db :=
  foldl (λ db call, storage.setActiveVersion db call.1 call.2) db calls.

(** The inputs that make [generateTimetable] give up before it creates a
    version: the requested class does not exist; neither a class nor a
    school is given; the user's school has no class; the first class of the
    run has no school; the subject table is empty (it is read for all
    schools at once); the school of the run has no active teacher. *)
Inductive InputAbsent (db : storage.Db) (classId userSchoolId : option string) : Prop :=
| class_not_found cid :
    JS.whenTruthy classId = Some cid → storage.getClass db cid = None →
    InputAbsent db classId userSchoolId
| no_school_given :
    JS.whenTruthy classId = None → JS.whenTruthy userSchoolId = None →
    InputAbsent db classId userSchoolId
| no_class_in_school sid :
    JS.whenTruthy classId = None → JS.whenTruthy userSchoolId = Some sid →
    filter (λ c, Class.schoolId c = sid) (storage.classes db) = [] →
    InputAbsent db classId userSchoolId
| no_school_of_class classes :
    loadClasses db classId userSchoolId = inr classes →
    JS.whenTruthy (Class.schoolId <$> head classes) = None →
    InputAbsent db classId userSchoolId
| no_subject_at_all :
    storage.subjects db = [] →
    InputAbsent db classId userSchoolId
| no_active_teacher_in_school classes sid :
    loadClasses db classId userSchoolId = inr classes →
    JS.whenTruthy (Class.schoolId <$> head classes) = Some sid →
    filter (λ t, Teacher.isActive t = true ∧ Teacher.schoolId t = sid) (storage.teachers db) = [] →
    InputAbsent db classId userSchoolId.

(** The number of active entries of a class for a subject. *)
Definition matchingEntries (db : storage.Db) (classId subjectId : string) : nat :=
  length (filter (λ e, TimetableEntry.isActive e = true
                       ∧ TimetableEntry.classId e = classId
                       ∧ TimetableEntry.subjectId e = subjectId)
            (storage.timetableEntries db)).

(** A reported pair: two active entries of different classes that put the
    same teacher into the same day and period. *)
Definition clash (es : list TimetableEntry.t) (p : TimetableEntry.t * TimetableEntry.t) : Prop :=
  p.1 ∈ es ∧ p.2 ∈ es
  ∧ teacherSlot p.1 = teacherSlot p.2
  ∧ TimetableEntry.classId p.1 ≠ TimetableEntry.classId p.2.

(** The entry sits on the time slot: same day, period and times. *)
Definition onSlot (timeSlot : TimeSlot.t) (e : TimetableEntry.t) : Prop :=
  TimetableEntry.day e = TimeSlot.day timeSlot
  ∧ TimetableEntry.period e = TimeSlot.period timeSlot
  ∧ TimetableEntry.startTime e = TimeSlot.startTime timeSlot
  ∧ TimetableEntry.endTime e = TimeSlot.endTime timeSlot.

(** An entry as the solver makes it for the constraint [c]: class and
    subject of [c], a slot of the grid, a teacher of the pool, no room, no
    version yet, active. *)
Definition placedFor (c : ScheduleConstraint.t) (slots : list TimeSlot.t)
    (eligible : list Teacher.t) (e : TimetableEntry.t) : Prop :=
  TimetableEntry.classId e = ScheduleConstraint.classId c
  ∧ TimetableEntry.subjectId e = ScheduleConstraint.subjectId c
  ∧ (∃ timeSlot, timeSlot ∈ slots ∧ onSlot timeSlot e)
  ∧ (∃ t, t ∈ eligible ∧ TimetableEntry.teacherId e = Teacher.id t)
  ∧ TimetableEntry.room e = None
  ∧ TimetableEntry.versionId e = None
  ∧ TimetableEntry.isActive e = true.

(** The subject of the constraint is in the subject list. *)
Definition subjectKnown (subjects : list Subject.t) (c : ScheduleConstraint.t) : Prop :=
  ScheduleConstraint.subjectId c ∈ Subject.id <$> subjects.

(** Number of entries of a schedule for one class and subject, and the
    periods the constraints ask for that class and subject. *)
Definition entriesFor (es : list TimetableEntry.t) (classId subjectId : string) : nat :=
  length (filter (λ e, TimetableEntry.classId e = classId
                       ∧ TimetableEntry.subjectId e = subjectId) es).

Definition demand (constraints : list ScheduleConstraint.t) (classId subjectId : string) : nat :=
  sum_list_with (λ c, Z.to_nat (ScheduleConstraint.periodsNeeded c))
    (filter (λ c, ScheduleConstraint.classId c = classId
                  ∧ ScheduleConstraint.subjectId c = subjectId) constraints).

(** The ids [gen_random_uuid] produces from now on are not in use: this is
    what "random" promises about the version ids. *)
Definition freshIds (db : storage.Db) : Prop :=
  ∀ v n, v ∈ storage.timetableVersions db → (storage.uuidCounter db ≤ n)%N →
         TimetableVersion.id v ≠ "uuid-" +:+ pretty n.

(** The room booking of an entry: its room, when it names one, with the key
    of its day and period. *)
Definition roomBooking (e : TimetableEntry.t) : option (string * string) :=
  (λ room, (room, daySlotKey e)) <$> JS.whenTruthy (TimetableEntry.room e).

(** The day names the schema lists for the [day] column of
    [timetable_entries]. *)
Definition dayNames : list string :=
  ["monday"; "tuesday"; "wednesday"; "thursday"; "friday"; "saturday"].

(** A slot of an ordinary grid: its day is one of these names and its
    period is in the range of the [integer] column. For such a slot
    [availability[day]] is the teacher's own list for the day or nothing,
    and the template literal of the slot key prints the period in plain
    digits. *)
Definition plainSlot (timeSlot : TimeSlot.t) : Prop :=
  TimeSlot.day timeSlot ∈ dayNames
  ∧ -2147483648 ≤ TimeSlot.period timeSlot ≤ 2147483647.

Global Instance plainSlot_dec timeSlot : Decision (plainSlot timeSlot).
Proof. unfold plainSlot. apply _. Defined.

(** A slot whose entries the insert into [timetable_entries] accepts: a
    plain slot whose times fit the [varchar(5)] columns. *)
Definition storableSlot (timeSlot : TimeSlot.t) : Prop :=
  plainSlot timeSlot
  ∧ (String.length (TimeSlot.startTime timeSlot) ≤ 5)%nat
  ∧ (String.length (TimeSlot.endTime timeSlot) ≤ 5)%nat.

Global Instance storableSlot_dec timeSlot : Decision (storableSlot timeSlot).
Proof. unfold storableSlot. apply _. Defined.

(** The slot loop, in the state [st], places a period of [c] on [timeSlot]
    with the teacher [t] when it gets there: the slot key of the class is
    free, the class has fewer than two periods of the subject on that day,
    and the teacher check accepts [t]. *)
Definition canPlace (c : ScheduleConstraint.t) (st : SolverState)
    (timeSlot : TimeSlot.t) (t : Teacher.t) : Prop :=
  assignments st !! slotKeyOf (ScheduleConstraint.classId c) timeSlot = None
  ∧ (getDailySubjectCount st (ScheduleConstraint.classId c) (TimeSlot.day timeSlot)
       (ScheduleConstraint.subjectId c) < 2)%nat
  ∧ teacherCanTake st timeSlot t = true.

(** The subjects of the active entries of a class on a day, in the order in
    which [getTimetableEntries] returns the entries. *)
Definition lessonsOf (es : list TimetableEntry.t) (classId day : string) : list string :=
  TimetableEntry.subjectId
    <$> filter (λ e, TimetableEntry.classId e = classId ∧ TimetableEntry.day e = day) es.

(** ** Invariants and auxiliary notions of the proofs *)

(** A placement made for [c] from the pool [eligible] keeps the property
    [P] of the solver state, given what the guards of the slot loop
    established before the placement. *)
Definition placementKeeps (P : SolverState → Prop) (c : ScheduleConstraint.t)
    (eligible : list Teacher.t) : Prop :=
  ∀ st timeSlot availableTeacher,
    P st →
    assignments st !! slotKeyOf (ScheduleConstraint.classId c) timeSlot = None →
    (getDailySubjectCount st (ScheduleConstraint.classId c) (TimeSlot.day timeSlot)
       (ScheduleConstraint.subjectId c) < 2)%nat →
    availableTeacher ∈ eligible →
    teacherCanTake st timeSlot availableTeacher = true →
    P (assign c timeSlot availableTeacher st).

(** The cell of [dailySubjectCount] under a day key and a subject. *)
Definition cellCount (counts : gmap string (gmap string nat)) (dayKey subjectId : string) : nat :=
  default 0%nat (counts !! dayKey ≫= λ dayMap, dayMap !! subjectId).

(** Both count maps of the file ([dailySubjectCount] of the solver and
    [classSubjectCount] of the validator) are raised by the same steps:
    create the inner map when the key is new, then add one to the cell. *)
Definition bump (key subjectId : string) (counts : gmap string (gmap string nat))
    : gmap string (gmap string nat) :=
  let counts :=
    if bool_decide (is_Some (counts !! key)) then counts else <[key := ∅]> counts in
  let inner := default ∅ (counts !! key) in
  <[key := <[subjectId := S (default 0%nat (inner !! subjectId))]> inner]> counts.

(** The invariant behind the cap: no cell exceeds two, and every cell
    counts at least the entries placed for a class, day and subject that
    are filed under it. *)
Definition capInvariant (st : SolverState) : Prop :=
  (∀ dayKey subjectId, cellCount (dailySubjectCount st) dayKey subjectId ≤ 2)%nat
  ∧ (∀ classId day subjectId,
       entriesOn (schedule st) classId day subjectId
       ≤ cellCount (dailySubjectCount st) (dayKeyOf classId day) subjectId)%nat.

(** The key of [assignments] under which an entry was recorded. *)
Definition entryKey (e : TimetableEntry.t) : string :=
  TimetableEntry.classId e +:+ "-" +:+ TimetableEntry.day e +:+ "-"
  +:+ pretty (TimetableEntry.period e).

(** The invariant behind the class half of no double booking: every entry
    has its key in [assignments], and no two entries share a class slot. *)
Definition classSlotInvariant (st : SolverState) : Prop :=
  (∀ e, e ∈ schedule st → is_Some (assignments st !! entryKey e))
  ∧ NoDup (classSlot <$> schedule st).

(** The columns [setActiveVersion] never writes. *)
Definition fixedColumns (v : TimetableVersion.t) : string * string * string * string :=
  (TimetableVersion.id v, TimetableVersion.classId v,
   TimetableVersion.weekStart v, TimetableVersion.weekEnd v).

(** The table after a call that resolves: in the class and week of the
    selected version every row is active exactly when it is the selected
    one; the other rows are untouched. *)
Definition selectIn (versionId classId weekStart weekEnd : string)
    (u : TimetableVersion.t) : TimetableVersion.t :=
  if decide (storage.inWeek classId weekStart weekEnd u)
  then storage.setIsActive (bool_decide (TimetableVersion.id u = versionId)) u
  else u.

(** Closes a goal [∃ message, message ≠ "" ∧ failure "..." = failure message]. *)
Ltac give_message := eexists; split; [|reflexivity]; done.

(** What one constraint adds to the schedule. *)
Definition addedPer (slots : list TimeSlot.t) (teachers : list Teacher.t)
    (subjects : list Subject.t) (c : ScheduleConstraint.t) (es : list TimetableEntry.t) : Prop :=
  (length es ≤ Z.to_nat (ScheduleConstraint.periodsNeeded c))%nat
  ∧ Forall (placedFor c slots (eligibleTeachers c teachers)) es
  ∧ (es ≠ [] → subjectKnown subjects c).

(** What the loop "process each class" leaves for a class of the run: the
    element of [versionsCreated], the label of the new version, and the
    active versions of the class and week. *)
Definition newVersionOf (before after : storage.Db) (weekStart weekEnd : string)
    (cls : Class.t) (created : VersionCreated.t) : Prop :=
  VersionCreated.classId created = Class.id cls
  ∧ VersionCreated.version created
    = ("v0." +:+ pretty (length (storage.getTimetableVersionsForClass before (Class.id cls)
                                   weekStart weekEnd) + 1)%nat)
  ∧ (VersionCreated.versionId created ∉ TimetableVersion.id <$> storage.timetableVersions before)
  ∧ filter (λ v, storage.inWeek (Class.id cls) weekStart weekEnd v
                 ∧ TimetableVersion.isActive v = true)
      (storage.timetableVersions after)
    = [TimetableVersion.mk (VersionCreated.versionId created) (Class.id cls)
         (VersionCreated.version created) weekStart weekEnd true].

(** The slot keys recorded for a teacher (or a room) in the map of the
    validator; a missing key reads as the empty set. *)
Definition seen (slots : gmap string (gset string)) (key : string) : gset string :=
  default ∅ (slots !! key).

(** The list filed in [dailySchedules] under a class and a day. *)
Definition dayCell (dailySchedules : gmap string (gmap string (list string)))
    (classId day : string) : list string :=
  default [] (dailySchedules !! classId ≫= λ schedule, schedule !! day).

(** ** Sample data *)

(** An active teacher of mathematics with the given availability. *)
Definition mathTeacher (id : string) (availability : gmap string (list string)) : Teacher.t :=
  Teacher.mk id ["math"] availability "school-1" true.

Definition mathSubject : Subject.t := Subject.mk "math" "Mathematics" "school-1".

(** The default of the [availability] column: an empty list for every day. *)
Definition unrestricted : gmap string (list string) :=
  list_to_map [("monday", []); ("tuesday", []); ("wednesday", []);
               ("thursday", []); ("friday", []); ("saturday", [])].

(** A grid of one period on Monday, a constraint of one period of
    mathematics for a class, and the entry that places it there with
    teacher t1. *)
Definition mondayFirst : TimeSlot.t := TimeSlot.mk "monday" 1 "08:00" "08:45".

Definition onePeriodOfMath (classId : string) : ScheduleConstraint.t :=
  ScheduleConstraint.mk classId "math" 1 [].

Definition mathEntry (classId : string) : TimetableEntry.t :=
  TimetableEntry.mk classId "t1" "math" "monday" 1 "08:00" "08:45" None None true.

(** The structure of school A: Monday only, one period and one break. *)
Definition mondayOnly : TimetableStructure.t :=
  TimetableStructure.mk "school-a" (Some ["monday"])
    (Some [StructureSlot.mk 1 "09:00" "09:45" None;
           StructureSlot.mk 2 "09:45" "10:00" (Some true)])
    true.

Definition emptyDb : storage.Db :=
  {| storage.classes := []; storage.subjects := []; storage.teachers := [];
     storage.classSubjectAssignments := []; storage.timetableStructures := [];
     storage.timetableVersions := []; storage.timetableEntries := [];
     storage.uuidCounter := 0 |}.

(** Two versions of class A, the second one active, and one version of
    class B that was never activated, all for the same week. *)
Definition threeVersions : storage.Db :=
  storage.withVersions
    [ TimetableVersion.mk "v-1" "class-a" "v0.1" "2024-01-01" "2024-01-06" false;
      TimetableVersion.mk "v-2" "class-a" "v0.2" "2024-01-01" "2024-01-06" true;
      TimetableVersion.mk "v-3" "class-b" "v0.1" "2024-01-01" "2024-01-06" false ]
    emptyDb.

(** Two schools in one database. School A has a class, the subject
    mathematics, a teacher for it and a structure of one Monday period;
    school B has a class and a teacher but has not added any subject. *)
Definition twoSchools : storage.Db :=
  {| storage.classes :=
       [Class.mk "class-a" "9" "A" "school-a"; Class.mk "class-b" "7" "C" "school-b"];
     storage.subjects := [Subject.mk "math" "Mathematics" "school-a"];
     storage.teachers :=
       [Teacher.mk "t1" ["math"] unrestricted "school-a" true;
        Teacher.mk "t2" [] unrestricted "school-b" true];
     storage.classSubjectAssignments :=
       [ClassSubjectAssignment.mk "asg-1" "class-a" "math" 3 None];
     storage.timetableStructures := [mondayOnly];
     storage.timetableVersions := [];
     storage.timetableEntries := [];
     storage.uuidCounter := 0 |}.

(** One school whose only teacher is not qualified for the one subject its
    class needs. *)
Definition unqualifiedStaff : storage.Db :=
  {| storage.classes := [Class.mk "class-a" "9" "A" "school-a"];
     storage.subjects := [Subject.mk "math" "Mathematics" "school-a"];
     storage.teachers := [Teacher.mk "t1" ["art"] unrestricted "school-a" true];
     storage.classSubjectAssignments :=
       [ClassSubjectAssignment.mk "asg-1" "class-a" "math" 5 None];
     storage.timetableStructures := [];
     storage.timetableVersions := [];
     storage.timetableEntries := [];
     storage.uuidCounter := 0 |}.

(** A class that needs five periods of mathematics a week and has three
    active entries for it (and one entry of a superseded timetable). *)
Definition threeOfFive : storage.Db :=
  let entry day period active :=
    TimetableEntry.mk "class-a" "t1" "math" day period "08:00" "08:45" None (Some "v-1") active in
  {| storage.classes := [Class.mk "class-a" "9" "A" "school-a"];
     storage.subjects := [Subject.mk "math" "Mathematics" "school-a"];
     storage.teachers := [Teacher.mk "t1" ["math"] unrestricted "school-a" true];
     storage.classSubjectAssignments :=
       [ClassSubjectAssignment.mk "asg-1" "class-a" "math" 5 (Some "t1")];
     storage.timetableStructures := [];
     storage.timetableVersions := [];
     storage.timetableEntries :=
       [entry "monday" 1 true; entry "tuesday" 1 true; entry "friday" 2 false;
        entry "wednesday" 1 true];
     storage.uuidCounter := 0 |}.

(** Teacher t1 is booked on Monday, period 1, for class A and for class B;
    teacher t2 is booked twice on Tuesday, period 2, both times for class A. *)
Definition sharedTeacher : storage.Db :=
  storage.withEntries
    [ TimetableEntry.mk "class-a" "t1" "math" "monday" 1 "08:00" "08:45" None None true;
      TimetableEntry.mk "class-b" "t1" "math" "monday" 1 "08:00" "08:45" None None true;
      TimetableEntry.mk "class-a" "t2" "art" "tuesday" 2 "08:45" "09:30" None None true;
      TimetableEntry.mk "class-a" "t2" "math" "tuesday" 2 "08:45" "09:30" None None true ]
    emptyDb.


(** School A of [twoSchools] with the version history of [threeVersions]:
    class A already has two versions for the week. *)
Definition schoolWithHistory : storage.Db :=
  storage.withVersions (storage.timetableVersions threeVersions) twoSchools.

(** The school of [unqualifiedStaff] with a timetable in force: version
    v-1 of class A is active for the week and has one active entry. *)
Definition timetableInForce : storage.Db :=
  storage.withEntries
    [TimetableEntry.mk "class-a" "t9" "math" "monday" 1 "08:00" "08:45" None (Some "v-1") true]
    (storage.withVersions
       [TimetableVersion.mk "v-1" "class-a" "v0.1" "2024-01-01" "2024-01-06" true]
       unqualifiedStaff).

(** Class A on Monday: three lessons of mathematics with teacher t1 in
    periods 5 to 7 and one lesson of art with teacher t2 in period 1. *)
Definition lopsidedMonday : storage.Db :=
  storage.withEntries
    [ TimetableEntry.mk "class-a" "t1" "math" "monday" 5 "11:15" "12:00" None None true;
      TimetableEntry.mk "class-a" "t2" "art" "monday" 1 "08:00" "08:45" None None true;
      TimetableEntry.mk "class-a" "t1" "math" "monday" 6 "12:00" "12:45" None None true;
      TimetableEntry.mk "class-a" "t1" "math" "monday" 7 "12:45" "13:30" None None true ]
    emptyDb.

(** * Properties *)

(** ** The JavaScript helpers on small inputs *)

Example split_slot_key : JS.split "classA-monday-1" = ["classA"; "monday"; "1"].
Proof. reflexivity. Qed.

Example split_uuid_key :
  JS.split "0b0e7a3c-1111-4222-8333-444455556666-monday-1"
  = ["0b0e7a3c"; "1111"; "4222"; "8333"; "444455556666"; "monday"; "1"].
Proof. reflexivity. Qed.

Example split_empty_pieces : JS.split "a--b-" = ["a"; ""; "b"; ""].
Proof. reflexivity. Qed.

Example parseInt_decimal : JS.parseInt (Some "12") = Some 12.
Proof. reflexivity. Qed.

Example parseInt_prefix : JS.parseInt (Some " -7th") = Some (-7).
Proof. reflexivity. Qed.

Example parseInt_hex : JS.parseInt (Some "0x1f") = Some 31.
Proof. reflexivity. Qed.

Example parseInt_NaN : JS.parseInt (Some "monday") = None ∧ JS.parseInt None = None.
Proof. split; reflexivity. Qed.

Example keyNamesSlot_plain_id :
  keyNamesSlot "classA-monday-1" (TimeSlot.mk "monday" 1 "08:00" "08:45") = true.
Proof. reflexivity. Qed.

Example keyNamesSlot_uuid_id :
  keyNamesSlot "0b0e7a3c-1111-4222-8333-444455556666-monday-1"
    (TimeSlot.mk "monday" 1 "08:00" "08:45") = false.
Proof. reflexivity. Qed.

(** ** The solver: how invariants travel through the loops *)

Section SolverInduction.

Variable P : SolverState → Prop.

Lemma placePeriods_keeps c eligible slots periodsScheduled st :
  placementKeeps P c eligible → P st → P (placePeriods c eligible slots periodsScheduled st).
Proof.
  intros Hstep. revert periodsScheduled st.
  induction slots as [|timeSlot rest IH]; intros n st Hst; simpl; [done|].
  case_bool_decide; [done|].
  case_bool_decide as Hocc; [by apply IH|].
  case_bool_decide as Hcap; [by apply IH|].
  destruct (List.find _ eligible) as [t|] eqn:Hfind; [|by apply IH].
  apply find_some in Hfind as [Hin Hcan].
  apply IH, Hstep; try done.
  - destruct (assignments st !! _) eqn:E; [|done]. destruct Hocc. by eexists.
  - lia.
  - by apply list_elem_of_In.
Qed.

Lemma scheduleConstraint_keeps rs slots teachers subjects i c st :
  placementKeeps P c (eligibleTeachers c teachers) →
  P st → P (scheduleConstraint rs slots teachers subjects i c st).
Proof.
  intros Hstep Hst. unfold scheduleConstraint.
  destruct (List.find _ subjects); [|done].
  case_bool_decide; [done|].
  by apply placePeriods_keeps.
Qed.

Lemma solveLoop_keeps rs slots teachers subjects i cs st :
  (∀ c, c ∈ cs → placementKeeps P c (eligibleTeachers c teachers)) →
  P st → P (solveLoop rs slots teachers subjects i cs st).
Proof.
  revert i st. induction cs as [|c rest IH]; intros i st Hstep Hst; simpl; [done|].
  apply IH.
  - intros c' Hc'. apply Hstep. by right.
  - apply scheduleConstraint_keeps; [|done]. apply Hstep. by left.
Qed.

End SolverInduction.

(** What membership in the teacher pools means. *)
Lemma elem_of_qualifiedTeachers c teachers t :
  t ∈ qualifiedTeachers c teachers ↔
  ScheduleConstraint.subjectId c ∈ Teacher.subjects t
  ∧ Teacher.isActive t = true ∧ t ∈ teachers.
Proof. unfold qualifiedTeachers. rewrite list_elem_of_filter. tauto. Qed.

Lemma eligibleTeachers_qualified c teachers t :
  t ∈ eligibleTeachers c teachers → t ∈ qualifiedTeachers c teachers.
Proof.
  unfold eligibleTeachers.
  repeat case_bool_decide; try done.
  rewrite list_elem_of_filter. tauto.
Qed.

Lemma teacherCanTake_available st timeSlot t :
  teacherCanTake st timeSlot t = true →
  default [] (Teacher.availability t !! TimeSlot.day timeSlot) = []
  ∨ rangeOf timeSlot ∈ default [] (Teacher.availability t !! TimeSlot.day timeSlot).
Proof.
  unfold teacherCanTake.
  destruct (Teacher.availability t !! TimeSlot.day timeSlot) as [[|r rs]|]; simpl; auto.
  case_bool_decide; simpl; [auto|done].
Qed.

(** ** C7: who gets scheduled *)

(** C7. Every entry returned by [solveSchedule] names a teacher of the
    roster who is active, whose [subjects] contain the entry's subject, and
    whose availability for the entry's day is empty or contains the exact
    "startTime-endTime" string of the entry. *)
Theorem solveSchedule_teacher_fits rs slots constraints teachers subjects e :
  e ∈ solveSchedule rs slots constraints teachers subjects → teacherFits teachers e.
Proof.
  unfold solveSchedule.
  set (P := λ st : SolverState, ∀ e, e ∈ schedule st → teacherFits teachers e).
  assert (P (solveLoop rs slots teachers subjects 0 (shuffleConstraints rs constraints)
               initialState)) as HP; [|by apply HP].
  apply solveLoop_keeps; [|intros ? ?; simpl in *; set_solver].
  intros c _ st timeSlot t Hst _ _ Hel Hcan e'. simpl.
  rewrite elem_of_app, list_elem_of_singleton. intros [He'| ->]; [by apply Hst|].
  apply eligibleTeachers_qualified, elem_of_qualifiedTeachers in Hel as (Hsub & Hact & Hin).
  exists t. simpl. repeat split; try done.
  unfold availabilityOn, entryRange. simpl. by eapply teacherCanTake_available.
Qed.

Lemma solveSchedule_teacher_fits_witness :
  let teachers := [mathTeacher "t1" {["monday" := ["08:00-08:45"]]}] in
  let e := TimetableEntry.mk "classA" "t1" "math" "monday" 1 "08:00" "08:45" None None true in
  e ∈ solveSchedule steadySource [mondayFirst] [onePeriodOfMath "classA"]
        teachers [mathSubject]
  ∧ teacherFits teachers e.
Proof.
  intros teachers e.
  assert (e ∈ solveSchedule steadySource [mondayFirst] [onePeriodOfMath "classA"]
                teachers [mathSubject]) as Hin
    by (replace (solveSchedule _ _ _ _ _) with [e] by (by vm_compute);
        apply list_elem_of_here).
  split; [done|].
  exact (solveSchedule_teacher_fits steadySource [mondayFirst]
           [onePeriodOfMath "classA"] teachers [mathSubject] e Hin).
Defined.

(** ** C2: the daily cap *)

Lemma getDailySubjectCount_cell st classId day subjectId :
  getDailySubjectCount st classId day subjectId
  = cellCount (dailySubjectCount st) (dayKeyOf classId day) subjectId.
Proof. done. Qed.

Lemma cellCount_bump key subjectId counts key' subjectId' :
  cellCount (bump key subjectId counts) key' subjectId'
  = if decide (key' = key ∧ subjectId' = subjectId)
    then S (cellCount counts key' subjectId')
    else cellCount counts key' subjectId'.
Proof.
  unfold bump, cellCount.
  destruct (decide (key' = key)) as [->|Hk].
  - rewrite lookup_insert_eq. simpl.
    destruct (decide (subjectId' = subjectId)) as [->|Hs].
    + rewrite lookup_insert_eq, decide_True by done.
      case_bool_decide as Hsome; simpl.
      * by destruct Hsome as [m ->].
      * rewrite lookup_insert_eq. simpl. rewrite lookup_empty.
        destruct (counts !! key) eqn:E; [destruct Hsome; by eexists|done].
    + rewrite lookup_insert_ne by done. rewrite decide_False by (by intros [_ ?]).
      case_bool_decide as Hsome; simpl.
      * by destruct Hsome as [m ->].
      * rewrite lookup_insert_eq. simpl. rewrite lookup_empty.
        destruct (counts !! key) eqn:E; [destruct Hsome; by eexists|done].
  - rewrite lookup_insert_ne by done. rewrite decide_False by (by intros [? _]).
    case_bool_decide; [done|]. by rewrite lookup_insert_ne.
Qed.

Lemma cellCount_increment classId day subjectId counts dayKey' subjectId' :
  cellCount (incrementDailySubjectCount classId day subjectId counts) dayKey' subjectId'
  = if decide (dayKey' = dayKeyOf classId day ∧ subjectId' = subjectId)
    then S (cellCount counts dayKey' subjectId')
    else cellCount counts dayKey' subjectId'.
Proof. apply cellCount_bump. Qed.

Lemma entriesOn_snoc es e classId day subjectId :
  entriesOn (es ++ [e]) classId day subjectId
  = (entriesOn es classId day subjectId
     + if decide (TimetableEntry.classId e = classId ∧ TimetableEntry.day e = day
                  ∧ TimetableEntry.subjectId e = subjectId) then 1 else 0)%nat.
Proof.
  unfold entriesOn. rewrite filter_app, length_app. f_equal.
  rewrite filter_cons, filter_nil. by case_decide.
Qed.

Lemma assign_capInvariant c eligible : placementKeeps capInvariant c eligible.
Proof.
  intros st timeSlot t [Hcap Hcount] _ Hlt _ _.
  rewrite getDailySubjectCount_cell in Hlt.
  split; simpl.
  - intros k s. rewrite cellCount_increment. case_decide as Heq; [|done].
    destruct Heq as [-> ->]. lia.
  - intros classId day s. rewrite entriesOn_snoc, cellCount_increment. simpl.
    specialize (Hcount classId day s).
    repeat case_decide; try lia.
    exfalso. destruct_and!. simplify_eq. tauto.
Qed.

Lemma solveLoop_capInvariant rs slots teachers subjects i cs :
  capInvariant (solveLoop rs slots teachers subjects i cs initialState).
Proof.
  apply solveLoop_keeps.
  - intros c _. apply assign_capInvariant.
  - split; simpl; intros; [|unfold entriesOn; simpl; lia].
    unfold cellCount. rewrite lookup_empty. simpl. lia.
Qed.

(** C2. In the entries of one [solveSchedule] run no class has more than two
    periods of the same subject on the same day. The mechanism: a slot whose
    daily subject count has reached two is passed over without a placement,
    and every placement raises the count of its class, day and subject by
    one. *)
Theorem solveSchedule_daily_cap :
  (∀ rs slots constraints teachers subjects classId day subjectId,
     (entriesOn (solveSchedule rs slots constraints teachers subjects) classId day subjectId
      ≤ 2)%nat)
  ∧ (∀ c eligible timeSlot periodsScheduled st,
       (2 ≤ getDailySubjectCount st (ScheduleConstraint.classId c) (TimeSlot.day timeSlot)
              (ScheduleConstraint.subjectId c))%nat →
       placePeriods c eligible [timeSlot] periodsScheduled st = st)
  ∧ (∀ c timeSlot availableTeacher st,
       getDailySubjectCount (assign c timeSlot availableTeacher st)
         (ScheduleConstraint.classId c) (TimeSlot.day timeSlot) (ScheduleConstraint.subjectId c)
       = S (getDailySubjectCount st (ScheduleConstraint.classId c) (TimeSlot.day timeSlot)
              (ScheduleConstraint.subjectId c))).
Proof.
  split; [|split].
  - intros. unfold solveSchedule.
    destruct (solveLoop_capInvariant rs slots teachers subjects 0
                (shuffleConstraints rs constraints)) as [Hcap Hcount].
    etrans; [apply Hcount|apply Hcap].
  - intros c eligible timeSlot n st Hfull. simpl.
    repeat case_bool_decide; done || lia.
  - intros. rewrite !getDailySubjectCount_cell. simpl.
    rewrite cellCount_increment. by rewrite decide_True.
Qed.

(** A class that asks for twelve periods of mathematics a week gets two on
    each of the five days. *)
Lemma solveSchedule_daily_cap_witness :
  let c := ScheduleConstraint.mk "classA" "math" 12 [] in
  let teacher := mathTeacher "t1" unrestricted in
  let es := solveSchedule steadySource (timeSlots constructor) [c] [teacher] [mathSubject] in
  let full := assign c (TimeSlot.mk "monday" 2 "08:45" "09:30") teacher
                (assign c mondayFirst teacher initialState) in
  length es = 10%nat
  ∧ (entriesOn es "classA" "monday" "math" ≤ 2)%nat
  ∧ (2 ≤ getDailySubjectCount full "classA" "monday" "math")%nat
  ∧ placePeriods c [teacher] [TimeSlot.mk "monday" 3 "09:30" "10:15"] 2 full = full.
Proof.
  intros c teacher es full.
  assert (2 ≤ getDailySubjectCount full "classA" "monday" "math")%nat as Hfull
    by (by vm_compute).
  split; [by vm_compute|].
  split; [exact (proj1 solveSchedule_daily_cap steadySource (timeSlots constructor) [c]
                   [teacher] [mathSubject] "classA" "monday" "math")|].
  split; [done|].
  exact (proj1 (proj2 solveSchedule_daily_cap) c [teacher]
           (TimeSlot.mk "monday" 3 "09:30" "10:15") 2 full Hfull).
Defined.

(** ** C8: preferred teachers *)

Lemma scheduleConstraint_addedFrom rs slots teachers subjects i c st :
  addedFrom c (eligibleTeachers c teachers) st
    (scheduleConstraint rs slots teachers subjects i c st).
Proof.
  apply (scheduleConstraint_keeps (addedFrom c (eligibleTeachers c teachers) st)).
  - intros st' timeSlot t (added & Hsched & Hadded) _ _ Hel _.
    exists (added ++ [TimetableEntry.mk (ScheduleConstraint.classId c) (Teacher.id t)
                        (ScheduleConstraint.subjectId c) (TimeSlot.day timeSlot)
                        (TimeSlot.period timeSlot) (TimeSlot.startTime timeSlot)
                        (TimeSlot.endTime timeSlot) None None true]).
    split; [simpl; by rewrite Hsched, (assoc_L (++))|].
    intros e. rewrite elem_of_app, list_elem_of_singleton.
    intros [He| ->]; [by apply Hadded|]. simpl. eauto.
  - exists []. split; [by rewrite app_nil_r|]. intros e He. by apply elem_of_nil in He.
Qed.

Lemma eligibleTeachers_empty_skips rs slots teachers subjects i c st :
  eligibleTeachers c teachers = [] →
  scheduleConstraint rs slots teachers subjects i c st = st.
Proof.
  intros Hnil. unfold scheduleConstraint. rewrite Hnil.
  by destruct (List.find _ subjects).
Qed.

Lemma eligibleTeachers_narrowed c teachers t :
  t ∈ qualifiedTeachers c teachers →
  Teacher.id t ∈ ScheduleConstraint.preferredTeachers c →
  eligibleTeachers c teachers
  = filter (λ t, Teacher.id t ∈ ScheduleConstraint.preferredTeachers c)
      (qualifiedTeachers c teachers).
Proof.
  intros Hq Hp. unfold eligibleTeachers.
  rewrite bool_decide_eq_true_2.
  - rewrite bool_decide_eq_true_2; [done|].
    assert (t ∈ filter (λ t, Teacher.id t ∈ ScheduleConstraint.preferredTeachers c)
                  (qualifiedTeachers c teachers)) as Hin
      by by apply list_elem_of_filter.
    destruct (filter _ (qualifiedTeachers c teachers)); [by apply elem_of_nil in Hin|].
    simpl. lia.
  - destruct (ScheduleConstraint.preferredTeachers c); [by apply elem_of_nil in Hp|simpl; lia].
Qed.

Lemma eligibleTeachers_fallback c teachers :
  (∀ t, t ∈ qualifiedTeachers c teachers →
        Teacher.id t ∉ ScheduleConstraint.preferredTeachers c) →
  eligibleTeachers c teachers = qualifiedTeachers c teachers.
Proof.
  intros Hnone. unfold eligibleTeachers.
  case_bool_decide; [|done].
  rewrite bool_decide_eq_false_2; [done|].
  destruct (filter _ (qualifiedTeachers c teachers)) as [|t l] eqn:E; [simpl; lia|].
  assert (t ∈ filter (λ t, Teacher.id t ∈ ScheduleConstraint.preferredTeachers c)
                (qualifiedTeachers c teachers)) as Hin by (rewrite E; by left).
  apply list_elem_of_filter in Hin as [Hp Hq]. by destruct (Hnone t Hq).
Qed.

Lemma placePeriods_grows c eligible slots periodsScheduled st :
  (length (schedule st)
   ≤ length (schedule (placePeriods c eligible slots periodsScheduled st)))%nat.
Proof.
  apply (placePeriods_keeps (λ st', (length (schedule st) ≤ length (schedule st'))%nat));
    [|done].
  intros st' timeSlot t Hle _ _ _ _. simpl. rewrite length_app. lia.
Qed.

(** The slot loop does place a period when periods are still needed and
    some slot of its list can take a teacher of the pool: every slot before
    it is either used or skipped without a change of state. *)
Lemma placePeriods_places c eligible slots periodsScheduled st timeSlot t :
  periodsScheduled < ScheduleConstraint.periodsNeeded c →
  timeSlot ∈ slots →
  t ∈ eligible →
  canPlace c st timeSlot t →
  (length (schedule st)
   < length (schedule (placePeriods c eligible slots periodsScheduled st)))%nat.
Proof.
  intros Hn Hin Ht (Hfree & Hcap & Hcan).
  induction slots as [|x rest IH]; [by apply elem_of_nil in Hin|].
  simpl. rewrite bool_decide_eq_false_2 by lia.
  apply elem_of_cons in Hin as [->|Hin].
  - rewrite bool_decide_eq_false_2 by (rewrite Hfree; by intros [? ?]).
    rewrite bool_decide_eq_false_2 by lia.
    destruct (List.find _ eligible) as [t'|] eqn:Hfind.
    + eapply Nat.lt_le_trans; [|apply placePeriods_grows].
      simpl. rewrite length_app. simpl. lia.
    + apply list_elem_of_In in Ht.
      pose proof (find_none _ _ Hfind t Ht) as Hno. simpl in Hno. congruence.
  - case_bool_decide; [by apply IH|].
    case_bool_decide; [by apply IH|].
    destruct (List.find _ eligible) as [t'|] eqn:Hfind; [|by apply IH].
    eapply Nat.lt_le_trans; [|apply placePeriods_grows].
    simpl. rewrite length_app. simpl. lia.
Qed.

Lemma scheduleConstraint_places rs slots teachers subjects i c st timeSlot t :
  ScheduleConstraint.subjectId c ∈ Subject.id <$> subjects →
  0 < ScheduleConstraint.periodsNeeded c →
  timeSlot ∈ slots →
  t ∈ eligibleTeachers c teachers →
  canPlace c st timeSlot t →
  (length (schedule st)
   < length (schedule (scheduleConstraint rs slots teachers subjects i c st)))%nat.
Proof.
  intros Hknown Hn Hin Ht Hcan. unfold scheduleConstraint.
  destruct (List.find _ subjects) as [s|] eqn:Hfind.
  - rewrite bool_decide_eq_false_2.
    + apply placePeriods_places with timeSlot t; try done.
      by rewrite prioritizeSlots_perm.
    + destruct (eligibleTeachers c teachers); [by apply elem_of_nil in Ht|done].
  - apply list_elem_of_fmap in Hknown as (s & Hs & Hsin).
    apply list_elem_of_In in Hsin.
    pose proof (find_none _ _ Hfind s Hsin) as Hno. simpl in Hno.
    by apply bool_decide_eq_false in Hno.
Qed.

(** C8. For a constraint with a non-empty [preferredTeachers] list, [added]
    being the entries the loop body adds for it.
    - When a preferred teacher is qualified and active, every entry of
      [added] is taught by a preferred teacher who is qualified and active,
      and the narrowed pool is really used: if the subject is known,
      periods are needed and some slot of an ordinary grid can be placed
      with a preferred qualified teacher, [added] is not empty.
    - When no qualified, active teacher is preferred, the pool is the full
      list of qualified, active teachers: every entry of [added] is taught
      by one of them, and if some slot can be placed with any one of them,
      [added] is not empty.
    - When the pool is empty, nothing is added and the state is unchanged. *)
Theorem preferred_teachers_narrow_the_pool rs slots teachers subjects i c st :
  ScheduleConstraint.preferredTeachers c ≠ [] →
  ∃ added,
    schedule (scheduleConstraint rs slots teachers subjects i c st) = schedule st ++ added
    ∧ ((∃ t, t ∈ qualifiedTeachers c teachers
             ∧ Teacher.id t ∈ ScheduleConstraint.preferredTeachers c) →
       (∀ e, e ∈ added →
          TimetableEntry.teacherId e ∈ ScheduleConstraint.preferredTeachers c
          ∧ (TimetableEntry.teacherId e ∈ Teacher.id <$> qualifiedTeachers c teachers))
       ∧ ∀ timeSlot t,
           subjectKnown subjects c →
           0 < ScheduleConstraint.periodsNeeded c →
           Forall plainSlot slots →
           timeSlot ∈ slots →
           t ∈ qualifiedTeachers c teachers →
           Teacher.id t ∈ ScheduleConstraint.preferredTeachers c →
           canPlace c st timeSlot t →
           added ≠ [])
    ∧ ((∀ t, t ∈ qualifiedTeachers c teachers →
             Teacher.id t ∉ ScheduleConstraint.preferredTeachers c) →
       eligibleTeachers c teachers = qualifiedTeachers c teachers
       ∧ (∀ e, e ∈ added →
            TimetableEntry.teacherId e ∈ Teacher.id <$> qualifiedTeachers c teachers)
       ∧ ∀ timeSlot t,
           subjectKnown subjects c →
           0 < ScheduleConstraint.periodsNeeded c →
           Forall plainSlot slots →
           timeSlot ∈ slots →
           t ∈ qualifiedTeachers c teachers →
           canPlace c st timeSlot t →
           added ≠ [])
    ∧ (eligibleTeachers c teachers = [] →
       added = [] ∧ scheduleConstraint rs slots teachers subjects i c st = st).
Proof.
  intros Hpref.
  destruct (scheduleConstraint_addedFrom rs slots teachers subjects i c st)
    as (added & Hsched & Hadded).
  assert (∀ timeSlot t,
            subjectKnown subjects c →
            0 < ScheduleConstraint.periodsNeeded c →
            timeSlot ∈ slots →
            t ∈ eligibleTeachers c teachers →
            canPlace c st timeSlot t →
            added ≠ []) as Hlive.
  { intros timeSlot t Hknown Hn Hin Ht Hcan ->.
    pose proof (scheduleConstraint_places rs slots teachers subjects i c st timeSlot t
                  Hknown Hn Hin Ht Hcan) as Hlt.
    rewrite Hsched, app_nil_r in Hlt. lia. }
  exists added. split; [exact Hsched|]. split; [|split].
  - intros (t0 & Hq0 & Hp0).
    pose proof (eligibleTeachers_narrowed c teachers t0 Hq0 Hp0) as Hpool.
    split.
    + intros e He. destruct (Hadded e He) as (_ & _ & t' & Hel & ->).
      rewrite Hpool in Hel. apply list_elem_of_filter in Hel as [Hp Hq].
      split; [exact Hp|]. apply list_elem_of_fmap. eauto.
    + intros timeSlot t Hknown Hn _ Hin Hq Hp Hcan.
      apply (Hlive timeSlot t Hknown Hn Hin); [|exact Hcan].
      rewrite Hpool. by apply list_elem_of_filter.
  - intros Hnone.
    pose proof (eligibleTeachers_fallback c teachers Hnone) as Hpool.
    split; [exact Hpool|]. split.
    + intros e He. destruct (Hadded e He) as (_ & _ & t' & Hel & ->).
      rewrite Hpool in Hel. apply list_elem_of_fmap. eauto.
    + intros timeSlot t Hknown Hn _ Hin Hq Hcan.
      apply (Hlive timeSlot t Hknown Hn Hin); [|exact Hcan]. by rewrite Hpool.
  - intros Hnil.
    pose proof (eligibleTeachers_empty_skips rs slots teachers subjects i c st Hnil) as Hskip.
    split; [|exact Hskip].
    rewrite Hskip in Hsched.
    destruct added; [done|]. apply (f_equal length) in Hsched.
    rewrite length_app in Hsched. simpl in Hsched. lia.
Qed.

Lemma preferred_teachers_narrow_the_pool_witness :
  let c := ScheduleConstraint.mk "class-1" "math" 3 ["t2"] in
  let teachers := [mathTeacher "t1" ∅; mathTeacher "t2" ∅] in
  ScheduleConstraint.preferredTeachers c ≠ []
  ∧ ∃ added,
      schedule (scheduleConstraint steadySource (timeSlots constructor) teachers
                  [mathSubject] 0 c initialState)
      = schedule initialState ++ added
      ∧ added ≠ []
      ∧ (∀ e, e ∈ added →
           TimetableEntry.teacherId e ∈ ScheduleConstraint.preferredTeachers c)
      ∧ TimetableEntry.teacherId <$> added = ["t2"; "t2"; "t2"].
Proof.
  intros c teachers.
  assert (ScheduleConstraint.preferredTeachers c ≠ []) as Hpref by done.
  assert (mathTeacher "t2" ∅ ∈ qualifiedTeachers c teachers) as Hq.
  { apply elem_of_qualifiedTeachers. simpl.
    split_and!; [apply list_elem_of_here|done|apply list_elem_of_further, list_elem_of_here]. }
  assert (Teacher.id (mathTeacher "t2" ∅) ∈ ScheduleConstraint.preferredTeachers c) as Hp.
  { apply list_elem_of_here. }
  split; [exact Hpref|].
  destruct (preferred_teachers_narrow_the_pool steadySource (timeSlots constructor)
              teachers [mathSubject] 0 c initialState Hpref)
    as (added & Hsched & Hnarrow & _ & _).
  destruct (Hnarrow (ex_intro _ (mathTeacher "t2" ∅) (conj Hq Hp))) as [Hteacher Hlive].
  exists added. split; [exact Hsched|]. split; [|split].
  - apply (Hlive (TimeSlot.mk "monday" 1 "08:00" "08:45") (mathTeacher "t2" ∅)).
    + apply list_elem_of_here.
    + simpl. lia.
    + apply (bool_decide_unpack _). by vm_compute.
    + vm_compute. by left.
    + exact Hq.
    + exact Hp.
    + split; [reflexivity|]. split; [vm_compute; lia|reflexivity].
  - intros e He. by apply Hteacher.
  - simpl in Hsched. rewrite <- Hsched. by vm_compute.
Defined.

(** The fallback on a small roster: the constraint prefers a teacher who is
    not on it, and its three periods go to the first qualified teacher. *)
Example fallback_pool_is_used :
  TimetableEntry.teacherId
  <$> schedule (scheduleConstraint steadySource (timeSlots constructor)
                  [mathTeacher "t1" ∅; mathTeacher "t2" ∅] [mathSubject] 0
                  (ScheduleConstraint.mk "class-1" "math" 3 ["t9"]) initialState)
  = ["t1"; "t1"; "t1"].
Proof. by vm_compute. Qed.

(** ** C1: double booking *)

Lemma entryKey_classSlot e1 e2 : classSlot e1 = classSlot e2 → entryKey e1 = entryKey e2.
Proof. unfold classSlot, entryKey. intros [= -> -> ->]. done. Qed.

Lemma assign_classSlotInvariant c eligible : placementKeeps classSlotInvariant c eligible.
Proof.
  intros st timeSlot t [Hkeys Hnodup] Hfree _ _ _.
  split; simpl.
  - intros e. rewrite elem_of_app, list_elem_of_singleton. intros [He| ->].
    + destruct (Hkeys e He) as [s Hs].
      destruct (decide (slotKeyOf (ScheduleConstraint.classId c) timeSlot = entryKey e))
        as [Heq|Hne].
      * rewrite Heq, lookup_insert_eq. by eexists.
      * rewrite lookup_insert_ne by done. by eexists.
    + unfold entryKey, slotKeyOf. simpl. rewrite lookup_insert_eq. by eexists.
  - rewrite fmap_app. apply NoDup_app. split; [done|]. split; [|apply NoDup_singleton].
    intros x Hx. simpl. rewrite list_elem_of_singleton. intros ->.
    apply list_elem_of_fmap in Hx as (e & Heq & He).
    destruct (Hkeys e He) as [s Hs].
    rewrite <- (entryKey_classSlot _ _ Heq) in Hs.
    unfold entryKey in Hs. simpl in Hs. unfold slotKeyOf in Hfree. congruence.
Qed.

(** The class half of the no-double-booking property holds: the entries of
    one run never put a class twice into the same day and period. *)
Lemma solveSchedule_class_slots_distinct rs slots constraints teachers subjects :
  NoDup (classSlot <$> solveSchedule rs slots constraints teachers subjects).
Proof.
  unfold solveSchedule.
  eapply (solveLoop_keeps classSlotInvariant).
  - intros c _. apply assign_classSlotInvariant.
  - split; simpl; [|constructor]. intros e He. by apply elem_of_nil in He.
Qed.

(** With a grid of a single slot the random source has no choice left in
    the slot order. *)
Lemma scheduleConstraint_one_slot rs timeSlot teachers subjects i c st :
  scheduleConstraint rs [timeSlot] teachers subjects i c st
  = scheduleConstraint steadySource [timeSlot] teachers subjects i c st.
Proof.
  unfold scheduleConstraint.
  destruct (List.find _ subjects); [|done].
  case_bool_decide; [done|].
  set (count := λ slot, getDailySubjectCount st _ _ _).
  pose proof (prioritizeSlots_perm rs i count [timeSlot]) as H1.
  pose proof (prioritizeSlots_perm steadySource i count [timeSlot]) as H2.
  apply Permutation_singleton_r in H1, H2. by rewrite H1, H2.
Qed.

Lemma solveLoop_one_slot rs timeSlot teachers subjects i cs st :
  solveLoop rs [timeSlot] teachers subjects i cs st
  = solveLoop steadySource [timeSlot] teachers subjects i cs st.
Proof.
  revert i st. induction cs as [|c rest IH]; intros i st; simpl; [done|].
  by rewrite scheduleConstraint_one_slot, IH.
Qed.

Lemma solveSchedule_two_classes_one_slot rs classA classB teachers :
  let run cs := schedule (solveLoop steadySource [mondayFirst] teachers [mathSubject] 0 cs
                            initialState) in
  run [onePeriodOfMath classA; onePeriodOfMath classB] = [mathEntry classA; mathEntry classB] →
  run [onePeriodOfMath classB; onePeriodOfMath classA] = [mathEntry classB; mathEntry classA] →
  solveSchedule rs [mondayFirst] [onePeriodOfMath classA; onePeriodOfMath classB] teachers
    [mathSubject] ≡ₚ [mathEntry classA; mathEntry classB].
Proof.
  intros run HAB HBA. unfold solveSchedule. rewrite solveLoop_one_slot.
  pose proof (shuffleConstraints_perm rs [onePeriodOfMath classA; onePeriodOfMath classB])
    as Hperm.
  symmetry in Hperm. apply Permutation_length_2_inv in Hperm as [-> | ->].
  - fold (run [onePeriodOfMath classA; onePeriodOfMath classB]). by rewrite HAB.
  - fold (run [onePeriodOfMath classB; onePeriodOfMath classA]). rewrite HBA. apply perm_swap.
Qed.

(** Where the booking check is reached and reads the key as meant (an
    availability list for the day, class ids without hyphens), the teacher
    is given to the first class only. *)
Example teacher_booked_once_with_plain_ids :
  solveSchedule steadySource [mondayFirst]
    [onePeriodOfMath "classA"; onePeriodOfMath "classB"]
    [mathTeacher "t1" {["monday" := ["08:00-08:45"]]}] [mathSubject]
  = [mathEntry "classA"].
Proof. by vm_compute. Qed.

Lemma same_teacherSlot_not_distinct es e1 e2 :
  es ≡ₚ [e1; e2] → teacherSlot e1 = teacherSlot e2 → ¬ NoDup (teacherSlot <$> es).
Proof.
  intros Hperm Heq Hnodup. rewrite Hperm in Hnodup. simpl in Hnodup.
  rewrite Heq in Hnodup. apply NoDup_cons_1_1 in Hnodup. apply Hnodup. by left.
Qed.

(** C1, at the inputs where it fails. Whatever the random source does, the
    one teacher is booked for both classes in the same day and period: once
    because a teacher without availability ranges is accepted before the
    booking check is reached, once because the booking check reads day and
    period from the wrong pieces of a key whose class id contains hyphens. *)
Theorem solveSchedule_books_teacher_twice :
  (∀ rs,
     let es := solveSchedule rs [mondayFirst]
                 [onePeriodOfMath "classA"; onePeriodOfMath "classB"]
                 [mathTeacher "t1" unrestricted] [mathSubject] in
     es ≡ₚ [mathEntry "classA"; mathEntry "classB"] ∧ ¬ NoDup (teacherSlot <$> es))
  ∧ (∀ rs,
       let es := solveSchedule rs [mondayFirst]
                   [onePeriodOfMath "0b0e7a3c-1111-4222-8333-444455556666";
                    onePeriodOfMath "9c1d2e4f-aaaa-4bbb-8ccc-ddddeeeeffff"]
                   [mathTeacher "t1" {["monday" := ["08:00-08:45"]]}] [mathSubject] in
       es ≡ₚ [mathEntry "0b0e7a3c-1111-4222-8333-444455556666";
              mathEntry "9c1d2e4f-aaaa-4bbb-8ccc-ddddeeeeffff"]
       ∧ ¬ NoDup (teacherSlot <$> es)).
Proof.
  split; intros rs es.
  - assert (es ≡ₚ [mathEntry "classA"; mathEntry "classB"]) as Hes
      by (apply solveSchedule_two_classes_one_slot; by vm_compute).
    split; [done|]. by eapply same_teacherSlot_not_distinct.
  - assert (es ≡ₚ [mathEntry "0b0e7a3c-1111-4222-8333-444455556666";
                   mathEntry "9c1d2e4f-aaaa-4bbb-8ccc-ddddeeeeffff"]) as Hes
      by (apply solveSchedule_two_classes_one_slot; by vm_compute).
    split; [done|]. by eapply same_teacherSlot_not_distinct.
Qed.

(** ** C4: the time grid *)

Lemma constructor_defaultGrid : timeSlots constructor = defaultGrid.
Proof. reflexivity. Qed.

Lemma schedulable_not_break s : schedulable s = true ↔ StructureSlot.isBreak s ≠ Some true.
Proof. unfold schedulable. by destruct (StructureSlot.isBreak s) as [[]|]. Qed.

(** With a structure the grid is derived from it alone. *)
Lemma initializeFromStructure_found fetch schoolId structure this :
  JS.truthy (Some schoolId) = true →
  fetch schoolId = Fulfilled (Some structure) →
  timeSlots (initializeFromStructure fetch (Some schoolId) this) = gridOf structure.
Proof.
  intros Htruthy Hfetch. unfold initializeFromStructure, JS.whenTruthy.
  rewrite Htruthy, Hfetch. simpl. unfold gridOf.
  induction (default weekdays _) as [|day days IH]; simpl; [done|].
  f_equal; [|done]. f_equal.
  apply list_filter_iff. intros s. apply schedulable_not_break.
Qed.

(** Without one the field is left as the previous call left it. *)
Lemma initializeFromStructure_not_found fetch schoolId this :
  (∀ sid, fetch sid = Fulfilled None) →
  initializeFromStructure fetch schoolId this = this.
Proof.
  intros Hfetch. unfold initializeFromStructure.
  destruct (JS.whenTruthy schoolId); [by rewrite Hfetch|done].
Qed.

(** When the storage call is rejected the defaults are pushed onto the
    grid that is already there. *)
Lemma initializeFromStructure_rejected schoolId this :
  JS.truthy (Some schoolId) = true →
  timeSlots (initializeFromStructure (λ _, Rejected) (Some schoolId) this)
  = timeSlots this ++ defaultGrid.
Proof.
  intros Htruthy. unfold initializeFromStructure, JS.whenTruthy. by rewrite Htruthy.
Qed.

(** C4, at the input where it fails. The exported scheduler first builds
    the grid of a school that has a structure and is then asked for a school
    that has none: the second grid is the first school's grid, not the
    default one. The same through [generateTimetable]: after a run for the
    class of school A, the run for the class of school B, which has no
    structure, is solved on the one Monday period of school A. *)
Theorem initializeFromStructure_keeps_previous_grid :
  (let first :=
     initializeFromStructure (λ _, Fulfilled (Some mondayOnly)) (Some "school-a") constructor in
   let second := initializeFromStructure (λ _, Fulfilled None) (Some "school-b") first in
   timeSlots second = [TimeSlot.mk "monday" 1 "09:00" "09:45"]
   ∧ timeSlots second ≠ defaultGrid)
  ∧ (let runA := generateTimetable constructor twoSchools steadySource
                   "2024-01-01" "2024-01-06" (Some "class-a") (Some "school-a") in
     let runB := generateTimetable runA.2 runA.1.2 steadySource
                   "2024-01-01" "2024-01-06" (Some "class-b") (Some "school-b") in
     storage.getTimetableStructureBySchool runA.1.2 "school-b" = None
     ∧ timeSlots runB.2 = [TimeSlot.mk "monday" 1 "09:00" "09:45"]
     ∧ timeSlots runB.2 ≠ defaultGrid).
Proof.
  split; [split; [reflexivity|discriminate]|].
  vm_compute. split; [reflexivity|]. split; [reflexivity|discriminate].
Qed.

(** ** C3: one active version per class and week *)

Section SetActiveVersion.

Import storage.

Lemma fixedColumns_setIsActive b v : fixedColumns (setIsActive b v) = fixedColumns v.
Proof. done. Qed.

Lemma fixedColumns_updateIsActive P `{!∀ v, Decision (P v)} b vs :
  fixedColumns <$> updateIsActive P b vs = fixedColumns <$> vs.
Proof.
  unfold updateIsActive. rewrite <- list_fmap_compose. apply list_fmap_ext.
  intros i v _. simpl. by case_decide.
Qed.

Lemma fixedColumns_setActiveVersion db versionId classId :
  fixedColumns <$> timetableVersions (setActiveVersion db versionId classId)
  = fixedColumns <$> timetableVersions db.
Proof.
  unfold setActiveVersion. destruct (filter _ (timetableVersions db)); [done|].
  simpl. case_bool_decide; by rewrite !fixedColumns_updateIsActive.
Qed.

Lemma elem_of_same_fixedColumns (vs vs' : list TimetableVersion.t) v :
  fixedColumns <$> vs = fixedColumns <$> vs' → v ∈ vs →
  ∃ v', v' ∈ vs' ∧ fixedColumns v' = fixedColumns v.
Proof.
  intros Heq Hin.
  assert (fixedColumns v ∈ fixedColumns <$> vs') as Hin'
    by (rewrite <- Heq; by apply list_elem_of_fmap_2).
  apply list_elem_of_fmap in Hin' as (v' & ? & ?). eauto.
Qed.

Lemma resolves_same_fixedColumns (vs vs' : list TimetableVersion.t) call :
  fixedColumns <$> vs = fixedColumns <$> vs' → resolves vs call → resolves vs' call.
Proof.
  intros Heq (v & Hin & Hid & Hcls).
  destruct (elem_of_same_fixedColumns _ _ _ Heq Hin) as (v' & Hin' & [= ? ? ? ?]).
  exists v'. repeat split; congruence.
Qed.

Lemma targets_same_fixedColumns (vs vs' : list TimetableVersion.t)
    classId weekStart weekEnd call :
  fixedColumns <$> vs = fixedColumns <$> vs' →
  targets vs classId weekStart weekEnd call → targets vs' classId weekStart weekEnd call.
Proof.
  intros Heq (v & Hin & Hid & Hcls & Hc & Hs & He).
  destruct (elem_of_same_fixedColumns _ _ _ Heq Hin) as (v' & Hin' & [= ? ? ? ?]).
  exists v'. unfold inWeek. repeat split; congruence.
Qed.

Lemma ids_same_fixedColumns (vs vs' : list TimetableVersion.t) :
  fixedColumns <$> vs = fixedColumns <$> vs' →
  TimetableVersion.id <$> vs = TimetableVersion.id <$> vs'.
Proof.
  intros Heq.
  assert (∀ l : list TimetableVersion.t,
            TimetableVersion.id <$> l = (λ x, x.1.1.1) <$> (fixedColumns <$> l)) as Hid
    by (intros l; by rewrite <- list_fmap_compose).
  by rewrite !Hid, Heq.
Qed.

(** Ids are a primary key: two rows with the same id are the same row. *)
Lemma same_id_same_row (vs : list TimetableVersion.t) v1 v2 :
  NoDup (TimetableVersion.id <$> vs) → v1 ∈ vs → v2 ∈ vs →
  TimetableVersion.id v1 = TimetableVersion.id v2 → v1 = v2.
Proof.
  induction vs as [|v vs IH]; intros Hnd H1 H2 Hid; [by apply elem_of_nil in H1|].
  rewrite fmap_cons in Hnd. apply NoDup_cons in Hnd as [Hnotin Hnd].
  apply elem_of_cons in H1 as [->|H1], H2 as [->|H2]; try done.
  - destruct Hnotin. rewrite Hid. by apply list_elem_of_fmap_2.
  - destruct Hnotin. rewrite <- Hid. by apply list_elem_of_fmap_2.
  - by apply IH.
Qed.

Lemma length_filter_fmap_ext {A B} (f : A → B) (P : B → Prop) (Q : A → Prop)
    `{!∀ y, Decision (P y), !∀ x, Decision (Q x)} (l : list A) :
  (∀ x, x ∈ l → P (f x) ↔ Q x) →
  length (filter P (f <$> l)) = length (filter Q l).
Proof.
  induction l as [|x l IH]; intros Hext; [done|].
  rewrite fmap_cons, !filter_cons.
  assert (length (filter P (f <$> l)) = length (filter Q l)) as IH'
    by (apply IH; intros y Hy; apply Hext; by right).
  destruct (decide (P (f x))) as [HP|HP], (decide (Q x)) as [HQ|HQ]; simpl;
    try by rewrite IH'.
  - destruct HQ. apply Hext; [by left|done].
  - destruct HP. apply Hext; [by left|done].
Qed.

Lemma count_the_row (vs : list TimetableVersion.t) v :
  NoDup (TimetableVersion.id <$> vs) → v ∈ vs →
  length (filter (λ u, TimetableVersion.id u = TimetableVersion.id v) vs) = 1%nat.
Proof.
  induction vs as [|u vs IH]; intros Hnd Hin; [by apply elem_of_nil in Hin|].
  rewrite fmap_cons in Hnd. apply NoDup_cons in Hnd as [Hnotin Hnd].
  rewrite filter_cons. apply elem_of_cons in Hin as [->|Hin].
  - rewrite decide_True by done. simpl. f_equal.
    destruct (filter _ vs) as [|w ws] eqn:E; [done|].
    assert (w ∈ filter (λ x, TimetableVersion.id x = TimetableVersion.id u) vs) as Hw
      by (rewrite E; by left).
    apply list_elem_of_filter in Hw as [Hid Hw].
    destruct Hnotin. rewrite <- Hid. by apply list_elem_of_fmap_2.
  - rewrite decide_False; [by apply IH|].
    intros Hid. destruct Hnotin. rewrite Hid. by apply list_elem_of_fmap_2.
Qed.

Lemma activeCount_selectIn (vs : list TimetableVersion.t) v classId' weekStart' weekEnd' :
  NoDup (TimetableVersion.id <$> vs) → v ∈ vs →
  activeCount classId' weekStart' weekEnd'
    (selectIn (TimetableVersion.id v) (TimetableVersion.classId v)
       (TimetableVersion.weekStart v) (TimetableVersion.weekEnd v) <$> vs)
  = if decide (inWeek classId' weekStart' weekEnd' v) then 1%nat
    else activeCount classId' weekStart' weekEnd' vs.
Proof.
  intros Hnd Hin. unfold activeCount.
  case_decide as Hgroup.
  - rewrite <- (count_the_row vs v Hnd Hin). apply length_filter_fmap_ext.
    intros u Hu. unfold selectIn. destruct Hgroup as (Hc & Hs & He).
    case_decide as Hu'; unfold inWeek in *; simpl.
    + rewrite bool_decide_eq_true. destruct Hu' as (? & ? & ?).
      split; [by intros [_ ?]|]. intros ?. repeat split; congruence.
    + split.
      * intros [(? & ? & ?) _]. destruct Hu'. repeat split; congruence.
      * intros Hid. rewrite (same_id_same_row vs u v Hnd Hu Hin Hid) in Hu'.
        by destruct Hu'.
  - apply length_filter_fmap_ext.
    intros u Hu. unfold selectIn.
    case_decide as Hu'; [|done]. unfold inWeek in *. simpl.
    destruct Hu' as (? & ? & ?).
    split; intros [(? & ? & ?) _]; destruct Hgroup; repeat split; congruence.
Qed.

Lemma setActiveVersion_rows db v :
  NoDup (TimetableVersion.id <$> timetableVersions db) → v ∈ timetableVersions db →
  timetableVersions (setActiveVersion db (TimetableVersion.id v) (TimetableVersion.classId v))
  = selectIn (TimetableVersion.id v) (TimetableVersion.classId v)
      (TimetableVersion.weekStart v) (TimetableVersion.weekEnd v)
    <$> timetableVersions db.
Proof.
  intros Hnd Hin. unfold setActiveVersion.
  destruct (filter _ (timetableVersions db)) as [|version rest] eqn:E.
  { assert (v ∈ filter (λ u, TimetableVersion.id u = TimetableVersion.id v)
                  (timetableVersions db)) as Hv by by apply list_elem_of_filter.
    rewrite E in Hv. by apply elem_of_nil in Hv. }
  assert (version = v) as ->.
  { assert (version ∈ filter (λ u, TimetableVersion.id u = TimetableVersion.id v)
                        (timetableVersions db)) as Hv by (rewrite E; by left).
    apply list_elem_of_filter in Hv as [Hid Hv]. by eapply same_id_same_row. }
  set (select := selectIn _ _ _ _).
  assert (updateIsActive (λ u, TimetableVersion.id u = TimetableVersion.id v) true
            (updateIsActive (inWeek (TimetableVersion.classId v)
                               (TimetableVersion.weekStart v) (TimetableVersion.weekEnd v))
               false (timetableVersions db))
          = select <$> timetableVersions db) as Hrows.
  { unfold updateIsActive. rewrite <- list_fmap_compose. apply list_fmap_ext.
    intros i u Hu. apply list_elem_of_lookup_2 in Hu. simpl.
    unfold select, selectIn.
    destruct (decide (inWeek _ _ _ u)) as [Hw|Hw]; simpl.
    - case_decide as Hid; [rewrite bool_decide_eq_true_2|rewrite bool_decide_eq_false_2];
        done.
    - case_decide as Hid; [|done].
      rewrite (same_id_same_row _ u v Hnd Hu Hin Hid) in Hw. by destruct Hw. }
  simpl. rewrite Hrows.
  rewrite bool_decide_eq_false_2; [done|].
  unfold select. rewrite activeCount_selectIn by done.
  rewrite decide_True by done. lia.
Qed.

End SetActiveVersion.

(** One call that resolves: afterwards the class and week of the selected
    version have exactly one active version, and every other class or week
    has as many active versions as before. *)
Lemma setActiveVersion_one_call db call classId weekStart weekEnd :
  NoDup (TimetableVersion.id <$> storage.timetableVersions db) →
  resolves (storage.timetableVersions db) call →
  let after := storage.timetableVersions (storage.setActiveVersion db call.1 call.2) in
  (targets (storage.timetableVersions db) classId weekStart weekEnd call →
   storage.activeCount classId weekStart weekEnd after = 1%nat)
  ∧ (¬ targets (storage.timetableVersions db) classId weekStart weekEnd call →
     storage.activeCount classId weekStart weekEnd after
     = storage.activeCount classId weekStart weekEnd (storage.timetableVersions db)).
Proof.
  intros Hnd (v & Hin & Hid & Hcls) after. subst after. rewrite <- Hid, <- Hcls.
  rewrite setActiveVersion_rows, activeCount_selectIn by done.
  destruct (decide (storage.inWeek classId weekStart weekEnd v)) as [Hw|Hw].
  - split; [done|]. intros Hnot. destruct Hnot. exists v. destruct Hw as (? & ? & ?).
    unfold storage.inWeek. repeat split; congruence.
  - split; [|done]. intros (v' & Hin' & Hid' & _ & Hw').
    rewrite <- Hid in Hid'.
    by rewrite (same_id_same_row _ v' v Hnd Hin' Hin Hid') in Hw'.
Qed.

Lemma runCalls_cons db call calls :
  runCalls db (call :: calls) = runCalls (storage.setActiveVersion db call.1 call.2) calls.
Proof. done. Qed.

(** C3, as it holds. After a sequence of [setActiveVersion] calls, each
    naming a version of its class, every class and week that had exactly one
    active version before the sequence, or for which a version was selected
    by one of the calls, has exactly one active version. *)
Theorem setActiveVersion_keeps_one_active db calls classId weekStart weekEnd :
  NoDup (TimetableVersion.id <$> storage.timetableVersions db) →
  Forall (resolves (storage.timetableVersions db)) calls →
  exactlyOneActive (storage.timetableVersions db) classId weekStart weekEnd
  ∨ Exists (targets (storage.timetableVersions db) classId weekStart weekEnd) calls →
  exactlyOneActive (storage.timetableVersions (runCalls db calls)) classId weekStart weekEnd.
Proof.
  revert db. induction calls as [|call calls IH]; intros db Hnd Hres Hinit.
  { destruct Hinit as [?|Hex]; [done|]. by apply Exists_nil in Hex. }
  rewrite runCalls_cons.
  apply Forall_cons in Hres as [Hcall Hres].
  pose proof (fixedColumns_setActiveVersion db call.1 call.2) as Hfixed.
  destruct (setActiveVersion_one_call db call classId weekStart weekEnd Hnd Hcall)
    as [Hhit Hmiss].
  apply IH.
  - by rewrite (ids_same_fixedColumns _ _ Hfixed).
  - eapply Forall_impl; [done|]. intros c. by apply resolves_same_fixedColumns.
  - destruct (decide (targets (storage.timetableVersions db) classId weekStart weekEnd call))
      as [Ht|Ht].
    + left. by apply Hhit.
    + destruct Hinit as [Hone|Hex].
      * left. unfold exactlyOneActive. by rewrite Hmiss.
      * right. apply Exists_cons in Hex as [?|Hex]; [done|].
        eapply Exists_impl; [done|]. intros c. by apply targets_same_fixedColumns.
Qed.

Lemma setActiveVersion_keeps_one_active_witness :
  let calls : list Call := [("v-1", "class-a"); ("v-2", "class-a"); ("v-1", "class-a")] in
  NoDup (TimetableVersion.id <$> storage.timetableVersions threeVersions)
  ∧ Forall (resolves (storage.timetableVersions threeVersions)) calls
  ∧ Exists (targets (storage.timetableVersions threeVersions)
              "class-a" "2024-01-01" "2024-01-06") calls
  ∧ exactlyOneActive (storage.timetableVersions (runCalls threeVersions calls))
      "class-a" "2024-01-01" "2024-01-06".
Proof.
  intros calls.
  assert (NoDup (TimetableVersion.id <$> storage.timetableVersions threeVersions)) as Hnd
    by (apply (bool_decide_unpack _); by vm_compute).
  assert (Forall (resolves (storage.timetableVersions threeVersions)) calls) as Hres.
  { repeat apply Forall_cons_2; [| | |apply Forall_nil_2].
    - eexists; split; [apply list_elem_of_here|done].
    - eexists; split; [apply list_elem_of_further, list_elem_of_here|done].
    - eexists; split; [apply list_elem_of_here|done]. }
  assert (Exists (targets (storage.timetableVersions threeVersions)
                    "class-a" "2024-01-01" "2024-01-06") calls) as Hhit.
  { apply Exists_cons_hd. eexists; split; [apply list_elem_of_here|done]. }
  repeat (split; [done|]).
  exact (setActiveVersion_keeps_one_active threeVersions calls
           "class-a" "2024-01-01" "2024-01-06" Hnd Hres (or_intror Hhit)).
Defined.

(** C3 as worded fails for a class and week that no call of the sequence
    selects a version of: class B has a version, and after the call for
    class A it still has no active one. *)
Lemma setActiveVersion_other_class_counterexample :
  let calls : list Call := [("v-1", "class-a")] in
  let after := storage.timetableVersions (runCalls threeVersions calls) in
  NoDup (TimetableVersion.id <$> storage.timetableVersions threeVersions)
  ∧ Forall (resolves (storage.timetableVersions threeVersions)) calls
  ∧ (∃ v, v ∈ after ∧ storage.inWeek "class-b" "2024-01-01" "2024-01-06" v)
  ∧ ¬ exactlyOneActive after "class-b" "2024-01-01" "2024-01-06".
Proof.
  intros calls after. split; [apply (bool_decide_unpack _); by vm_compute|]. split; [|split].
  - apply Forall_cons_2; [|apply Forall_nil_2].
    eexists; split; [apply list_elem_of_here|done].
  - eexists. split; [do 2 apply list_elem_of_further; apply list_elem_of_here|done].
  - by vm_compute.
Qed.

(** ** [generateTimetable] on a small database *)

(** The class of school A needs three periods of mathematics; the grid of
    its school has one period, so one entry is created, under the new
    version. *)
Example generateTimetable_school_a :
  let out := generateTimetable constructor twoSchools steadySource "2024-01-01" "2024-01-06"
               (Some "class-a") (Some "school-a") in
  out.1.1 = {| success := true;
               message := "Timetable generated successfully with 1 entries.";
               entriesCreated := Some 1%nat;
               version := Some "v0.1" |}
  ∧ storage.timetableVersions out.1.2
    = [TimetableVersion.mk "uuid-0" "class-a" "v0.1" "2024-01-01" "2024-01-06" true]
  ∧ storage.timetableEntries out.1.2
    = [TimetableEntry.mk "class-a" "t1" "math" "monday" 1 "09:00" "09:45" None
         (Some "uuid-0") true].
Proof. by vm_compute. Qed.

(** ** C6: failures before anything is written *)

Lemma whenTruthy_Some v s : JS.whenTruthy v = Some s → v = Some s ∧ JS.truthy v = true.
Proof. unfold JS.whenTruthy. destruct (JS.truthy v) eqn:E; [|done]. by intros ->. Qed.

Lemma whenTruthy_idem v s : JS.whenTruthy v = Some s → JS.whenTruthy (Some s) = Some s.
Proof. intros [-> Ht]%whenTruthy_Some. unfold JS.whenTruthy. by rewrite Ht. Qed.

Lemma prepareRun_early this db weekStart weekEnd classId userSchoolId early :
  prepareRun this db weekStart weekEnd classId userSchoolId = inl early →
  ∃ message, message ≠ "" ∧ early = failure message.
Proof.
  unfold prepareRun.
  destruct (loadClasses db classId userSchoolId) as [early'|classes] eqn:Hload.
  - intros [= <-]. unfold loadClasses in Hload.
    destruct (JS.whenTruthy classId).
    + destruct (storage.getClass db _); [done|]. injection Hload as <-. give_message.
    + destruct (JS.whenTruthy userSchoolId); [done|]. injection Hload as <-. give_message.
  - destruct (JS.whenTruthy _); [|intros [= <-]; give_message].
    destruct (_ || _); [intros [= <-]; give_message|].
    by destruct (createVersions _ _ _ _ _).
Qed.

Lemma InputAbsent_prepareRun this db weekStart weekEnd classId userSchoolId :
  InputAbsent db classId userSchoolId →
  ∃ early, prepareRun this db weekStart weekEnd classId userSchoolId = inl early.
Proof.
  intros Habsent. unfold prepareRun.
  destruct Habsent as [cid Hc Hnone|Hc Hu|sid Hc Hu Hnone|classes Hload Hnone|Hsub
                      |classes sid Hload Hsid Hnone].
  - unfold loadClasses. rewrite Hc, Hnone. eauto.
  - unfold loadClasses. rewrite Hc, Hu. eauto.
  - unfold loadClasses. rewrite Hc, Hu. unfold storage.getClasses, JS.whenTruthy. simpl.
    rewrite Hnone. simpl. eauto.
  - rewrite Hload, Hnone. eauto.
  - destruct (loadClasses _ _ _); [eauto|].
    destruct (JS.whenTruthy _); [|eauto].
    unfold storage.getSubjects, JS.whenTruthy. simpl. rewrite Hsub. simpl.
    rewrite orb_true_r. simpl. eauto.
  - rewrite Hload, Hsid. unfold storage.getTeachers.
    rewrite (whenTruthy_idem _ _ Hsid), Hnone. simpl.
    rewrite orb_true_r. eauto.
Qed.

(** C6, as it holds. When the requested class is not found, no school can
    be resolved, the school has no class or no active teacher, or there is
    no subject at all, [generateTimetable] returns a failure with a message
    and leaves the database (and the scheduler) as they were: no version
    and no entry is created. *)
Theorem generateTimetable_input_absent this db rs weekStart weekEnd classId userSchoolId :
  InputAbsent db classId userSchoolId →
  ∃ message,
    message ≠ ""
    ∧ generateTimetable this db rs weekStart weekEnd classId userSchoolId
      = ({| success := false; message := message; entriesCreated := None; version := None |},
         db, this).
Proof.
  intros Habsent.
  destruct (InputAbsent_prepareRun this db weekStart weekEnd _ _ Habsent) as [early Hearly].
  destruct (prepareRun_early _ _ _ _ _ _ _ Hearly) as (message & Hmsg & ->).
  exists message. split; [done|].
  unfold generateTimetable. by rewrite Hearly.
Qed.

Lemma generateTimetable_input_absent_witness :
  InputAbsent twoSchools (Some "class-z") (Some "school-a")
  ∧ ∃ message,
      message ≠ ""
      ∧ generateTimetable constructor twoSchools steadySource "2024-01-01" "2024-01-06"
          (Some "class-z") (Some "school-a")
        = ({| success := false; message := message; entriesCreated := None; version := None |},
           twoSchools, constructor).
Proof.
  assert (InputAbsent twoSchools (Some "class-z") (Some "school-a")) as Habsent
    by (by apply (class_not_found _ _ _ "class-z")).
  split; [done|].
  exact (generateTimetable_input_absent constructor twoSchools steadySource
           "2024-01-01" "2024-01-06" _ _ Habsent).
Defined.

(** C6 as worded fails for the subject roster of the school: school B has
    no subject, yet the call for its class passes the roster check because
    school A has one, and a version is created before the call fails. *)
Lemma generateTimetable_school_without_subjects_counterexample :
  let out := generateTimetable constructor twoSchools steadySource "2024-01-01" "2024-01-06"
               (Some "class-b") (Some "school-b") in
  filter (λ s, Subject.schoolId s = "school-b") (storage.subjects twoSchools) = []
  ∧ success out.1.1 = false
  ∧ storage.timetableVersions twoSchools = []
  ∧ storage.timetableVersions out.1.2
    = [TimetableVersion.mk "uuid-0" "class-b" "v0.1" "2024-01-01" "2024-01-06" true].
Proof. by vm_compute. Qed.

(** ** C5: a run without entries *)

Lemma setActiveVersion_entries db versionId classId :
  storage.timetableEntries (storage.setActiveVersion db versionId classId)
  = storage.timetableEntries db.
Proof. unfold storage.setActiveVersion. by destruct (filter _ _). Qed.

Lemma createVersions_entries db weekStart weekEnd classes versionsCreated :
  storage.timetableEntries (createVersions db weekStart weekEnd classes versionsCreated).1
  = storage.timetableEntries db.
Proof.
  revert db versionsCreated.
  induction classes as [|classData rest IH]; intros db versionsCreated; simpl; [done|].
  by rewrite IH, setActiveVersion_entries.
Qed.

Lemma prepareRun_entries this db weekStart weekEnd classId userSchoolId run :
  prepareRun this db weekStart weekEnd classId userSchoolId = inr run →
  storage.timetableEntries (run_db run) = storage.timetableEntries db.
Proof.
  unfold prepareRun.
  destruct (loadClasses _ _ _) as [|classes]; [done|].
  destruct (JS.whenTruthy _); [|done].
  destruct (_ || _); [done|].
  destruct (createVersions db weekStart weekEnd classes []) as [db' versionsCreated] eqn:E.
  intros [= <-]. simpl.
  change db' with (db', versionsCreated).1. rewrite <- E. apply createVersions_entries.
Qed.

(** Without a qualified teacher no constraint gets a pool, so the solver
    places nothing. *)
Lemma solveLoop_no_qualified rs slots teachers subjects i cs st :
  (∀ c, c ∈ cs → qualifiedTeachers c teachers = []) →
  solveLoop rs slots teachers subjects i cs st = st.
Proof.
  revert i st. induction cs as [|c rest IH]; intros i st Hnone; simpl; [done|].
  rewrite eligibleTeachers_empty_skips.
  - apply IH. intros c' Hc'. apply Hnone. by right.
  - unfold eligibleTeachers. rewrite (Hnone c) by by left. simpl. by case_bool_decide.
Qed.

Lemma solveSchedule_no_qualified rs slots constraints teachers subjects :
  (∀ c t, c ∈ constraints → t ∈ teachers → Teacher.isActive t = true →
          ScheduleConstraint.subjectId c ∉ Teacher.subjects t) →
  solveSchedule rs slots constraints teachers subjects = [].
Proof.
  intros Hnone. unfold solveSchedule. rewrite solveLoop_no_qualified; [done|].
  intros c Hc. rewrite (shuffleConstraints_perm rs) in Hc.
  destruct (qualifiedTeachers c teachers) as [|t l] eqn:E; [done|].
  assert (t ∈ qualifiedTeachers c teachers) as Ht by (rewrite E; by left).
  apply elem_of_qualifiedTeachers in Ht as (Hsub & Hact & Hin).
  by destruct (Hnone c t).
Qed.

(** C5, as it holds. When the solver returns no entry, in particular when
    no active teacher of the roster is qualified for the subject of any
    constraint, [generateTimetable] returns a failure that carries no
    [entriesCreated] field, and the entry table is what it was before the
    call. *)
Theorem generateTimetable_no_entries this db rs weekStart weekEnd classId userSchoolId run :
  prepareRun this db weekStart weekEnd classId userSchoolId = inr run →
  solveSchedule rs (timeSlots (run_scheduler run)) (run_constraints run)
    (run_teachers run) (run_subjects run) = []
  ∨ (∀ c t, c ∈ run_constraints run → t ∈ run_teachers run → Teacher.isActive t = true →
            ScheduleConstraint.subjectId c ∉ Teacher.subjects t) →
  let out := generateTimetable this db rs weekStart weekEnd classId userSchoolId in
  success out.1.1 = false
  ∧ entriesCreated out.1.1 = None
  ∧ storage.timetableEntries out.1.2 = storage.timetableEntries db.
Proof.
  intros Hrun Hnone out.
  assert (solveSchedule rs (timeSlots (run_scheduler run)) (run_constraints run)
            (run_teachers run) (run_subjects run) = []) as Hsolve.
  { destruct Hnone as [?|Hnone]; [done|]. by apply solveSchedule_no_qualified. }
  subst out. unfold generateTimetable. rewrite Hrun, Hsolve. simpl.
  repeat split. by eapply prepareRun_entries.
Qed.

Lemma generateTimetable_no_entries_witness :
  let out := generateTimetable constructor unqualifiedStaff steadySource
               "2024-01-01" "2024-01-06" (Some "class-a") (Some "school-a") in
  (∃ run,
     prepareRun constructor unqualifiedStaff "2024-01-01" "2024-01-06" (Some "class-a")
       (Some "school-a") = inr run
     ∧ run_constraints run = [ScheduleConstraint.mk "class-a" "math" 5 []]
     ∧ solveSchedule steadySource (timeSlots (run_scheduler run)) (run_constraints run)
         (run_teachers run) (run_subjects run) = [])
  ∧ success out.1.1 = false
  ∧ entriesCreated out.1.1 = None
  ∧ storage.timetableEntries out.1.2 = storage.timetableEntries unqualifiedStaff.
Proof.
  intros out.
  destruct (prepareRun constructor unqualifiedStaff "2024-01-01" "2024-01-06"
              (Some "class-a") (Some "school-a")) as [early|run] eqn:Hrun;
    [by vm_compute in Hrun|].
  assert (run_constraints run = [ScheduleConstraint.mk "class-a" "math" 5 []]
          ∧ solveSchedule steadySource (timeSlots (run_scheduler run)) (run_constraints run)
              (run_teachers run) (run_subjects run) = []) as [Hcs Hsolve].
  { vm_compute in Hrun. injection Hrun as <-. by vm_compute. }
  split; [by exists run|].
  exact (generateTimetable_no_entries constructor unqualifiedStaff steadySource
           "2024-01-01" "2024-01-06" _ _ run Hrun (or_introl Hsolve)).
Defined.

(** C5 as worded fails in one detail: the failure carries no
    [entriesCreated] at all, which is not the number zero. *)
Lemma generateTimetable_no_entries_field_counterexample :
  let out := generateTimetable constructor unqualifiedStaff steadySource
               "2024-01-01" "2024-01-06" (Some "class-a") (Some "school-a") in
  success out.1.1 = false
  ∧ entriesCreated out.1.1 = None
  ∧ entriesCreated out.1.1 ≠ Some 0%nat.
Proof. by vm_compute. Qed.

(** ** C9: under-provisioned subjects *)

Lemma cellCount_countStep counts es classId subjectId :
  cellCount (foldl countStep counts es) classId subjectId
  = (cellCount counts classId subjectId
     + length (filter (λ e, TimetableEntry.classId e = classId
                            ∧ TimetableEntry.subjectId e = subjectId) es))%nat.
Proof.
  revert counts. induction es as [|e es IH]; intros counts; simpl; [lia|].
  rewrite IH. change (countStep counts e)
    with (bump (TimetableEntry.classId e) (TimetableEntry.subjectId e) counts).
  rewrite cellCount_bump, filter_cons.
  destruct (decide (classId = TimetableEntry.classId e
                    ∧ subjectId = TimetableEntry.subjectId e)) as [[-> ->]|Hne].
  - rewrite decide_True by done. simpl. lia.
  - rewrite decide_False; [lia|]. intros [? ?]. by destruct Hne.
Qed.

Lemma actualCount_matchingEntries db classId subjectId :
  default 0%nat
    (default ∅ (classSubjectCountOf (storage.getTimetableEntries db) !! classId) !! subjectId)
  = matchingEntries db classId subjectId.
Proof.
  unfold matchingEntries, classSubjectCountOf.
  replace (filter _ (storage.timetableEntries db))
    with (filter (λ e, TimetableEntry.classId e = classId
                       ∧ TimetableEntry.subjectId e = subjectId)
            (storage.getTimetableEntries db))
    by (unfold storage.getTimetableEntries; rewrite list_filter_filter;
        apply list_filter_iff; tauto).
  rewrite <- (Nat.add_0_l (length _)).
  change 0%nat with (cellCount (∅ : gmap string (gmap string nat)) classId subjectId) at 2.
  rewrite <- cellCount_countStep. unfold cellCount.
  by destruct (foldl countStep ∅ (storage.getTimetableEntries db) !! classId).
Qed.

Lemma frequencyConflicts_insufficient db classData assignment :
  classData ∈ storage.getClasses db None →
  assignment ∈ storage.getClassSubjectAssignments db (Some (Class.id classData)) →
  Z.of_nat (matchingEntries db (Class.id classData) (AssignmentRow.subjectId assignment))
  < AssignmentRow.weeklyFrequency assignment →
  insufficientMessage classData assignment
    (matchingEntries db (Class.id classData) (AssignmentRow.subjectId assignment))
  ∈ conflicts (validateTimetable db).
Proof.
  intros Hclass Hassign Hless.
  unfold validateTimetable. simpl.
  rewrite !elem_of_app. right. right.
  unfold frequencyConflicts.
  apply list_elem_of_bind. exists classData. split; [|done].
  apply list_elem_of_bind. exists assignment. split; [|done].
  unfold frequencyCheck. rewrite actualCount_matchingEntries.
  rewrite bool_decide_eq_true_2 by done.
  apply elem_of_app. left. by apply list_elem_of_singleton.
Qed.

(** The row [getClassSubjectAssignments] returns for an assignment whose
    subject exists. *)
Lemma getClassSubjectAssignments_row db a s :
  a ∈ storage.classSubjectAssignments db → s ∈ storage.subjects db →
  ClassSubjectAssignment.subjectId a = Subject.id s →
  ∃ row, row ∈ storage.getClassSubjectAssignments db (Some (ClassSubjectAssignment.classId a))
         ∧ AssignmentRow.subjectId row = ClassSubjectAssignment.subjectId a
         ∧ AssignmentRow.weeklyFrequency row = ClassSubjectAssignment.weeklyFrequency a
         ∧ AssignmentRow.subject row = s.
Proof.
  intros Ha Hs Hid.
  set (teacher :=
         head (filter (λ t, ClassSubjectAssignment.assignedTeacherId a = Some (Teacher.id t))
                 (storage.teachers db))).
  set (row := AssignmentRow.mk (ClassSubjectAssignment.id a)
                (ClassSubjectAssignment.classId a) (ClassSubjectAssignment.subjectId a)
                (ClassSubjectAssignment.weeklyFrequency a)
                (ClassSubjectAssignment.assignedTeacherId a) s teacher).
  exists row. split; [|done].
  unfold storage.getClassSubjectAssignments.
  match goal with |- _ ∈ match _ with Some cid => filter _ ?j | None => _ end =>
    assert (row ∈ j) as Hrow end.
  { apply list_elem_of_bind. exists a. split; [|done].
    apply list_elem_of_bind. exists s. split; [|by apply list_elem_of_filter].
    subst row teacher. destruct (filter _ (storage.teachers db)) as [|t ts]; simpl.
    - apply list_elem_of_here.
    - apply list_elem_of_here. }
  destruct (JS.whenTruthy _) as [cid|] eqn:Hcid; [|done].
  apply whenTruthy_Some in Hcid as [[= <-] _]. by apply list_elem_of_filter.
Qed.

(** C9. For every class and every assignment of it (with its subject)
    whose weekly frequency exceeds the number of active entries of the class
    for the subject, the conflicts of [validateTimetable] contain the
    "Insufficient periods" message with the required and the actual count;
    and [isValid] is true exactly when there is no conflict. *)
Theorem validateTimetable_insufficient_periods db :
  (∀ classData a s,
     classData ∈ storage.classes db →
     a ∈ storage.classSubjectAssignments db →
     s ∈ storage.subjects db →
     ClassSubjectAssignment.classId a = Class.id classData →
     ClassSubjectAssignment.subjectId a = Subject.id s →
     Z.of_nat (matchingEntries db (Class.id classData) (Subject.id s))
     < ClassSubjectAssignment.weeklyFrequency a →
     "Insufficient periods: Class " +:+ Class.grade classData +:+ "-"
       +:+ Class.section classData
       +:+ " needs " +:+ pretty (ClassSubjectAssignment.weeklyFrequency a)
       +:+ " periods of " +:+ JS.orElse (Some (Subject.name s)) "Unknown Subject"
       +:+ " but only has " +:+ pretty (matchingEntries db (Class.id classData) (Subject.id s))
     ∈ conflicts (validateTimetable db))
  ∧ (isValid (validateTimetable db) = true ↔ conflicts (validateTimetable db) = []).
Proof.
  split.
  - intros classData a s Hclass Ha Hs Hcls Hsub Hless.
    destruct (getClassSubjectAssignments_row db a s Ha Hs Hsub)
      as (row & Hrow & Hrsub & Hrfreq & Hrs).
    rewrite Hcls in Hrow.
    pose proof (frequencyConflicts_insufficient db classData row) as Hmsg.
    unfold insufficientMessage, subjectNameOf in Hmsg.
    rewrite Hrsub, Hrfreq, Hrs, Hsub in Hmsg. by apply Hmsg.
  - unfold validateTimetable. simpl. rewrite bool_decide_eq_true.
    apply length_zero_iff_nil.
Qed.

Lemma validateTimetable_insufficient_periods_witness :
  let classData := Class.mk "class-a" "9" "A" "school-a" in
  let a := ClassSubjectAssignment.mk "asg-1" "class-a" "math" 5 (Some "t1") in
  let s := Subject.mk "math" "Mathematics" "school-a" in
  classData ∈ storage.classes threeOfFive
  ∧ a ∈ storage.classSubjectAssignments threeOfFive
  ∧ s ∈ storage.subjects threeOfFive
  ∧ matchingEntries threeOfFive "class-a" "math" = 3%nat
  ∧ "Insufficient periods: Class 9-A needs 5 periods of Mathematics but only has 3"
    ∈ conflicts (validateTimetable threeOfFive).
Proof.
  intros classData a s.
  assert (classData ∈ storage.classes threeOfFive) as Hclass by apply list_elem_of_here.
  assert (a ∈ storage.classSubjectAssignments threeOfFive) as Ha by apply list_elem_of_here.
  assert (s ∈ storage.subjects threeOfFive) as Hs by apply list_elem_of_here.
  assert (matchingEntries threeOfFive "class-a" "math" = 3%nat) as Hcount by reflexivity.
  assert (Z.of_nat (matchingEntries threeOfFive (Class.id classData) (Subject.id s))
          < ClassSubjectAssignment.weeklyFrequency a) as Hless by (by vm_compute).
  repeat (split; [done|]).
  exact (proj1 (validateTimetable_insufficient_periods threeOfFive)
           classData a s Hclass Ha Hs eq_refl eq_refl Hless).
Defined.

(** ** C10: teacher conflicts need two classes *)

Lemma clashesWith_spec entry e :
  clashesWith entry e = true ↔
  teacherSlot entry = teacherSlot e ∧ TimetableEntry.classId entry ≠ TimetableEntry.classId e.
Proof.
  unfold clashesWith, teacherSlot.
  rewrite !andb_true_iff, negb_true_iff, !bool_decide_eq_true, bool_decide_eq_false.
  split.
  - intros [[[? ?] ?] Hne]. split; congruence.
  - intros [[= ? ? ?] Hne]. repeat split; congruence.
Qed.

Lemma teacherConflictStep_clash es acc entry :
  entry ∈ es → Forall (clash es) acc.2 →
  Forall (clash es) (teacherConflictStep es acc entry).2.
Proof.
  intros Hentry Hacc. destruct acc as [teacherSchedule reported]. simpl in *.
  case_bool_decide; [|done].
  destruct (List.find (clashesWith entry) es) as [conflictEntry|] eqn:Hfind; [|done].
  apply find_some in Hfind as [Hin Hclash]. simpl.
  apply Forall_app. split; [done|]. apply Forall_singleton.
  apply clashesWith_spec in Hclash as [Hslot Hne].
  split; [done|]. split; [by apply list_elem_of_In|]. done.
Qed.

Lemma teacherConflictPairs_clash es : Forall (clash es) (teacherConflictPairs es).
Proof.
  unfold teacherConflictPairs.
  assert (∀ l acc, (∀ e, e ∈ l → e ∈ es) → Forall (clash es) acc.2 →
                   Forall (clash es) (foldl (teacherConflictStep es) acc l).2) as Hfold.
  { induction l as [|e l IH]; intros acc Hl Hacc; simpl; [done|].
    apply IH; [intros e' He'; apply Hl; by right|].
    apply teacherConflictStep_clash; [apply Hl; by left|done]. }
  by apply Hfold.
Qed.

(** The other two checks never word a message as a teacher conflict. *)
Lemma roomConflicts_wording es rest : "Teacher conflict: " +:+ rest ∉ roomConflicts es.
Proof.
  unfold roomConflicts.
  assert (∀ l acc, "Teacher conflict: " +:+ rest ∉ acc.2 →
                   "Teacher conflict: " +:+ rest ∉ (foldl roomConflictStep acc l).2) as Hfold.
  { induction l as [|e l IH]; intros acc Hacc; simpl; [done|].
    apply IH. destruct acc as [roomSchedule found]. unfold roomConflictStep.
    destruct (JS.whenTruthy (TimetableEntry.room e)); [|done].
    case_bool_decide; [|done]. simpl in *.
    rewrite elem_of_app, list_elem_of_singleton. intros [?|Heq]; [done|].
    discriminate Heq. }
  apply Hfold. simpl. apply not_elem_of_nil.
Qed.

Lemma frequencyConflicts_wording db counts rest :
  "Teacher conflict: " +:+ rest ∉ frequencyConflicts db counts.
Proof.
  unfold frequencyConflicts. intros Hin.
  apply list_elem_of_bind in Hin as (classData & Hin & _).
  apply list_elem_of_bind in Hin as (assignment & Hin & _).
  unfold frequencyCheck in Hin.
  apply elem_of_app in Hin as [Hin|Hin]; case_bool_decide;
    try (by apply elem_of_nil in Hin);
    apply list_elem_of_singleton in Hin; discriminate Hin.
Qed.

(** C10. A message worded as a teacher conflict is in the result of
    [validateTimetable] only for two active entries of two distinct classes
    with the same teacher, day and period. Hence a teacher, day and period
    whose active entries all belong to one class give rise to no reported
    pair. *)
Theorem validateTimetable_teacher_conflict_two_classes db :
  let es := storage.getTimetableEntries db in
  (∀ rest,
     "Teacher conflict: " +:+ rest ∈ conflicts (validateTimetable db) →
     ∃ entry conflictEntry,
       clash es (entry, conflictEntry)
       ∧ "Teacher conflict: " +:+ rest = teacherConflictMessage (entry, conflictEntry))
  ∧ (∀ slot,
       (∀ e1 e2, e1 ∈ es → e2 ∈ es → teacherSlot e1 = slot → teacherSlot e2 = slot →
                 TimetableEntry.classId e1 = TimetableEntry.classId e2) →
       ∀ p, p ∈ teacherConflictPairs es → teacherSlot p.1 ≠ slot).
Proof.
  intros es. split.
  - intros rest Hin. unfold validateTimetable in Hin. simpl in Hin.
    rewrite !elem_of_app in Hin. destruct Hin as [Hin|[Hin|Hin]].
    + apply list_elem_of_fmap in Hin as ([entry conflictEntry] & Hmsg & Hpair).
      exists entry, conflictEntry. split; [|done].
      by apply (proj1 (Forall_forall _ _) (teacherConflictPairs_clash es)).
    + by apply roomConflicts_wording in Hin.
    + by apply frequencyConflicts_wording in Hin.
  - intros slot Hsame p Hp Hslot.
    destruct (proj1 (Forall_forall _ _) (teacherConflictPairs_clash es) p Hp)
      as (H1 & H2 & Heq & Hne).
    apply Hne, Hsame; congruence.
Qed.

Lemma validateTimetable_teacher_conflict_two_classes_witness :
  let es := storage.getTimetableEntries sharedTeacher in
  let rest := "Teacher t1 is scheduled for both Class class-b and Class class-a on monday period 1" in
  conflicts (validateTimetable sharedTeacher) = ["Teacher conflict: " +:+ rest]
  ∧ (∃ entry conflictEntry,
       clash es (entry, conflictEntry)
       ∧ "Teacher conflict: " +:+ rest = teacherConflictMessage (entry, conflictEntry))
  ∧ (∀ e1 e2, e1 ∈ es → e2 ∈ es →
       teacherSlot e1 = ("t2", "tuesday", 2) → teacherSlot e2 = ("t2", "tuesday", 2) →
       TimetableEntry.classId e1 = TimetableEntry.classId e2)
  ∧ (∀ p, p ∈ teacherConflictPairs es → teacherSlot p.1 ≠ ("t2", "tuesday", 2)).
Proof.
  intros es rest.
  assert (conflicts (validateTimetable sharedTeacher) = ["Teacher conflict: " +:+ rest])
    as Hconflicts by reflexivity.
  assert ("Teacher conflict: " +:+ rest ∈ conflicts (validateTimetable sharedTeacher)) as Hin
    by (rewrite Hconflicts; apply list_elem_of_here).
  assert (∀ e1 e2, e1 ∈ es → e2 ∈ es →
            teacherSlot e1 = ("t2", "tuesday", 2) → teacherSlot e2 = ("t2", "tuesday", 2) →
            TimetableEntry.classId e1 = TimetableEntry.classId e2) as Hsame.
  { intros e1 e2 H1 H2 Hs1 Hs2.
    repeat (apply elem_of_cons in H1 as [->|H1]); try (by apply elem_of_nil in H1);
      try discriminate Hs1;
      repeat (apply elem_of_cons in H2 as [->|H2]); try (by apply elem_of_nil in H2);
      try discriminate Hs2; reflexivity. }
  split; [done|].
  split; [exact (proj1 (validateTimetable_teacher_conflict_two_classes sharedTeacher) rest Hin)|].
  split; [done|].
  exact (proj2 (validateTimetable_teacher_conflict_two_classes sharedTeacher) _ Hsame).
Defined.

(** ** The solver: where entries come from *)

Lemma placedFor_slots c slots slots' eligible e :
  (∀ s, s ∈ slots → s ∈ slots') → placedFor c slots eligible e → placedFor c slots' eligible e.
Proof.
  intros Hsub (?&?&(s&?&?)&?&?&?&?). split_and!; try done. exists s. split; [auto|done].
Qed.

Lemma placePeriods_placedFor c eligible slots periodsScheduled st :
  ∃ added,
    schedule (placePeriods c eligible slots periodsScheduled st) = schedule st ++ added
    ∧ Z.of_nat (length added) ≤ Z.max 0 (ScheduleConstraint.periodsNeeded c - periodsScheduled)
    ∧ Forall (placedFor c slots eligible) added.
Proof.
  revert periodsScheduled st.
  induction slots as [|timeSlot rest IH]; intros n st; simpl.
  { exists []. rewrite app_nil_r. split_and!; [done|simpl; lia|constructor]. }
  assert (Hskip : ∃ added,
            schedule (placePeriods c eligible rest n st) = schedule st ++ added
            ∧ Z.of_nat (length added) ≤ Z.max 0 (ScheduleConstraint.periodsNeeded c - n)
            ∧ Forall (placedFor c (timeSlot :: rest) eligible) added).
  { destruct (IH n st) as (added & Hs & Hlen & Hall).
    exists added. split_and!; [done..|].
    eapply Forall_impl; [exact Hall|].
    intros e. apply placedFor_slots. intros s ?. by right. }
  case_bool_decide as Hdone.
  { exists []. rewrite app_nil_r. split_and!; [done|simpl; lia|constructor]. }
  case_bool_decide; [done|].
  case_bool_decide; [done|].
  destruct (List.find _ eligible) as [t|] eqn:Hfind; [|done].
  apply find_some in Hfind as [Hin _]. apply list_elem_of_In in Hin.
  destruct (IH (n + 1) (assign c timeSlot t st)) as (added & Hs & Hlen & Hall).
  eexists (_ :: added). split_and!.
  - rewrite Hs. simpl. by rewrite <- app_assoc.
  - simpl length. lia.
  - constructor.
    + split_and!; try done; [exists timeSlot; split; [by left|done] | by exists t].
    + eapply Forall_impl; [exact Hall|].
      intros e. apply placedFor_slots. intros s ?. by right.
Qed.

Lemma scheduleConstraint_addedPer rs slots teachers subjects i c st :
  ∃ added,
    schedule (scheduleConstraint rs slots teachers subjects i c st) = schedule st ++ added
    ∧ addedPer slots teachers subjects c added.
Proof.
  unfold scheduleConstraint, addedPer.
  destruct (List.find _ subjects) as [s|] eqn:Hfind.
  2:{ exists []. rewrite app_nil_r. split_and!; [done|simpl; lia|constructor|done]. }
  case_bool_decide as Hnone.
  { exists []. rewrite app_nil_r. split_and!; [done|simpl; lia|constructor|done]. }
  destruct (placePeriods_placedFor c (eligibleTeachers c teachers)
              (prioritizeSlots rs i
                 (λ slot, getDailySubjectCount st (ScheduleConstraint.classId c)
                            (TimeSlot.day slot) (ScheduleConstraint.subjectId c)) slots) 0 st)
    as (added & Hs & Hlen & Hall).
  exists added. split_and!; [done|lia| |].
  - eapply Forall_impl; [exact Hall|].
    intros e. apply placedFor_slots. intros s' Hin. by rewrite prioritizeSlots_perm in Hin.
  - intros _.
    apply find_some in Hfind as [Hin Heq]. apply bool_decide_eq_true in Heq.
    unfold subjectKnown. rewrite <- Heq. apply list_elem_of_fmap_2. by apply list_elem_of_In.
Qed.

Lemma solveLoop_addedPer rs slots teachers subjects i cs st :
  ∃ added : list (list TimetableEntry.t),
    schedule (solveLoop rs slots teachers subjects i cs st) = schedule st ++ concat added
    ∧ Forall2 (addedPer slots teachers subjects) cs added.
Proof.
  revert i st. induction cs as [|c rest IH]; intros i st; simpl.
  { exists []. simpl. rewrite app_nil_r. split; [done|constructor]. }
  destruct (scheduleConstraint_addedPer rs slots teachers subjects i c st) as (es & Hs & Hes).
  destruct (IH (S i) (scheduleConstraint rs slots teachers subjects i c st))
    as (added & Hs' & Hall').
  exists (es :: added). split.
  - rewrite Hs', Hs. simpl. by rewrite <- app_assoc.
  - by constructor.
Qed.

Lemma filter_none {A} (P : A → Prop) `{!∀ x, Decision (P x)} (l : list A) :
  Forall (λ x, ¬ P x) l → filter P l = [].
Proof.
  induction 1 as [|x l Hx _ IH]; [done|].
  by rewrite filter_cons_False.
Qed.

Lemma entriesFor_app es1 es2 classId subjectId :
  entriesFor (es1 ++ es2) classId subjectId
  = (entriesFor es1 classId subjectId + entriesFor es2 classId subjectId)%nat.
Proof. unfold entriesFor. by rewrite filter_app, length_app. Qed.

Lemma entriesFor_placedFor c slots eligible es classId subjectId :
  Forall (placedFor c slots eligible) es →
  (entriesFor es classId subjectId
   ≤ if decide (ScheduleConstraint.classId c = classId
                ∧ ScheduleConstraint.subjectId c = subjectId)
     then length es else 0)%nat.
Proof.
  intros Hall. unfold entriesFor. destruct (decide _) as [Hc|Hc].
  - apply length_filter.
  - rewrite filter_none; [done|].
    eapply Forall_impl; [exact Hall|].
    intros e (Hcls & Hsub & _) [? ?]. apply Hc. split; congruence.
Qed.

Lemma entriesFor_added slots teachers subjects cs added classId subjectId :
  Forall2 (addedPer slots teachers subjects) cs added →
  (entriesFor (concat added) classId subjectId ≤ demand cs classId subjectId)%nat.
Proof.
  induction 1 as [|c es cs added (Hlen & Hall & _) _ IH]; simpl; [done|].
  rewrite entriesFor_app.
  pose proof (entriesFor_placedFor c slots _ es classId subjectId Hall) as Hes.
  unfold demand in *. rewrite filter_cons.
  destruct (decide _); simpl; lia.
Qed.

Lemma elem_of_added slots teachers subjects cs added e :
  Forall2 (addedPer slots teachers subjects) cs added → e ∈ concat added →
  ∃ c, c ∈ cs ∧ placedFor c slots (eligibleTeachers c teachers) e
       ∧ 0 < ScheduleConstraint.periodsNeeded c
       ∧ subjectKnown subjects c.
Proof.
  induction 1 as [|c es cs added (Hlen & Hall & Hknown) _ IH]; simpl.
  { by intros ?%elem_of_nil. }
  rewrite elem_of_app. intros [He|He].
  - exists c. rewrite Forall_forall in Hall.
    assert (es ≠ []) as Hne by (intros ->; by apply elem_of_nil in He).
    split_and!; [by left|by apply Hall| |by apply Hknown].
    destruct es; [done|]. simpl in Hlen. lia.
  - destruct (IH He) as (c' & ? & ?). exists c'. split; [by right|done].
Qed.

Lemma solveSchedule_elem_of rs slots constraints teachers subjects e :
  e ∈ solveSchedule rs slots constraints teachers subjects →
  ∃ c, c ∈ constraints
       ∧ placedFor c slots (eligibleTeachers c teachers) e
       ∧ 0 < ScheduleConstraint.periodsNeeded c
       ∧ subjectKnown subjects c.
Proof.
  unfold solveSchedule.
  destruct (solveLoop_addedPer rs slots teachers subjects 0 (shuffleConstraints rs constraints)
              initialState) as (added & -> & Hall).
  simpl. intros He.
  destruct (elem_of_added _ _ _ _ _ _ Hall He) as (c & Hc & ? & ? & ?).
  exists c. split_and!; try done. by rewrite shuffleConstraints_perm in Hc.
Qed.

(** X1. Every entry returned by [solveSchedule] was made for one of the
    given constraints: it carries the class and the subject of a constraint
    that asks for at least one period and whose subject is in the subject
    list, it sits on a slot of the grid (day, period and times), its teacher
    is in the pool of that constraint, it has no room and no version, and it
    is active. *)
Theorem solveSchedule_entry_provenance rs slots constraints teachers subjects e :
  e ∈ solveSchedule rs slots constraints teachers subjects →
  ∃ c, c ∈ constraints
       ∧ placedFor c slots (eligibleTeachers c teachers) e
       ∧ 0 < ScheduleConstraint.periodsNeeded c
       ∧ subjectKnown subjects c.
Proof.
  unfold solveSchedule.
  destruct (solveLoop_addedPer rs slots teachers subjects 0 (shuffleConstraints rs constraints)
              initialState) as (added & -> & Hall).
  simpl. intros He.
  destruct (elem_of_added _ _ _ _ _ _ Hall He) as (c & Hc & Hplaced & Hneeded & Hknown).
  exists c. split_and!; [|done..].
  by rewrite <- (shuffleConstraints_perm rs constraints).
Qed.

Lemma solveSchedule_entry_provenance_witness :
  let teachers := [mathTeacher "t1" {["monday" := ["08:00-08:45"]]}] in
  let c := onePeriodOfMath "classA" in
  mathEntry "classA" ∈ solveSchedule steadySource [mondayFirst] [c] teachers [mathSubject]
  ∧ ∃ c', c' ∈ [c]
          ∧ placedFor c' [mondayFirst] (eligibleTeachers c' teachers) (mathEntry "classA")
          ∧ 0 < ScheduleConstraint.periodsNeeded c'
          ∧ subjectKnown [mathSubject] c'.
Proof.
  intros teachers c.
  assert (mathEntry "classA"
          ∈ solveSchedule steadySource [mondayFirst] [c] teachers [mathSubject]) as He.
  { replace (solveSchedule steadySource [mondayFirst] [c] teachers [mathSubject])
      with [mathEntry "classA"] by (by vm_compute).
    apply list_elem_of_here. }
  split; [exact He|].
  exact (solveSchedule_entry_provenance steadySource [mondayFirst] [c] teachers [mathSubject]
           (mathEntry "classA") He).
Defined.

(** X2. For every class and subject, [solveSchedule] returns at most as
    many entries as the constraints for that class and subject ask for
    ([periodsNeeded], a constraint with a negative number counting as zero);
    in particular it returns none for a pair without a constraint. *)
Theorem solveSchedule_within_demand rs slots constraints teachers subjects classId subjectId :
  (entriesFor (solveSchedule rs slots constraints teachers subjects) classId subjectId
   ≤ demand constraints classId subjectId)%nat.
Proof.
  unfold solveSchedule.
  destruct (solveLoop_addedPer rs slots teachers subjects 0 (shuffleConstraints rs constraints)
              initialState) as (added & -> & Hall).
  simpl. etrans; [by eapply entriesFor_added|].
  unfold demand. by rewrite shuffleConstraints_perm.
Qed.

(** X3. When [initializeFromStructure] found a structure for the school,
    every entry scheduled on the resulting grid lies on a working day of the
    structure and takes its period and times from a slot of the structure
    that is not marked as a break. *)
Theorem solveSchedule_on_structure rs fetch schoolId structure this constraints teachers subjects e :
  JS.truthy (Some schoolId) = true →
  fetch schoolId = Fulfilled (Some structure) →
  e ∈ solveSchedule rs (timeSlots (initializeFromStructure fetch (Some schoolId) this))
        constraints teachers subjects →
  TimetableEntry.day e ∈ default weekdays (TimetableStructure.workingDays structure)
  ∧ ∃ s, s ∈ default periodTimes (TimetableStructure.timeSlots structure)
         ∧ StructureSlot.isBreak s ≠ Some true
         ∧ TimetableEntry.period e = StructureSlot.period s
         ∧ TimetableEntry.startTime e = StructureSlot.startTime s
         ∧ TimetableEntry.endTime e = StructureSlot.endTime s.
Proof.
  intros Hsid Hfetch He.
  rewrite (initializeFromStructure_found _ _ structure) in He by done.
  apply solveSchedule_elem_of in He as (c & _ & (_ & _ & (slot & Hslot & Hon) & _) & _).
  unfold gridOf in Hslot.
  apply list_elem_of_bind in Hslot as (day & Hslot & Hday).
  apply list_elem_of_fmap in Hslot as (s & -> & Hs).
  apply list_elem_of_filter in Hs as [Hbreak Hs].
  destruct Hon as (Hd & Hp & Hst & Hen). simpl in *.
  split; [by rewrite Hd|]. by exists s.
Qed.

Lemma solveSchedule_on_structure_witness :
  let fetch := λ _ : string, Fulfilled (Some mondayOnly) in
  let teachers := [mathTeacher "t1" unrestricted] in
  let e := TimetableEntry.mk "classA" "t1" "math" "monday" 1 "09:00" "09:45" None None true in
  JS.truthy (Some "school-a") = true
  ∧ e ∈ solveSchedule steadySource
          (timeSlots (initializeFromStructure fetch (Some "school-a") constructor))
          [onePeriodOfMath "classA"] teachers [mathSubject]
  ∧ TimetableEntry.day e ∈ default weekdays (TimetableStructure.workingDays mondayOnly)
  ∧ ∃ s, s ∈ default periodTimes (TimetableStructure.timeSlots mondayOnly)
         ∧ StructureSlot.isBreak s ≠ Some true
         ∧ TimetableEntry.period e = StructureSlot.period s
         ∧ TimetableEntry.startTime e = StructureSlot.startTime s
         ∧ TimetableEntry.endTime e = StructureSlot.endTime s.
Proof.
  intros fetch teachers e.
  assert (e ∈ solveSchedule steadySource
            (timeSlots (initializeFromStructure fetch (Some "school-a") constructor))
            [onePeriodOfMath "classA"] teachers [mathSubject]) as He.
  { replace (solveSchedule steadySource
               (timeSlots (initializeFromStructure fetch (Some "school-a") constructor))
               [onePeriodOfMath "classA"] teachers [mathSubject])
      with [e] by (by vm_compute).
    apply list_elem_of_here. }
  split; [reflexivity|]. split; [exact He|].
  exact (solveSchedule_on_structure steadySource fetch "school-a" mondayOnly constructor
           [onePeriodOfMath "classA"] teachers [mathSubject] e eq_refl eq_refl He).
Defined.

(** ** [storage.ts]: writing and reading timetable entries *)

Lemma deactivateEntry_classes (rows : list TimetableEntry.t) (classIds : list string) :
  foldl (λ rows classId,
           (λ e, if bool_decide (TimetableEntry.classId e = classId)
                 then storage.deactivateEntry e else e) <$> rows) rows classIds
  = (λ e, if decide (TimetableEntry.classId e ∈ classIds)
          then storage.deactivateEntry e else e) <$> rows.
Proof.
  revert rows. induction classIds as [|c cs IH]; intros rows; simpl.
  { symmetry. etrans; [|apply list_fmap_id]. apply list_fmap_ext. intros i e _. simpl.
    done. }
  rewrite IH, <- list_fmap_compose. apply list_fmap_ext. intros i e _. unfold compose.
  case_bool_decide as Hc.
  - rewrite (decide_True (P := _ ∈ c :: cs)) by (rewrite Hc; by left).
    by destruct (decide _).
  - destruct (decide (_ ∈ cs)) as [Hin|Hin].
    + rewrite decide_True; [done|by right].
    + rewrite decide_False; [done|]. rewrite elem_of_cons. tauto.
Qed.

Lemma filter_fmap_deactivate (classIds : list string) (rows : list TimetableEntry.t) :
  filter (λ e, TimetableEntry.isActive e = true)
    ((λ e, if decide (TimetableEntry.classId e ∈ classIds)
           then storage.deactivateEntry e else e) <$> rows)
  = filter (λ e, TimetableEntry.classId e ∉ classIds)
      (filter (λ e, TimetableEntry.isActive e = true) rows).
Proof.
  induction rows as [|e rows IH]; [done|].
  rewrite fmap_cons, !filter_cons, IH.
  destruct (decide (_ ∈ classIds)) as [Hin|Hin]; simpl.
  - destruct (decide (TimetableEntry.isActive e = true)); [|done].
    by rewrite filter_cons_False by tauto.
  - destruct (decide (TimetableEntry.isActive e = true)); [|done].
    by rewrite filter_cons_True.
Qed.

Lemma filter_all {A} (P : A → Prop) `{!∀ x, Decision (P x)} (l : list A) :
  Forall P l → filter P l = l.
Proof.
  induction 1 as [|x l Hx _ IH]; [done|].
  by rewrite filter_cons_True, IH.
Qed.

Lemma bulkCreateTimetableEntries_getTimetableEntries db entries :
  storage.getTimetableEntries (storage.bulkCreateTimetableEntries db entries)
  = filter (λ e, TimetableEntry.classId e ∉ TimetableEntry.classId <$> entries)
      (storage.getTimetableEntries db)
    ++ filter (λ e, TimetableEntry.isActive e = true) entries.
Proof.
  unfold storage.bulkCreateTimetableEntries, storage.getTimetableEntries.
  case_bool_decide as Hempty; simpl.
  - destruct entries; [|done]. simpl. rewrite app_nil_r.
    rewrite (filter_all (λ e, TimetableEntry.classId e ∉ [])); [done|].
    apply Forall_forall. intros e _. apply not_elem_of_nil.
  - rewrite deactivateEntry_classes, filter_app, filter_fmap_deactivate. f_equal.
    apply list_filter_iff. intros e. by rewrite elem_of_remove_dups.
Qed.

Lemma bulkCreateTimetableEntries_versions db entries :
  storage.timetableVersions (storage.bulkCreateTimetableEntries db entries)
  = storage.timetableVersions db.
Proof. unfold storage.bulkCreateTimetableEntries. by case_bool_decide. Qed.

(** X4. After [bulkCreateTimetableEntries], the active entries are the
    previously active entries of the classes that received no new entry,
    followed by the new entries that are active; no row is deleted (the
    table grows by the number of new entries) and the versions are
    untouched. With an empty list nothing changes. *)
Theorem bulkCreateTimetableEntries_active db entries :
  let after := storage.bulkCreateTimetableEntries db entries in
  storage.getTimetableEntries after
  = filter (λ e, TimetableEntry.classId e ∉ TimetableEntry.classId <$> entries)
      (storage.getTimetableEntries db)
    ++ filter (λ e, TimetableEntry.isActive e = true) entries
  ∧ length (storage.timetableEntries after)
    = (length (storage.timetableEntries db) + length entries)%nat
  ∧ storage.timetableVersions after = storage.timetableVersions db
  ∧ (entries = [] → after = db).
Proof.
  intros after. split_and!.
  - apply bulkCreateTimetableEntries_getTimetableEntries.
  - unfold after, storage.bulkCreateTimetableEntries.
    case_bool_decide as Hempty; simpl.
    + rewrite Hempty. lia.
    + by rewrite deactivateEntry_classes, length_app, length_fmap.
  - apply bulkCreateTimetableEntries_versions.
  - by intros ->.
Qed.

(** ** [storage.ts]: the active version of a class and week *)

Lemma head_filter_unique {A} (P : A → Prop) `{!∀ x, Decision (P x)} (l : list A) x :
  x ∈ l → P x → (∀ y, y ∈ l → P y → y = x) → head (filter P l) = Some x.
Proof.
  intros Hin HP Huniq.
  assert (x ∈ filter P l) as Hx by by apply list_elem_of_filter.
  destruct (filter P l) as [|y rest] eqn:E; [by apply elem_of_nil in Hx|].
  simpl. f_equal. assert (y ∈ filter P l) as Hy by (rewrite E; by left).
  apply list_elem_of_filter in Hy as [? ?]. by apply Huniq.
Qed.

(** X5. Version ids being unique, after [setActiveVersion] for a version
    of the table, called with the class of that version,
    [getActiveTimetableVersion] for the class and week of the version
    returns that version, now active. *)
Theorem getActiveTimetableVersion_after_setActiveVersion db v :
  NoDup (TimetableVersion.id <$> storage.timetableVersions db) →
  v ∈ storage.timetableVersions db →
  getActiveTimetableVersion
    (storage.setActiveVersion db (TimetableVersion.id v) (TimetableVersion.classId v))
    (TimetableVersion.classId v) (TimetableVersion.weekStart v) (TimetableVersion.weekEnd v)
  = Some (storage.setIsActive true v).
Proof.
  intros Hnd Hin. unfold getActiveTimetableVersion.
  rewrite setActiveVersion_rows by done.
  assert (storage.inWeek (TimetableVersion.classId v) (TimetableVersion.weekStart v)
            (TimetableVersion.weekEnd v) v) as Hv by done.
  apply head_filter_unique.
  - apply list_elem_of_fmap. exists v. split; [|done].
    unfold selectIn. rewrite decide_True by done.
    by rewrite bool_decide_eq_true_2.
  - done.
  - intros y Hy [Hweek Hactive].
    apply list_elem_of_fmap in Hy as (u & -> & Hu).
    unfold selectIn in *. destruct (decide _) as [Hw|Hw].
    + simpl in Hactive. apply bool_decide_eq_true in Hactive.
      rewrite (same_id_same_row _ u v Hnd Hu Hin Hactive).
      by rewrite bool_decide_eq_true_2.
    + by destruct Hw.
Qed.

Lemma getActiveTimetableVersion_after_setActiveVersion_witness :
  let v := TimetableVersion.mk "v-1" "class-a" "v0.1" "2024-01-01" "2024-01-06" false in
  NoDup (TimetableVersion.id <$> storage.timetableVersions threeVersions)
  ∧ v ∈ storage.timetableVersions threeVersions
  ∧ getActiveTimetableVersion threeVersions "class-a" "2024-01-01" "2024-01-06"
    = Some (TimetableVersion.mk "v-2" "class-a" "v0.2" "2024-01-01" "2024-01-06" true)
  ∧ getActiveTimetableVersion (storage.setActiveVersion threeVersions "v-1" "class-a")
      "class-a" "2024-01-01" "2024-01-06"
    = Some (storage.setIsActive true v).
Proof.
  intros v.
  assert (NoDup (TimetableVersion.id <$> storage.timetableVersions threeVersions)) as Hnd.
  { apply (bool_decide_unpack _). by vm_compute. }
  assert (v ∈ storage.timetableVersions threeVersions) as Hin by apply list_elem_of_here.
  split; [exact Hnd|]. split; [exact Hin|]. split; [reflexivity|].
  exact (getActiveTimetableVersion_after_setActiveVersion threeVersions v Hnd Hin).
Defined.




(** ** [storage.ts]: timetable structures *)

Lemma filter_retired_structures schoolId (rows : list TimetableStructure.t) :
  filter (λ s, TimetableStructure.schoolId s = schoolId ∧ TimetableStructure.isActive s = true)
    ((λ s, if decide (TimetableStructure.schoolId s = schoolId
                      ∧ TimetableStructure.isActive s = true)
           then retireStructure s else s) <$> rows)
  = [].
Proof.
  apply filter_none, Forall_forall. intros y Hy.
  apply list_elem_of_fmap in Hy as (s & -> & _).
  destruct (decide _) as [?|Hs]; simpl; [by intros [_ ?]|done].
Qed.


Lemma createTimetableStructure_found db structure :
  storage.getTimetableStructureBySchool (createTimetableStructure db structure).2
    (InsertTimetableStructure.schoolId structure)
  = if default true (InsertTimetableStructure.isActive structure)
    then Some (insertedStructure structure) else None.
Proof.
  unfold storage.getTimetableStructureBySchool, createTimetableStructure. simpl.
  rewrite filter_app, filter_retired_structures. simpl.
  rewrite filter_cons. unfold insertedStructure at 1 2. simpl.
  destruct (default true _); simpl.
  - by rewrite decide_True.
  - rewrite decide_False; [done|]. by intros [_ ?].
Qed.


(** X8. After [createTimetableStructure] with [isActive] not false,
    [initializeFromStructure] for that school sets the grid to the working
    days of the structure (Monday to Saturday when omitted) times its time
    slots that are not breaks (the column default when omitted), whatever
    the grid was before. *)
Theorem createTimetableStructure_grid db structure this :
  let after := (createTimetableStructure db structure).2 in
  let schoolId := InsertTimetableStructure.schoolId structure in
  JS.truthy (Some schoolId) = true →
  InsertTimetableStructure.isActive structure ≠ Some false →
  timeSlots (initializeFromStructure
               (λ sid, Fulfilled (storage.getTimetableStructureBySchool after sid))
               (Some schoolId) this)
  = (day ← default defaultWorkingDays (InsertTimetableStructure.workingDays structure);
     slotOf day <$> filter (λ s, StructureSlot.isBreak s ≠ Some true)
                      (default defaultTimeSlots (InsertTimetableStructure.timeSlots structure))).
Proof.
  intros after schoolId Hsid Hactive.
  pose proof (createTimetableStructure_found db structure) as Hlook.
  fold after schoolId in Hlook.
  assert (default true (InsertTimetableStructure.isActive structure) = true) as Hdef.
  { destruct (InsertTimetableStructure.isActive structure) as [[|]|]; done. }
  rewrite Hdef in Hlook.
  by rewrite (initializeFromStructure_found _ _ _ this Hsid (f_equal Fulfilled Hlook)).
Qed.

Lemma createTimetableStructure_grid_witness :
  let structure := InsertTimetableStructure.mk "school-b" (Some ["monday"]) None None in
  let after := (createTimetableStructure twoSchools structure).2 in
  JS.truthy (Some "school-b") = true
  ∧ InsertTimetableStructure.isActive structure ≠ Some false
  ∧ timeSlots (initializeFromStructure
                 (λ sid, Fulfilled (storage.getTimetableStructureBySchool after sid))
                 (Some "school-b") constructor)
    = (day ← ["monday"];
       slotOf day <$> filter (λ s, StructureSlot.isBreak s ≠ Some true) defaultTimeSlots).
Proof.
  intros structure after.
  assert (InsertTimetableStructure.isActive structure ≠ Some false) as Hactive by done.
  split; [reflexivity|]. split; [exact Hactive|].
  exact (createTimetableStructure_grid twoSchools structure constructor eq_refl Hactive).
Defined.

(** ** [storage.ts]: teachers *)





(** X10. [getAvailableTeachers(day, period, subjectId, schoolId)] returns
    exactly the teachers of the table that are active, belong to the
    school, have the subject in [subjects], and are named by no active
    timetable entry of that day and period. *)
Theorem getAvailableTeachers_free db day period subjectId schoolId t :
  t ∈ getAvailableTeachers db day period subjectId schoolId ↔
  t ∈ storage.teachers db
  ∧ Teacher.isActive t = true
  ∧ Teacher.schoolId t = schoolId
  ∧ subjectId ∈ Teacher.subjects t
  ∧ ∀ e, e ∈ storage.getTimetableEntries db →
         TimetableEntry.day e = day → TimetableEntry.period e = period →
         TimetableEntry.teacherId e ≠ Teacher.id t.
Proof.
  unfold getAvailableTeachers, storage.getTimetableEntries.
  rewrite list_elem_of_filter.
  set (assigned := filter _ (storage.timetableEntries db)).
  assert (notAssigned (TimetableEntry.teacherId <$> assigned) t
          ↔ ∀ e, e ∈ filter (λ e, TimetableEntry.isActive e = true) (storage.timetableEntries db) →
                 TimetableEntry.day e = day → TimetableEntry.period e = period →
                 TimetableEntry.teacherId e ≠ Teacher.id t) as Hfree.
  { assert (Teacher.id t ∉ TimetableEntry.teacherId <$> assigned
            ↔ ∀ e, e ∈ filter (λ e, TimetableEntry.isActive e = true)
                         (storage.timetableEntries db) →
                   TimetableEntry.day e = day → TimetableEntry.period e = period →
                   TimetableEntry.teacherId e ≠ Teacher.id t) as Hin.
    { split.
      - intros Hnot e He Hd Hp Hid. apply Hnot. rewrite <- Hid.
        apply list_elem_of_fmap_2. apply list_elem_of_filter in He as [? ?].
        by apply list_elem_of_filter.
      - intros Hall Hid. apply list_elem_of_fmap in Hid as (e & Hid & He).
        apply list_elem_of_filter in He as ((? & ? & ?) & ?).
        apply (Hall e); [by apply list_elem_of_filter|done..]. }
    unfold notAssigned. case_bool_decide as Hlen; [done|].
    split; [|done]. intros _. apply Hin.
    destruct (TimetableEntry.teacherId <$> assigned); [apply not_elem_of_nil|simpl in Hlen; lia]. }
  rewrite Hfree. tauto.
Qed.

(** ** [generateTimetable]: the versions of a run *)

Lemma uuid_inj (n m : N) : "uuid-" +:+ pretty n = "uuid-" +:+ pretty m → n = m.
Proof. simpl. intros H. injection H as H. by apply (inj pretty). Qed.

Lemma setActiveVersion_counter db versionId classId :
  storage.uuidCounter (storage.setActiveVersion db versionId classId) = storage.uuidCounter db.
Proof. unfold storage.setActiveVersion. by destruct (filter _ _). Qed.

(** One iteration of the loop: a version is created and selected. *)
Lemma createVersions_step db cid label weekStart weekEnd :
  NoDup (TimetableVersion.id <$> storage.timetableVersions db) → freshIds db →
  let created :=
    TimetableVersion.mk ("uuid-" +:+ pretty (storage.uuidCounter db)) cid label
      weekStart weekEnd true in
  let after :=
    storage.setActiveVersion
      (storage.createTimetableVersion db cid label weekStart weekEnd true).2
      (TimetableVersion.id created) cid in
  (storage.createTimetableVersion db cid label weekStart weekEnd true).1 = created
  ∧ storage.timetableVersions after
    = selectIn (TimetableVersion.id created) cid weekStart weekEnd
      <$> (storage.timetableVersions db ++ [created])
  ∧ storage.uuidCounter after = N.succ (storage.uuidCounter db)
  ∧ TimetableVersion.id created ∉ TimetableVersion.id <$> storage.timetableVersions db.
Proof.
  intros Hnd Hfresh created after.
  assert (TimetableVersion.id created ∉ TimetableVersion.id <$> storage.timetableVersions db)
    as Hnew.
  { intros Hin. apply list_elem_of_fmap in Hin as (v & Hid & Hv).
    by apply (Hfresh v (storage.uuidCounter db) Hv). }
  split_and!; [done| |unfold after; by rewrite setActiveVersion_counter|done].
  unfold after. simpl.
  rewrite (setActiveVersion_rows _ created).
  - done.
  - simpl. rewrite fmap_app. apply NoDup_app. split_and!; [done| |apply NoDup_singleton].
    intros x Hx Hx'. apply list_elem_of_singleton in Hx'. by subst.
  - simpl. apply elem_of_app. right. apply list_elem_of_here.
Qed.

Lemma selectIn_other_week versionId classId weekStart weekEnd c s e
    (vs : list TimetableVersion.t) :
  (c, s, e) ≠ (classId, weekStart, weekEnd) →
  filter (storage.inWeek c s e) (selectIn versionId classId weekStart weekEnd <$> vs)
  = filter (storage.inWeek c s e) vs.
Proof.
  intros Hne. induction vs as [|v vs IH]; [done|].
  rewrite fmap_cons.
  destruct (decide (storage.inWeek classId weekStart weekEnd v)) as [(Hc & Hs & He)|Hw].
  - rewrite !filter_cons_False; [done|..].
    + intros (? & ? & ?). apply Hne. congruence.
    + unfold selectIn. destruct (decide _); intros (? & ? & ?); simpl in *;
        apply Hne; congruence.
  - unfold selectIn at 1. rewrite decide_False by done.
    by rewrite !filter_cons, IH.
Qed.

Lemma filter_inWeek_active classId weekStart weekEnd (vs : list TimetableVersion.t) :
  filter (λ v, storage.inWeek classId weekStart weekEnd v ∧ TimetableVersion.isActive v = true) vs
  = filter (λ v, TimetableVersion.isActive v = true)
      (filter (storage.inWeek classId weekStart weekEnd) vs).
Proof. rewrite list_filter_filter. apply list_filter_iff. tauto. Qed.

Lemma createVersions_spec db weekStart weekEnd classes versionsCreated :
  NoDup (TimetableVersion.id <$> storage.timetableVersions db) → freshIds db →
  NoDup (Class.id <$> classes) →
  let out := createVersions db weekStart weekEnd classes versionsCreated in
  NoDup (TimetableVersion.id <$> storage.timetableVersions out.1)
  ∧ freshIds out.1
  ∧ (∀ v, v ∈ storage.timetableVersions db →
          TimetableVersion.id v ∈ TimetableVersion.id <$> storage.timetableVersions out.1)
  ∧ (∀ c s e, c ∉ Class.id <$> classes →
       filter (storage.inWeek c s e) (storage.timetableVersions out.1)
       = filter (storage.inWeek c s e) (storage.timetableVersions db))
  ∧ ∃ created,
      out.2 = versionsCreated ++ created
      ∧ Forall2 (newVersionOf db out.1 weekStart weekEnd) classes created.
Proof.
  revert db versionsCreated.
  induction classes as [|cls rest IH]; intros db acc Hnd Hfresh Hcls; cbv zeta; simpl.
  { split_and!; try done.
    - intros v Hv. by apply list_elem_of_fmap_2.
    - exists []. rewrite app_nil_r. split; [done|constructor]. }
  rewrite fmap_cons in Hcls. apply NoDup_cons in Hcls as [Hhead Hrest].
  set (label := "v0." +:+ pretty _).
  destruct (createVersions_step db (Class.id cls) label weekStart weekEnd Hnd Hfresh)
    as (_ & Hrows & Hcounter & Hnew).
  set (created := TimetableVersion.mk _ _ _ _ _ _) in *.
  set (db1 := storage.setActiveVersion _ _ _) in *.
  assert (TimetableVersion.id <$> storage.timetableVersions db1
          = (TimetableVersion.id <$> storage.timetableVersions db) ++ [TimetableVersion.id created])
    as Hids.
  { rewrite Hrows, <- list_fmap_compose, fmap_app. f_equal.
    - apply list_fmap_ext. intros i v _. unfold compose, selectIn. by destruct (decide _).
    - simpl. unfold selectIn. by destruct (decide _). }
  assert (NoDup (TimetableVersion.id <$> storage.timetableVersions db1)) as Hnd1.
  { rewrite Hids. apply NoDup_app. split_and!; [done| |apply NoDup_singleton].
    intros x Hx Hx'. apply list_elem_of_singleton in Hx'. by subst. }
  assert (freshIds db1) as Hfresh1.
  { intros v n Hv Hn. rewrite Hcounter in Hn.
    apply (list_elem_of_fmap_2 TimetableVersion.id) in Hv. rewrite Hids in Hv.
    apply elem_of_app in Hv as [Hv|Hv].
    - apply list_elem_of_fmap in Hv as (u & -> & Hu). apply Hfresh; [done|lia].
    - apply list_elem_of_singleton in Hv. rewrite Hv. simpl.
      intros Heq. apply uuid_inj in Heq. lia. }
  destruct (IH db1 (acc ++ [VersionCreated.mk (Class.id cls) label (TimetableVersion.id created)])
              Hnd1 Hfresh1 Hrest) as (Hnd' & Hfresh' & Hkeep' & Hother' & rest' & Hout & Hall).
  assert (∀ c s e, c ≠ Class.id cls →
            filter (storage.inWeek c s e) (storage.timetableVersions db1)
            = filter (storage.inWeek c s e) (storage.timetableVersions db)) as Hstep.
  { intros c s e Hc. rewrite Hrows, selectIn_other_week by congruence.
    rewrite filter_app, filter_cons_False, app_nil_r; [done|].
    intros (? & _). simpl in *. congruence. }
  split_and!; [done|done| | |].
  - intros v Hv.
    assert (TimetableVersion.id v ∈ TimetableVersion.id <$> storage.timetableVersions db1) as Hv1.
    { rewrite Hids. apply elem_of_app. left. by apply list_elem_of_fmap_2. }
    apply list_elem_of_fmap in Hv1 as (u & -> & Hu). by apply Hkeep'.
  - intros c s e Hc. rewrite not_elem_of_cons in Hc. destruct Hc as [Hc1 Hc2].
    rewrite Hother' by done. by apply Hstep.
  - exists (VersionCreated.mk (Class.id cls) label (TimetableVersion.id created) :: rest').
    split; [etrans; [exact Hout|]; by rewrite <- app_assoc|].
    constructor.
    + split_and!; [done|done|done|]. simpl.
      rewrite filter_inWeek_active, Hother' by done.
      rewrite <- filter_inWeek_active, Hrows, fmap_app, filter_app.
      rewrite filter_none.
      * assert (selectIn (TimetableVersion.id created) (Class.id cls) weekStart weekEnd created
                = created) as Hsel.
        { unfold selectIn. rewrite decide_True by done. by rewrite bool_decide_eq_true_2. }
        change (selectIn (TimetableVersion.id created) (Class.id cls) weekStart weekEnd
                <$> [created])
          with [selectIn (TimetableVersion.id created) (Class.id cls) weekStart weekEnd created].
        rewrite Hsel. by rewrite filter_cons_True.
      * apply Forall_forall. intros y Hy [Hweek Hactive].
        apply list_elem_of_fmap in Hy as (u & -> & Hu). unfold selectIn in *.
        destruct (decide _) as [?|Hw]; [|by destruct Hw].
        simpl in Hactive. apply bool_decide_eq_true in Hactive.
        assert (TimetableVersion.id u = TimetableVersion.id created) as Hid by exact Hactive.
        apply Hnew. rewrite <- Hid. by apply list_elem_of_fmap_2.
    + apply Forall2_same_length_lookup. split; [by eapply Forall2_length|].
      intros i cls' vc Hi Hvc.
      destruct (Forall2_lookup_lr _ _ _ _ _ _ Hall Hi Hvc) as (Hc & Hlabel & Hvid & Hactive).
      assert (Class.id cls' ≠ Class.id cls) as Hne.
      { intros Heq. apply Hhead. rewrite <- Heq.
        apply list_elem_of_fmap_2. by eapply list_elem_of_lookup_2. }
      split_and!; [done| | |done].
      * rewrite Hlabel. unfold storage.getTimetableVersionsForClass. by rewrite Hstep.
      * intros Hin. apply Hvid. rewrite Hids. apply elem_of_app. by left.
Qed.

Lemma loadClasses_classes db classId userSchoolId classes :
  loadClasses db classId userSchoolId = inr classes →
  classes `sublist_of` storage.classes db.
Proof.
  unfold loadClasses, storage.getClass, storage.getClasses.
  destruct (JS.whenTruthy classId) as [cid|].
  - destruct (filter _ (storage.classes db)) as [|c l] eqn:E; [done|].
    simpl. intros [= <-]. etrans; [|apply (sublist_filter (λ c, Class.id c = cid))].
    rewrite E. apply sublist_skip, sublist_nil_l.
  - simpl. destruct (JS.whenTruthy userSchoolId); [|done].
    intros [= <-]. apply sublist_filter.
Qed.

(** What [prepareRun] hands to the solver. *)
Lemma prepareRun_inr this db weekStart weekEnd classId userSchoolId run :
  prepareRun this db weekStart weekEnd classId userSchoolId = inr run →
  loadClasses db classId userSchoolId = inr (run_classes run)
  ∧ run_db run = (createVersions db weekStart weekEnd (run_classes run) []).1
  ∧ run_versionsCreated run = (createVersions db weekStart weekEnd (run_classes run) []).2
  ∧ run_constraints run = buildConstraints (run_db run) (run_classes run)
  ∧ run_subjects run = storage.getSubjects db None
  ∧ ∃ schoolId, run_teachers run = storage.getTeachers db (Some schoolId).
Proof.
  unfold prepareRun.
  destruct (loadClasses db classId userSchoolId) as [|classes]; [done|].
  destruct (JS.whenTruthy _) as [schoolId|]; [|done].
  destruct (_ || _); [done|].
  destruct (createVersions db weekStart weekEnd classes []) as [db' vc] eqn:E.
  intros [= <-]. simpl. rewrite E. split_and!; try done. by exists schoolId.
Qed.

Lemma generateTimetable_versions this db rs weekStart weekEnd classId userSchoolId run :
  prepareRun this db weekStart weekEnd classId userSchoolId = inr run →
  storage.timetableVersions
    (generateTimetable this db rs weekStart weekEnd classId userSchoolId).1.2
  = storage.timetableVersions (run_db run).
Proof.
  intros Hrun. unfold generateTimetable, finishRun. rewrite Hrun.
  case_bool_decide; [done|]. simpl. apply bulkCreateTimetableEntries_versions.
Qed.

Lemma prepareRun_newVersionOf this db weekStart weekEnd classId userSchoolId run :
  NoDup (TimetableVersion.id <$> storage.timetableVersions db) → freshIds db →
  NoDup (Class.id <$> storage.classes db) →
  prepareRun this db weekStart weekEnd classId userSchoolId = inr run →
  NoDup (Class.id <$> run_classes run)
  ∧ Forall2 (newVersionOf db (run_db run) weekStart weekEnd)
      (run_classes run) (run_versionsCreated run).
Proof.
  intros Hnd Hfresh Hcls Hrun.
  destruct (prepareRun_inr _ _ _ _ _ _ _ Hrun) as (Hload & Hdb & Hvc & _).
  assert (NoDup (Class.id <$> run_classes run)) as Hcls'.
  { eapply sublist_NoDup; [exact Hcls|].
    apply fmap_sublist. by eapply loadClasses_classes. }
  split; [done|].
  destruct (createVersions_spec db weekStart weekEnd (run_classes run) [] Hnd Hfresh Hcls')
    as (_ & _ & _ & _ & created & Hcreated & Hall).
  rewrite Hdb, Hvc, Hcreated. done.
Qed.

Lemma prepareRun_active_version this db weekStart weekEnd classId userSchoolId run cls :
  NoDup (TimetableVersion.id <$> storage.timetableVersions db) → freshIds db →
  NoDup (Class.id <$> storage.classes db) →
  prepareRun this db weekStart weekEnd classId userSchoolId = inr run →
  cls ∈ run_classes run →
  ∃ created, created ∈ run_versionsCreated run
             ∧ newVersionOf db (run_db run) weekStart weekEnd cls created.
Proof.
  intros Hnd Hfresh Hcls Hrun Hin.
  destruct (prepareRun_newVersionOf _ _ _ _ _ _ _ Hnd Hfresh Hcls Hrun) as [_ Hall].
  apply list_elem_of_lookup in Hin as [i Hi].
  destruct (Forall2_lookup_l _ _ _ _ _ Hall Hi) as (vc & Hvc & Hnew).
  exists vc. split; [by eapply list_elem_of_lookup_2|done].
Qed.

Lemma getActiveTimetableVersion_versions db db' classId weekStart weekEnd :
  storage.timetableVersions db' = storage.timetableVersions db →
  getActiveTimetableVersion db' classId weekStart weekEnd
  = getActiveTimetableVersion db classId weekStart weekEnd.
Proof. unfold getActiveTimetableVersion. by intros ->. Qed.

(** X11. Version ids being unique, unused by the generator so far, and
    class ids being unique: whenever [generateTimetable] gets past its
    input checks, every class of the run afterwards has exactly one active
    version for the week, whether or not the solver found a schedule; it is
    a version created by this call, and its label is "v0." followed by the
    number of versions the class had for that week plus one. *)
Theorem generateTimetable_new_version_active
    this db rs weekStart weekEnd classId userSchoolId run cls :
  NoDup (TimetableVersion.id <$> storage.timetableVersions db) → freshIds db →
  NoDup (Class.id <$> storage.classes db) →
  prepareRun this db weekStart weekEnd classId userSchoolId = inr run →
  cls ∈ run_classes run →
  let after := (generateTimetable this db rs weekStart weekEnd classId userSchoolId).1.2 in
  ∃ v, getActiveTimetableVersion after (Class.id cls) weekStart weekEnd = Some v
       ∧ exactlyOneActive (storage.timetableVersions after) (Class.id cls) weekStart weekEnd
       ∧ (TimetableVersion.id v ∉ TimetableVersion.id <$> storage.timetableVersions db)
       ∧ TimetableVersion.version v
         = "v0." +:+ pretty (length (storage.getTimetableVersionsForClass db (Class.id cls)
                                       weekStart weekEnd) + 1)%nat.
Proof.
  intros Hnd Hfresh Hcls Hrun Hin after.
  destruct (prepareRun_active_version _ _ _ _ _ _ _ _ Hnd Hfresh Hcls Hrun Hin)
    as (vc & _ & _ & Hlabel & Hnew & Hactive).
  exists (TimetableVersion.mk (VersionCreated.versionId vc) (Class.id cls)
            (VersionCreated.version vc) weekStart weekEnd true).
  unfold after, exactlyOneActive, storage.activeCount.
  rewrite (getActiveTimetableVersion_versions (run_db run))
    by by eapply generateTimetable_versions.
  rewrite (generateTimetable_versions _ _ _ _ _ _ _ _ Hrun).
  unfold getActiveTimetableVersion. rewrite Hactive. simpl.
  by split_and!.
Qed.

Lemma schoolWithHistory_ready :
  NoDup (TimetableVersion.id <$> storage.timetableVersions schoolWithHistory)
  ∧ freshIds schoolWithHistory
  ∧ NoDup (Class.id <$> storage.classes schoolWithHistory).
Proof.
  split_and!; [apply (bool_decide_unpack _); by vm_compute| |
               apply (bool_decide_unpack _); by vm_compute].
  intros v n Hv _. simpl in Hv.
  repeat (apply elem_of_cons in Hv as [->|Hv]; [done|]).
  by apply elem_of_nil in Hv.
Qed.

Lemma generateTimetable_new_version_active_witness :
  let cls := Class.mk "class-a" "9" "A" "school-a" in
  let after := (generateTimetable constructor schoolWithHistory steadySource
                  "2024-01-01" "2024-01-06" (Some "class-a") (Some "school-a")).1.2 in
  NoDup (TimetableVersion.id <$> storage.timetableVersions schoolWithHistory)
  ∧ freshIds schoolWithHistory
  ∧ NoDup (Class.id <$> storage.classes schoolWithHistory)
  ∧ (∃ run, prepareRun constructor schoolWithHistory "2024-01-01" "2024-01-06"
              (Some "class-a") (Some "school-a") = inr run
            ∧ cls ∈ run_classes run)
  ∧ ∃ v, getActiveTimetableVersion after "class-a" "2024-01-01" "2024-01-06" = Some v
         ∧ exactlyOneActive (storage.timetableVersions after) "class-a" "2024-01-01" "2024-01-06"
         ∧ (TimetableVersion.id v
            ∉ TimetableVersion.id <$> storage.timetableVersions schoolWithHistory)
         ∧ TimetableVersion.version v
           = "v0." +:+ pretty (length (storage.getTimetableVersionsForClass schoolWithHistory
                                         "class-a" "2024-01-01" "2024-01-06") + 1)%nat.
Proof.
  intros cls after.
  destruct schoolWithHistory_ready as (Hnd & Hfresh & Hcls).
  destruct (prepareRun constructor schoolWithHistory "2024-01-01" "2024-01-06"
              (Some "class-a") (Some "school-a")) as [early|run] eqn:Hrun;
    [by vm_compute in Hrun|].
  assert (cls ∈ run_classes run) as Hin.
  { vm_compute in Hrun. injection Hrun as <-. apply list_elem_of_here. }
  split; [exact Hnd|]. split; [exact Hfresh|]. split; [exact Hcls|].
  split; [by exists run|].
  exact (generateTimetable_new_version_active constructor schoolWithHistory steadySource
           "2024-01-01" "2024-01-06" _ _ run cls Hnd Hfresh Hcls Hrun Hin).
Defined.

(** ** [generateTimetable]: what a run writes *)

Lemma stampVersion_classId versionsCreated e :
  TimetableEntry.classId (stampVersion versionsCreated e) = TimetableEntry.classId e.
Proof. unfold stampVersion. by destruct (List.find _ _). Qed.

Lemma stampVersion_isActive versionsCreated e :
  TimetableEntry.isActive (stampVersion versionsCreated e) = TimetableEntry.isActive e.
Proof. unfold stampVersion. by destruct (List.find _ _). Qed.

Lemma solveSchedule_active rs slots constraints teachers subjects :
  Forall (λ e, TimetableEntry.isActive e = true)
    (solveSchedule rs slots constraints teachers subjects).
Proof.
  apply Forall_forall. intros e He.
  by apply solveSchedule_elem_of in He as (c & _ & (_ & _ & _ & _ & _ & _ & ?) & _).
Qed.

(** The active entries after a run whose solver found a schedule. *)
Lemma generateTimetable_getTimetableEntries
    this db rs weekStart weekEnd classId userSchoolId run :
  prepareRun this db weekStart weekEnd classId userSchoolId = inr run →
  let schedule :=
    solveSchedule rs (timeSlots (run_scheduler run)) (run_constraints run)
      (run_teachers run) (run_subjects run) in
  schedule ≠ [] →
  storage.getTimetableEntries
    (generateTimetable this db rs weekStart weekEnd classId userSchoolId).1.2
  = filter (λ e, TimetableEntry.classId e ∉ TimetableEntry.classId <$> schedule)
      (storage.getTimetableEntries db)
    ++ (stampVersion (run_versionsCreated run) <$> schedule).
Proof.
  intros Hrun schedule Hne. unfold generateTimetable, finishRun. rewrite Hrun.
  fold schedule. rewrite bool_decide_eq_false_2 by (by destruct schedule).
  simpl. rewrite bulkCreateTimetableEntries_getTimetableEntries.
  unfold storage.getTimetableEntries at 1.
  rewrite (prepareRun_entries _ _ _ _ _ _ _ Hrun).
  f_equal.
  - apply list_filter_iff. intros e. rewrite <- list_fmap_compose.
    by rewrite (list_fmap_ext _ TimetableEntry.classId schedule)
      by (intros; apply stampVersion_classId).
  - apply filter_all, Forall_fmap. eapply Forall_impl; [apply solveSchedule_active|].
    intros e He. simpl. by rewrite stampVersion_isActive.
Qed.

(** X12. When [generateTimetable] gets past its input checks, the slots
    of its grid are slots the insert into [timetable_entries] accepts, and
    the solver returns a non-empty schedule, the result is a success whose
    [entriesCreated] is the length of the schedule and whose message names
    that number; afterwards the active entries are the previously active
    entries of the classes that received none, followed by the schedule
    stamped with the versions of the run, and the table has grown by the
    length of the schedule (superseded entries are deactivated, not
    deleted). *)
Theorem generateTimetable_success this db rs weekStart weekEnd classId userSchoolId run :
  prepareRun this db weekStart weekEnd classId userSchoolId = inr run →
  Forall storableSlot (timeSlots (run_scheduler run)) →
  let schedule :=
    solveSchedule rs (timeSlots (run_scheduler run)) (run_constraints run)
      (run_teachers run) (run_subjects run) in
  schedule ≠ [] →
  let out := generateTimetable this db rs weekStart weekEnd classId userSchoolId in
  success out.1.1 = true
  ∧ entriesCreated out.1.1 = Some (length schedule)
  ∧ message out.1.1
    = "Timetable generated successfully with " +:+ pretty (length schedule) +:+ " entries."
  ∧ storage.getTimetableEntries out.1.2
    = filter (λ e, TimetableEntry.classId e ∉ TimetableEntry.classId <$> schedule)
        (storage.getTimetableEntries db)
      ++ (stampVersion (run_versionsCreated run) <$> schedule)
  ∧ length (storage.timetableEntries out.1.2)
    = (length (storage.timetableEntries db) + length schedule)%nat.
Proof.
  intros Hrun _ schedule Hne out.
  pose proof (generateTimetable_getTimetableEntries this db rs weekStart weekEnd classId
                userSchoolId run Hrun Hne) as Hentries.
  fold schedule out in Hentries.
  unfold out, generateTimetable, finishRun in *. rewrite Hrun in *.
  fold schedule in Hentries |- *.
  rewrite bool_decide_eq_false_2 in * by (by destruct schedule).
  simpl in *. split_and!; [done..|].
  unfold storage.bulkCreateTimetableEntries.
  rewrite bool_decide_eq_false_2 by (rewrite length_fmap; by destruct schedule).
  simpl. rewrite deactivateEntry_classes, length_app, !length_fmap.
  by rewrite (prepareRun_entries _ _ _ _ _ _ _ Hrun).
Qed.

Lemma generateTimetable_success_witness :
  let out := generateTimetable constructor twoSchools steadySource "2024-01-01" "2024-01-06"
               (Some "class-a") (Some "school-a") in
  (∃ run, prepareRun constructor twoSchools "2024-01-01" "2024-01-06"
            (Some "class-a") (Some "school-a") = inr run
          ∧ Forall storableSlot (timeSlots (run_scheduler run))
          ∧ length (solveSchedule steadySource (timeSlots (run_scheduler run))
                      (run_constraints run) (run_teachers run) (run_subjects run)) = 1%nat)
  ∧ success out.1.1 = true
  ∧ entriesCreated out.1.1 = Some 1%nat
  ∧ length (storage.timetableEntries out.1.2) = 1%nat.
Proof.
  intros out.
  destruct (prepareRun constructor twoSchools "2024-01-01" "2024-01-06"
              (Some "class-a") (Some "school-a")) as [early|run] eqn:Hrun;
    [by vm_compute in Hrun|].
  assert (Forall storableSlot (timeSlots (run_scheduler run))
          ∧ length (solveSchedule steadySource (timeSlots (run_scheduler run))
                      (run_constraints run) (run_teachers run) (run_subjects run)) = 1%nat)
    as [Hgrid Hlen].
  { vm_compute in Hrun. injection Hrun as <-.
    split; [apply (bool_decide_unpack _)|]; by vm_compute. }
  assert (solveSchedule steadySource (timeSlots (run_scheduler run))
            (run_constraints run) (run_teachers run) (run_subjects run) ≠ []) as Hne.
  { intros E. by rewrite E in Hlen. }
  split; [by exists run|].
  destruct (generateTimetable_success constructor twoSchools steadySource
              "2024-01-01" "2024-01-06" _ _ run Hrun Hgrid Hne)
    as (Hok & Hn & _ & _ & Hrows).
  rewrite Hlen in Hn, Hrows. by split_and!.
Defined.

Lemma buildConstraints_classId db classes c :
  c ∈ buildConstraints db classes →
  ∃ classData, classData ∈ classes ∧ ScheduleConstraint.classId c = Class.id classData.
Proof.
  unfold buildConstraints. intros Hc.
  apply list_elem_of_bind in Hc as (classData & Hc & Hin).
  apply list_elem_of_bind in Hc as (assignment & Hc & _).
  apply list_elem_of_singleton in Hc as ->. by exists classData.
Qed.

(** X13. Version ids being unique, unused by the generator so far, class
    ids being unique, and the slots of the grid being slots the insert into
    [timetable_entries] accepts: every entry of the schedule of a run is stored
    as an active entry whose [versionId] is the id of the version that is
    active for the class of the entry and the week after the run. *)
Theorem generateTimetable_entries_on_active_version
    this db rs weekStart weekEnd classId userSchoolId run e :
  NoDup (TimetableVersion.id <$> storage.timetableVersions db) → freshIds db →
  NoDup (Class.id <$> storage.classes db) →
  prepareRun this db weekStart weekEnd classId userSchoolId = inr run →
  Forall storableSlot (timeSlots (run_scheduler run)) →
  e ∈ solveSchedule rs (timeSlots (run_scheduler run)) (run_constraints run)
        (run_teachers run) (run_subjects run) →
  let after := (generateTimetable this db rs weekStart weekEnd classId userSchoolId).1.2 in
  let stamped := stampVersion (run_versionsCreated run) e in
  stamped ∈ storage.getTimetableEntries after
  ∧ ∃ v, getActiveTimetableVersion after (TimetableEntry.classId e) weekStart weekEnd = Some v
         ∧ TimetableEntry.versionId stamped = Some (TimetableVersion.id v).
Proof.
  intros Hnd Hfresh Hcls Hrun _ He after stamped. split.
  - unfold after. rewrite (generateTimetable_getTimetableEntries _ _ _ _ _ _ _ run Hrun).
    + apply elem_of_app. right. by apply list_elem_of_fmap_2.
    + intros E. rewrite E in He. by apply elem_of_nil in He.
  - unfold after.
    rewrite (getActiveTimetableVersion_versions (run_db run))
      by by eapply generateTimetable_versions.
    apply solveSchedule_elem_of in He as (c & Hc & (Hclass & _) & _).
    destruct (prepareRun_inr _ _ _ _ _ _ _ Hrun) as (_ & _ & _ & Hcs & _).
    rewrite Hcs in Hc. apply buildConstraints_classId in Hc as (cls & Hin & Hid).
    destruct (prepareRun_active_version _ _ _ _ _ _ _ _ Hnd Hfresh Hcls Hrun Hin)
      as (vc & Hvc & Hvcid & _).
    destruct (prepareRun_newVersionOf _ _ _ _ _ _ _ Hnd Hfresh Hcls Hrun) as [_ Hall].
    unfold stamped, stampVersion.
    destruct (List.find _ (run_versionsCreated run)) as [found|] eqn:Hfind.
    + apply find_some in Hfind as [Hfound Hsame]. apply bool_decide_eq_true in Hsame.
      apply list_elem_of_In, list_elem_of_lookup in Hfound as [j Hj].
      destruct (Forall2_lookup_r _ _ _ _ _ Hall Hj) as (cls' & _ & Hid' & _ & _ & Hactive).
      rewrite <- Hsame, Hid'. unfold getActiveTimetableVersion. rewrite Hactive. simpl.
      by eexists.
    + apply list_elem_of_In in Hvc. eapply find_none in Hfind; [|exact Hvc].
      apply bool_decide_eq_false in Hfind. destruct Hfind. congruence.
Qed.

Lemma generateTimetable_entries_on_active_version_witness :
  let e := TimetableEntry.mk "class-a" "t1" "math" "monday" 1 "09:00" "09:45" None None true in
  let stamped :=
    TimetableEntry.mk "class-a" "t1" "math" "monday" 1 "09:00" "09:45" None (Some "uuid-0")
      true in
  let after := (generateTimetable constructor schoolWithHistory steadySource
                  "2024-01-01" "2024-01-06" (Some "class-a") (Some "school-a")).1.2 in
  NoDup (TimetableVersion.id <$> storage.timetableVersions schoolWithHistory)
  ∧ freshIds schoolWithHistory
  ∧ NoDup (Class.id <$> storage.classes schoolWithHistory)
  ∧ (∃ run, prepareRun constructor schoolWithHistory "2024-01-01" "2024-01-06"
              (Some "class-a") (Some "school-a") = inr run
            ∧ Forall storableSlot (timeSlots (run_scheduler run))
            ∧ e ∈ solveSchedule steadySource (timeSlots (run_scheduler run))
                    (run_constraints run) (run_teachers run) (run_subjects run)
            ∧ stampVersion (run_versionsCreated run) e = stamped)
  ∧ stamped ∈ storage.getTimetableEntries after
  ∧ ∃ v, getActiveTimetableVersion after (TimetableEntry.classId e) "2024-01-01" "2024-01-06"
         = Some v
         ∧ TimetableEntry.versionId stamped = Some (TimetableVersion.id v).
Proof.
  intros e stamped after.
  destruct schoolWithHistory_ready as (Hnd & Hfresh & Hcls).
  destruct (prepareRun constructor schoolWithHistory "2024-01-01" "2024-01-06"
              (Some "class-a") (Some "school-a")) as [early|run] eqn:Hrun;
    [by vm_compute in Hrun|].
  assert (Forall storableSlot (timeSlots (run_scheduler run))
          ∧ e ∈ solveSchedule steadySource (timeSlots (run_scheduler run))
                  (run_constraints run) (run_teachers run) (run_subjects run)
          ∧ stampVersion (run_versionsCreated run) e = stamped) as (Hgrid & He & Hstamp).
  { vm_compute in Hrun. injection Hrun as <-.
    split; [apply (bool_decide_unpack _); by vm_compute|]. split; [|by vm_compute].
    replace (solveSchedule _ _ _ _ _) with [e] by (by vm_compute).
    apply list_elem_of_here. }
  split; [exact Hnd|]. split; [exact Hfresh|]. split; [exact Hcls|].
  split; [by exists run|].
  rewrite <- Hstamp.
  exact (generateTimetable_entries_on_active_version constructor schoolWithHistory steadySource
           "2024-01-01" "2024-01-06" _ _ run e Hnd Hfresh Hcls Hrun Hgrid He).
Defined.

(** X14. Version ids being unique, unused by the generator so far, class
    ids being unique, and every stored entry naming a stored version: when
    [generateTimetable] gets past its input checks and the solver returns
    no entry, the timetable entries stay as they were, yet every class of
    the run is switched to a new active version that has no entry at all. *)
Theorem generateTimetable_failure_switches_version
    this db rs weekStart weekEnd classId userSchoolId run cls :
  NoDup (TimetableVersion.id <$> storage.timetableVersions db) → freshIds db →
  NoDup (Class.id <$> storage.classes db) →
  (∀ e versionId, e ∈ storage.timetableEntries db →
                  TimetableEntry.versionId e = Some versionId →
                  versionId ∈ TimetableVersion.id <$> storage.timetableVersions db) →
  prepareRun this db weekStart weekEnd classId userSchoolId = inr run →
  solveSchedule rs (timeSlots (run_scheduler run)) (run_constraints run)
    (run_teachers run) (run_subjects run) = [] →
  cls ∈ run_classes run →
  let after := (generateTimetable this db rs weekStart weekEnd classId userSchoolId).1.2 in
  storage.timetableEntries after = storage.timetableEntries db
  ∧ ∃ v, getActiveTimetableVersion after (Class.id cls) weekStart weekEnd = Some v
         ∧ getTimetableEntriesForVersion after (TimetableVersion.id v) = [].
Proof.
  intros Hnd Hfresh Hcls Hfk Hrun Hsolve Hin after.
  assert (storage.timetableEntries after = storage.timetableEntries db) as Hentries.
  { unfold after, generateTimetable, finishRun. rewrite Hrun, Hsolve. simpl.
    by apply prepareRun_entries in Hrun. }
  split; [done|].
  destruct (prepareRun_active_version _ _ _ _ _ _ _ _ Hnd Hfresh Hcls Hrun Hin)
    as (vc & _ & _ & _ & Hnew & Hactive).
  eexists. unfold after at 1.
  rewrite (getActiveTimetableVersion_versions (run_db run))
    by by eapply generateTimetable_versions.
  unfold getActiveTimetableVersion. rewrite Hactive. simpl. split; [done|].
  unfold getTimetableEntriesForVersion. rewrite Hentries. simpl.
  apply filter_none, Forall_forall. intros e He Hv. apply Hnew. by eapply Hfk.
Qed.

Lemma generateTimetable_failure_switches_version_witness :
  let cls := Class.mk "class-a" "9" "A" "school-a" in
  let after := (generateTimetable constructor timetableInForce steadySource
                  "2024-01-01" "2024-01-06" (Some "class-a") (Some "school-a")).1.2 in
  getActiveTimetableVersion timetableInForce "class-a" "2024-01-01" "2024-01-06"
  = Some (TimetableVersion.mk "v-1" "class-a" "v0.1" "2024-01-01" "2024-01-06" true)
  ∧ (∃ run, prepareRun constructor timetableInForce "2024-01-01" "2024-01-06"
              (Some "class-a") (Some "school-a") = inr run
            ∧ solveSchedule steadySource (timeSlots (run_scheduler run))
                (run_constraints run) (run_teachers run) (run_subjects run) = []
            ∧ cls ∈ run_classes run)
  ∧ storage.timetableEntries after = storage.timetableEntries timetableInForce
  ∧ ∃ v, getActiveTimetableVersion after "class-a" "2024-01-01" "2024-01-06" = Some v
         ∧ getTimetableEntriesForVersion after (TimetableVersion.id v) = [].
Proof.
  intros cls after.
  assert (NoDup (TimetableVersion.id <$> storage.timetableVersions timetableInForce)) as Hnd.
  { apply (bool_decide_unpack _). by vm_compute. }
  assert (freshIds timetableInForce) as Hfresh.
  { intros v n Hv _. simpl in Hv.
    repeat (apply elem_of_cons in Hv as [->|Hv]; [done|]). by apply elem_of_nil in Hv. }
  assert (NoDup (Class.id <$> storage.classes timetableInForce)) as Hcls.
  { apply (bool_decide_unpack _). by vm_compute. }
  assert (∀ e versionId, e ∈ storage.timetableEntries timetableInForce →
            TimetableEntry.versionId e = Some versionId →
            versionId ∈ TimetableVersion.id <$> storage.timetableVersions timetableInForce)
    as Hfk.
  { intros e versionId He Hv. simpl in He.
    apply list_elem_of_singleton in He as ->. injection Hv as <-. apply list_elem_of_here. }
  destruct (prepareRun constructor timetableInForce "2024-01-01" "2024-01-06"
              (Some "class-a") (Some "school-a")) as [early|run] eqn:Hrun;
    [by vm_compute in Hrun|].
  assert (solveSchedule steadySource (timeSlots (run_scheduler run))
            (run_constraints run) (run_teachers run) (run_subjects run) = []
          ∧ cls ∈ run_classes run) as [Hsolve Hin].
  { vm_compute in Hrun. injection Hrun as <-. split; [by vm_compute|apply list_elem_of_here]. }
  split; [reflexivity|]. split; [by exists run|].
  exact (generateTimetable_failure_switches_version constructor timetableInForce steadySource
           "2024-01-01" "2024-01-06" _ _ run cls Hnd Hfresh Hcls Hfk Hrun Hsolve Hin).
Defined.

(** ** [validateTimetable]: every clash is reported *)

Lemma seen_teacherConflictStep es acc e t k :
  k ∈ seen (teacherConflictStep es acc e).1 t
  ↔ k ∈ seen acc.1 t ∨ (t = TimetableEntry.teacherId e ∧ k = daySlotKey e).
Proof.
  destruct acc as [teacherSchedule reported]. unfold teacherConflictStep. simpl.
  set (prepared := if bool_decide (is_Some (teacherSchedule !! TimetableEntry.teacherId e))
                   then teacherSchedule
                   else <[TimetableEntry.teacherId e := ∅]> teacherSchedule).
  assert (∀ t', seen prepared t' = seen teacherSchedule t') as Hprepared.
  { intros t'. unfold prepared, seen. case_bool_decide as Hhas; [done|].
    destruct (decide (t' = TimetableEntry.teacherId e)) as [->|Hne].
    - rewrite lookup_insert_eq. simpl.
      destruct (teacherSchedule !! _) eqn:E; [|done]. destruct Hhas. by eexists.
    - by rewrite lookup_insert_ne. }
  fold (seen prepared (TimetableEntry.teacherId e)).
  case_bool_decide as Hkey.
  - assert (k ∈ seen prepared t
            ↔ k ∈ seen teacherSchedule t
              ∨ t = TimetableEntry.teacherId e ∧ k = daySlotKey e) as Hsame.
    { rewrite Hprepared. split; [by left|]. intros [?|[-> ->]]; [done|].
      by rewrite <- Hprepared. }
    by destruct (List.find _ es).
  - simpl. unfold seen at 1.
    destruct (decide (t = TimetableEntry.teacherId e)) as [->|Hne].
    + rewrite lookup_insert_eq. simpl. rewrite elem_of_union, elem_of_singleton.
      rewrite Hprepared. split; (intros [?|?]; [by left|right; tauto]).
    + rewrite lookup_insert_ne by done. fold (seen prepared t). rewrite Hprepared.
      split; [by left|]. intros [?|[? _]]; done.
Qed.

Lemma seen_teacherConflictStep_foldl es l acc e :
  e ∈ l →
  daySlotKey e ∈ seen (foldl (teacherConflictStep es) acc l).1 (TimetableEntry.teacherId e).
Proof.
  assert (∀ l acc t k, k ∈ seen acc.1 t →
            k ∈ seen (foldl (teacherConflictStep es) acc l).1 t) as Hkeep.
  { clear. induction l as [|e' l IH]; intros acc t k Hk; simpl; [done|].
    apply IH, seen_teacherConflictStep. by left. }
  revert acc. induction l as [|e' l IH]; intros acc He; [by apply elem_of_nil in He|].
  simpl. apply elem_of_cons in He as [->|He]; [|by apply IH].
  apply Hkeep, seen_teacherConflictStep. by right.
Qed.

Lemma reported_teacherConflictStep_foldl es l acc p :
  p ∈ acc.2 → p ∈ (foldl (teacherConflictStep es) acc l).2.
Proof.
  revert acc. induction l as [|e l IH]; intros acc Hp; simpl; [done|].
  apply IH. destruct acc as [teacherSchedule reported]. unfold teacherConflictStep.
  simpl in *. case_bool_decide; [|done].
  destruct (List.find _ es); [|done]. simpl. apply elem_of_app. by left.
Qed.

(** The later of two clashing entries is reported. *)
Lemma teacherConflictPairs_later es l1 ea l2 eb l3 :
  ea ∈ es →
  teacherSlot ea = teacherSlot eb →
  TimetableEntry.classId ea ≠ TimetableEntry.classId eb →
  ∃ conflictEntry,
    (eb, conflictEntry)
    ∈ (foldl (teacherConflictStep es) (∅, []) (l1 ++ ea :: l2 ++ eb :: l3)).2.
Proof.
  intros Hin Hslot Hclass.
  replace (l1 ++ ea :: l2 ++ eb :: l3) with ((l1 ++ ea :: l2) ++ eb :: l3)
    by by rewrite <- app_assoc.
  rewrite foldl_app. simpl.
  set (acc := foldl (teacherConflictStep es) (∅, []) (l1 ++ ea :: l2)).
  assert (daySlotKey eb ∈ seen acc.1 (TimetableEntry.teacherId eb)) as Hseen.
  { injection Hslot as Ht Hd Hp.
    replace (daySlotKey eb) with (daySlotKey ea) by (unfold daySlotKey; congruence).
    rewrite <- Ht. apply seen_teacherConflictStep_foldl.
    apply elem_of_app. right. by left. }
  assert (∃ conflictEntry, List.find (clashesWith eb) es = Some conflictEntry) as [c Hfind].
  { destruct (List.find (clashesWith eb) es) as [c|] eqn:Hfind; [by eexists|].
    apply list_elem_of_In in Hin. eapply find_none in Hfind; [|exact Hin].
    assert (clashesWith eb ea = true) as Hclash by (apply clashesWith_spec; split; congruence).
    congruence. }
  exists c. apply reported_teacherConflictStep_foldl.
  destruct acc as [teacherSchedule reported]. unfold teacherConflictStep. simpl in *.
  rewrite bool_decide_eq_true_2.
  - rewrite Hfind. simpl. apply elem_of_app. right. by apply list_elem_of_singleton.
  - case_bool_decide as Hhas; [exact Hseen|].
    rewrite lookup_insert_eq. simpl. unfold seen in Hseen.
    destruct (teacherSchedule !! _) eqn:E; [|done]. destruct Hhas. by eexists.
Qed.

Lemma teacherConflictPairs_complete es e1 e2 :
  e1 ∈ es → e2 ∈ es →
  teacherSlot e1 = teacherSlot e2 →
  TimetableEntry.classId e1 ≠ TimetableEntry.classId e2 →
  ∃ p, p ∈ teacherConflictPairs es ∧ teacherSlot p.1 = teacherSlot e1.
Proof.
  intros H1 H2 Hslot Hclass. unfold teacherConflictPairs.
  assert (e1 ≠ e2) as Hne by congruence.
  pose proof H1 as H1'. pose proof H2 as H2'.
  apply list_elem_of_split in H1 as (l1 & l2 & Hes).
  rewrite Hes in H2. apply elem_of_app in H2 as [H2|H2].
  - apply list_elem_of_split in H2 as (m1 & m2 & ->).
    destruct (teacherConflictPairs_later es m1 e2 m2 e1 l2) as [c Hc]; [done..| |].
    { congruence. }
    rewrite <- app_assoc in Hes. simpl in Hes. rewrite <- Hes in Hc.
    by exists (e1, c).
  - apply elem_of_cons in H2 as [?|H2]; [done|].
    apply list_elem_of_split in H2 as (m1 & m2 & ->).
    destruct (teacherConflictPairs_later es l1 e1 m1 e2 m2) as [c Hc]; [done..|].
    rewrite <- Hes in Hc. by exists (e2, c).
Qed.

(** X15. Two active entries of different classes with the same teacher,
    day and period make [validateTimetable] invalid, and its conflicts
    contain the teacher-conflict message of a reported pair for that
    teacher, day and period. *)
Theorem validateTimetable_reports_teacher_clash db e1 e2 :
  let es := storage.getTimetableEntries db in
  e1 ∈ es → e2 ∈ es →
  teacherSlot e1 = teacherSlot e2 →
  TimetableEntry.classId e1 ≠ TimetableEntry.classId e2 →
  isValid (validateTimetable db) = false
  ∧ ∃ p, clash es p
         ∧ teacherSlot p.1 = teacherSlot e1
         ∧ teacherConflictMessage p ∈ conflicts (validateTimetable db).
Proof.
  intros es H1 H2 Hslot Hclass.
  destruct (teacherConflictPairs_complete es e1 e2 H1 H2 Hslot Hclass) as (p & Hp & Hps).
  assert (teacherConflictMessage p ∈ conflicts (validateTimetable db)) as Hmsg.
  { unfold validateTimetable. simpl. apply elem_of_app. left. by apply list_elem_of_fmap_2. }
  split.
  - unfold validateTimetable in *. simpl in *. apply bool_decide_eq_false.
    intros Hlen. apply nil_length_inv in Hlen. rewrite Hlen in Hmsg.
    by apply elem_of_nil in Hmsg.
  - exists p. split_and!; [|done..].
    pose proof (teacherConflictPairs_clash es) as Hall.
    rewrite Forall_forall in Hall. by apply Hall.
Qed.

Lemma validateTimetable_reports_teacher_clash_witness :
  let es := storage.getTimetableEntries sharedTeacher in
  let e1 := TimetableEntry.mk "class-a" "t1" "math" "monday" 1 "08:00" "08:45" None None true in
  let e2 := TimetableEntry.mk "class-b" "t1" "math" "monday" 1 "08:00" "08:45" None None true in
  e1 ∈ es ∧ e2 ∈ es
  ∧ teacherSlot e1 = teacherSlot e2
  ∧ TimetableEntry.classId e1 ≠ TimetableEntry.classId e2
  ∧ isValid (validateTimetable sharedTeacher) = false
  ∧ ∃ p, clash es p
         ∧ teacherSlot p.1 = teacherSlot e1
         ∧ teacherConflictMessage p ∈ conflicts (validateTimetable sharedTeacher).
Proof.
  intros es e1 e2.
  assert (e1 ∈ es) as H1 by apply list_elem_of_here.
  assert (e2 ∈ es) as H2 by apply list_elem_of_further, list_elem_of_here.
  assert (teacherSlot e1 = teacherSlot e2) as Hslot by reflexivity.
  assert (TimetableEntry.classId e1 ≠ TimetableEntry.classId e2) as Hclass by done.
  split; [exact H1|]. split; [exact H2|]. split; [exact Hslot|]. split; [exact Hclass|].
  exact (validateTimetable_reports_teacher_clash sharedTeacher e1 e2 H1 H2 Hslot Hclass).
Defined.

(** ** [validateTimetable]: rooms *)

Lemma seen_roomConflictStep acc e r k :
  k ∈ seen (roomConflictStep acc e).1 r
  ↔ k ∈ seen acc.1 r ∨ roomBooking e = Some (r, k).
Proof.
  destruct acc as [roomSchedule found]. unfold roomConflictStep, roomBooking.
  destruct (JS.whenTruthy (TimetableEntry.room e)) as [room|]; simpl;
    [|split; [by left|by intros [?|?]]].
  set (prepared := if bool_decide (is_Some (roomSchedule !! room)) then roomSchedule
                   else <[room := ∅]> roomSchedule).
  assert (∀ r', seen prepared r' = seen roomSchedule r') as Hprepared.
  { intros r'. unfold prepared, seen. case_bool_decide as Hhas; [done|].
    destruct (decide (r' = room)) as [->|Hne].
    - rewrite lookup_insert_eq. simpl.
      destruct (roomSchedule !! _) eqn:E; [|done]. destruct Hhas. by eexists.
    - by rewrite lookup_insert_ne. }
  fold (seen prepared room).
  case_bool_decide as Hkey; simpl.
  - rewrite Hprepared. split; [by left|]. intros [?|[= <- <-]]; [done|].
    by rewrite <- Hprepared.
  - unfold seen at 1. destruct (decide (r = room)) as [->|Hne].
    + rewrite lookup_insert_eq. simpl. rewrite elem_of_union, elem_of_singleton, Hprepared.
      split; (intros [?|?]; [by left|right; congruence]).
    + rewrite lookup_insert_ne by done. fold (seen prepared r). rewrite Hprepared.
      split; [by left|]. intros [?|[= ? ?]]; done.
Qed.

(** The state of the room loop after the entries [seenSoFar]: the map holds
    their bookings, and nothing was found exactly when they are distinct. *)
Lemma roomConflictStep_foldl l seenSoFar acc :
  (∀ r k, k ∈ seen acc.1 r ↔ (r, k) ∈ omap roomBooking seenSoFar) →
  (acc.2 = [] ↔ NoDup (omap roomBooking seenSoFar)) →
  (foldl roomConflictStep acc l).2 = [] ↔ NoDup (omap roomBooking (seenSoFar ++ l)).
Proof.
  revert seenSoFar acc. induction l as [|e l IH]; intros pre acc Hseen Hfound; simpl.
  { by rewrite app_nil_r. }
  replace (pre ++ e :: l) with ((pre ++ [e]) ++ l) by by rewrite <- app_assoc.
  apply IH.
  - intros r k. rewrite seen_roomConflictStep, Hseen, omap_app, elem_of_app. simpl.
    destruct (roomBooking e) as [[r' k']|]; simpl.
    + rewrite list_elem_of_singleton. split; (intros [?|?]; [by left|right; congruence]).
    + split; (intros [?|Hno]; [by left|]); [done|by apply elem_of_nil in Hno].
  - rewrite omap_app. simpl.
    destruct acc as [roomSchedule found]. unfold roomConflictStep, roomBooking in *.
    destruct (JS.whenTruthy (TimetableEntry.room e)) as [room|] eqn:Hroom; simpl in *;
      [|by rewrite app_nil_r].
    rewrite NoDup_app.
    assert (daySlotKey e ∈ seen roomSchedule room
            ↔ (room, daySlotKey e) ∈ omap
                 (λ e0, (λ room0, (room0, daySlotKey e0)) <$> JS.whenTruthy (TimetableEntry.room e0))
                 pre) as Hkey by apply Hseen.
    case_bool_decide as Hin; simpl.
    + assert (daySlotKey e ∈ seen roomSchedule room) as Hin'.
      { revert Hin. unfold seen. case_bool_decide as Hhas; [done|].
        rewrite lookup_insert_eq. simpl. by intros ?%elem_of_empty. }
      split; [by intros [_ ?]%app_eq_nil|].
      intros (_ & Hdisj & _). exfalso. apply (Hdisj (room, daySlotKey e)).
      * by apply Hkey.
      * apply list_elem_of_here.
    + assert (daySlotKey e ∉ seen roomSchedule room) as Hin'.
      { intros Hk. apply Hin. revert Hk. unfold seen. case_bool_decide as Hhas; [done|].
        destruct (roomSchedule !! room) eqn:E; [destruct Hhas; by eexists|].
        simpl. by intros ?%elem_of_empty. }
      rewrite Hfound. split.
      * intros Hnd. split_and!; [done| |apply NoDup_singleton].
        intros x Hx ->%list_elem_of_singleton. by apply Hin', Hkey.
      * by intros (? & _).
Qed.

Lemma roomConflicts_nil es : roomConflicts es = [] ↔ NoDup (omap roomBooking es).
Proof.
  unfold roomConflicts. apply (roomConflictStep_foldl es [] (∅, [])).
  - intros r k. simpl. unfold seen. rewrite lookup_empty. simpl.
    split; [by intros ?%elem_of_empty|by intros ?%elem_of_nil].
  - simpl. split; [intros _; apply NoDup_nil_2|done].
Qed.

Lemma validateTimetable_isValid db :
  isValid (validateTimetable db) = true ↔
  teacherConflictPairs (storage.getTimetableEntries db) = []
  ∧ roomConflicts (storage.getTimetableEntries db) = []
  ∧ frequencyConflicts db (classSubjectCountOf (storage.getTimetableEntries db)) = [].
Proof.
  unfold validateTimetable. simpl. rewrite bool_decide_eq_true. split.
  - intros Hlen%nil_length_inv.
    apply app_eq_nil in Hlen as [Ht Hlen]. apply app_eq_nil in Hlen as [Hr Hf].
    apply fmap_nil_inv in Ht. done.
  - intros (-> & -> & ->). done.
Qed.

(** X16. The room check of [validateTimetable] finds nothing exactly when
    no two active entries that name a room share the room and the key of
    day and period (entries without a room, or with an empty room, are not
    looked at); a shared booking makes the timetable invalid, also between
    two entries of the same class. *)
Theorem validateTimetable_room_conflicts db :
  let es := storage.getTimetableEntries db in
  (roomConflicts es = [] ↔ NoDup (omap roomBooking es))
  ∧ (¬ NoDup (omap roomBooking es) → isValid (validateTimetable db) = false).
Proof.
  intros es. split; [apply roomConflicts_nil|]. intros Hdup.
  destruct (isValid (validateTimetable db)) eqn:Hvalid; [|done].
  apply validateTimetable_isValid in Hvalid as (_ & Hrooms & _).
  by apply roomConflicts_nil in Hrooms.
Qed.

Lemma bind_nil_all {A B} (f : A → list B) (l : list A) :
  l ≫= f = [] ↔ ∀ x, x ∈ l → f x = [].
Proof.
  induction l as [|x l IH]; simpl.
  - split; [by intros _ x ?%elem_of_nil|done].
  - rewrite app_nil, IH. split.
    + intros [Hx Hl] y [->|Hy]%elem_of_cons; auto.
    + intros Hall. split; [apply Hall; by left|]. intros y Hy. apply Hall. by right.
Qed.

Lemma frequencyCheck_nil actualCounts classData assignment :
  frequencyCheck actualCounts classData assignment = []
  ↔ Z.of_nat (default 0%nat (actualCounts !! AssignmentRow.subjectId assignment))
    = AssignmentRow.weeklyFrequency assignment.
Proof.
  unfold frequencyCheck. repeat case_bool_decide; simpl; split; try done; lia.
Qed.

(** X17. [validateTimetable] answers valid exactly when, among the active
    entries, any two with the same teacher, day and period belong to the
    same class, no two that name a room share the room and the key of day
    and period, and for every class and every row of its subject
    assignments the number of active entries of the class for the subject
    equals [weeklyFrequency] (neither fewer nor more). Two entries of one
    class with the same teacher, day and period are therefore not seen. *)
Theorem validateTimetable_valid_iff db :
  let es := storage.getTimetableEntries db in
  isValid (validateTimetable db) = true ↔
  (∀ e1 e2, e1 ∈ es → e2 ∈ es → teacherSlot e1 = teacherSlot e2 →
            TimetableEntry.classId e1 = TimetableEntry.classId e2)
  ∧ NoDup (omap roomBooking es)
  ∧ (∀ classData assignment,
       classData ∈ storage.classes db →
       assignment ∈ storage.getClassSubjectAssignments db (Some (Class.id classData)) →
       Z.of_nat (matchingEntries db (Class.id classData) (AssignmentRow.subjectId assignment))
       = AssignmentRow.weeklyFrequency assignment).
Proof.
  intros es. rewrite validateTimetable_isValid. fold es.
  rewrite roomConflicts_nil.
  assert (teacherConflictPairs es = []
          ↔ ∀ e1 e2, e1 ∈ es → e2 ∈ es → teacherSlot e1 = teacherSlot e2 →
                     TimetableEntry.classId e1 = TimetableEntry.classId e2) as ->.
  { split.
    - intros Hnone e1 e2 H1 H2 Hslot.
      destruct (decide (TimetableEntry.classId e1 = TimetableEntry.classId e2)) as [|Hne];
        [done|].
      destruct (teacherConflictPairs_complete es e1 e2 H1 H2 Hslot Hne) as (p & Hp & _).
      rewrite Hnone in Hp. by apply elem_of_nil in Hp.
    - intros Hall. pose proof (teacherConflictPairs_clash es) as Hclash.
      destruct (teacherConflictPairs es) as [|p ps]; [done|].
      apply Forall_cons in Hclash as [(H1 & H2 & Hslot & Hne) _].
      destruct Hne. by apply Hall. }
  assert (frequencyConflicts db (classSubjectCountOf es) = []
          ↔ ∀ classData assignment,
              classData ∈ storage.classes db →
              assignment ∈ storage.getClassSubjectAssignments db (Some (Class.id classData)) →
              Z.of_nat (matchingEntries db (Class.id classData)
                          (AssignmentRow.subjectId assignment))
              = AssignmentRow.weeklyFrequency assignment) as ->; [|done].
  unfold frequencyConflicts, es. rewrite bind_nil_all. simpl.
  split; intros Hall classData.
  - intros assignment Hc Ha. specialize (Hall classData Hc).
    rewrite bind_nil_all in Hall. specialize (Hall assignment Ha).
    apply frequencyCheck_nil in Hall. by rewrite actualCount_matchingEntries in Hall.
  - intros Hc. apply bind_nil_all. intros assignment Ha.
    apply frequencyCheck_nil. rewrite actualCount_matchingEntries. by apply Hall.
Qed.

(** ** The solver: a run for one class *)

Lemma NoDup_fmap_elem_inj {A B} (f : A → B) (l : list A) x y :
  NoDup (f <$> l) → x ∈ l → y ∈ l → f x = f y → x = y.
Proof.
  intros Hnd Hx Hy Hf.
  apply list_elem_of_lookup in Hx as [i Hi]. apply list_elem_of_lookup in Hy as [j Hj].
  assert (i = j) as ->; [|congruence].
  apply (NoDup_lookup (f <$> l) i j (f x)); [done|..].
  - by rewrite list_lookup_fmap, Hi.
  - by rewrite list_lookup_fmap, Hj, Hf.
Qed.

(** Entries of one class that differ in day or period cannot share a
    teacher slot: the class half of the no-double-booking property carries
    over to teachers when all constraints are for the same class. *)
Lemma solveSchedule_one_class rs slots constraints teachers subjects classId :
  (∀ c, c ∈ constraints → ScheduleConstraint.classId c = classId) →
  (∀ e, e ∈ solveSchedule rs slots constraints teachers subjects →
        TimetableEntry.classId e = classId)
  ∧ NoDup (teacherSlot <$> solveSchedule rs slots constraints teachers subjects).
Proof.
  intros Hone.
  assert (∀ e, e ∈ solveSchedule rs slots constraints teachers subjects →
               TimetableEntry.classId e = classId) as Hclass.
  { intros e He. apply solveSchedule_elem_of in He as (c & Hc & (Hcid & _) & _).
    rewrite Hcid. by apply Hone. }
  split; [done|].
  pose proof (solveSchedule_class_slots_distinct rs slots constraints teachers subjects) as Hnd.
  apply NoDup_fmap_2_strong; [|by apply NoDup_fmap_1 in Hnd].
  intros x y Hx Hy Hsame.
  apply (NoDup_fmap_elem_inj classSlot _ x y Hnd Hx Hy).
  unfold teacherSlot in Hsame. injection Hsame as _ Hd Hp.
  unfold classSlot. by rewrite (Hclass x Hx), (Hclass y Hy), Hd, Hp.
Qed.

Lemma loadClasses_single db cid userSchoolId classes classData :
  cid ≠ "" →
  loadClasses db (Some cid) userSchoolId = inr classes →
  classData ∈ classes → Class.id classData = cid.
Proof.
  intros Hcid. unfold loadClasses, JS.whenTruthy. simpl.
  rewrite bool_decide_eq_false_2 by done. simpl.
  unfold storage.getClass.
  destruct (filter _ (storage.classes db)) as [|c l] eqn:E; [done|].
  simpl. intros [= <-] Hin. apply list_elem_of_singleton in Hin as ->.
  assert (c ∈ filter (λ c, Class.id c = cid) (storage.classes db)) as Hc
    by (rewrite E; by left).
  by apply list_elem_of_filter in Hc as [? _].
Qed.

(** X18. A run of [generateTimetable] for one class (a non-empty
    [classId] is given) books no teacher twice: every entry of the schedule
    is for that class, and no two entries share teacher, day and period. *)
Theorem generateTimetable_one_class_teachers_once
    this db rs weekStart weekEnd cid userSchoolId run :
  cid ≠ "" →
  prepareRun this db weekStart weekEnd (Some cid) userSchoolId = inr run →
  let schedule :=
    solveSchedule rs (timeSlots (run_scheduler run)) (run_constraints run)
      (run_teachers run) (run_subjects run) in
  (∀ e, e ∈ schedule → TimetableEntry.classId e = cid)
  ∧ NoDup (teacherSlot <$> schedule).
Proof.
  intros Hcid Hrun schedule.
  destruct (prepareRun_inr _ _ _ _ _ _ _ Hrun) as (Hload & _ & _ & Hcs & _).
  apply solveSchedule_one_class.
  intros c Hc. rewrite Hcs in Hc.
  apply buildConstraints_classId in Hc as (classData & Hin & ->).
  by eapply loadClasses_single.
Qed.

Lemma generateTimetable_one_class_teachers_once_witness :
  "class-a" ≠ ""
  ∧ ∃ run,
      prepareRun constructor threeOfFive "2024-01-01" "2024-01-06" (Some "class-a") None
      = inr run
      ∧ TimetableEntry.teacherId
        <$> solveSchedule steadySource (timeSlots (run_scheduler run)) (run_constraints run)
              (run_teachers run) (run_subjects run)
        = ["t1"; "t1"; "t1"; "t1"; "t1"]
      ∧ (∀ e, e ∈ solveSchedule steadySource (timeSlots (run_scheduler run))
                    (run_constraints run) (run_teachers run) (run_subjects run) →
              TimetableEntry.classId e = "class-a")
      ∧ NoDup (teacherSlot <$> solveSchedule steadySource (timeSlots (run_scheduler run))
                                 (run_constraints run) (run_teachers run) (run_subjects run)).
Proof.
  assert ("class-a" ≠ "") as Hcid by done.
  split; [exact Hcid|].
  destruct (prepareRun constructor threeOfFive "2024-01-01" "2024-01-06"
              (Some "class-a") None) as [early|run] eqn:Hrun;
    [by vm_compute in Hrun|].
  exists run. split; [done|]. split.
  - vm_compute in Hrun. injection Hrun as <-. by vm_compute.
  - exact (generateTimetable_one_class_teachers_once constructor threeOfFive steadySource
             "2024-01-01" "2024-01-06" "class-a" None run Hcid Hrun).
Defined.

(** ** [suggestOptimizations] *)

Example suggestOptimizations_lopsidedMonday :
  suggestOptimizations lopsidedMonday
  = [ "Consider redistributing teacher workload for better balance.";
      "Consider moving some subjects to morning hours for better student engagement.";
      "Avoid scheduling the same subject in consecutive periods for better learning outcomes." ].
Proof. by vm_compute. Qed.

Example suggestOptimizations_sharedTeacher :
  suggestOptimizations sharedTeacher
  = ["Current timetable appears well-optimized. No major issues detected."].
Proof. by vm_compute. Qed.

Lemma dayCell_dailyScheduleStep dailySchedules e classId day :
  dayCell (dailyScheduleStep dailySchedules e) classId day
  = dayCell dailySchedules classId day
    ++ if decide (TimetableEntry.classId e = classId ∧ TimetableEntry.day e = day)
       then [TimetableEntry.subjectId e] else [].
Proof.
  unfold dailyScheduleStep, dayCell.
  set (prepared := if bool_decide (is_Some (dailySchedules !! TimetableEntry.classId e))
                   then dailySchedules
                   else <[TimetableEntry.classId e := ∅]> dailySchedules).
  assert (∀ d, default [] (default ∅ (prepared !! TimetableEntry.classId e) !! d)
               = default [] (dailySchedules !! TimetableEntry.classId e ≫= λ m, m !! d))
    as Hprepared.
  { intros d. unfold prepared. case_bool_decide as Hhas.
    - by destruct Hhas as [m ->].
    - rewrite lookup_insert_eq. simpl. rewrite lookup_empty.
      destruct (dailySchedules !! _) eqn:E; [destruct Hhas; by eexists|done]. }
  set (classSchedule := default ∅ (prepared !! TimetableEntry.classId e)) in *.
  set (withDay := if bool_decide (is_Some (classSchedule !! TimetableEntry.day e))
                  then classSchedule
                  else <[TimetableEntry.day e := []]> classSchedule).
  assert (∀ d, default [] (withDay !! d) = default [] (classSchedule !! d)) as HwithDay.
  { intros d. unfold withDay. case_bool_decide as Hhas; [done|].
    destruct (decide (d = TimetableEntry.day e)) as [->|Hd].
    - rewrite lookup_insert_eq. simpl.
      destruct (classSchedule !! _) eqn:E; [destruct Hhas; by eexists|done].
    - by rewrite lookup_insert_ne. }
  destruct (decide (TimetableEntry.classId e = classId)) as [<-|Hc].
  - rewrite lookup_insert_eq. simpl.
    destruct (decide (TimetableEntry.day e = day)) as [<-|Hd].
    + rewrite lookup_insert_eq, decide_True by done. simpl.
      by rewrite HwithDay, Hprepared.
    + rewrite lookup_insert_ne by done. rewrite decide_False by (by intros [_ ?]).
      by rewrite HwithDay, Hprepared, app_nil_r.
  - rewrite lookup_insert_ne by done. rewrite decide_False by (by intros [? _]).
    rewrite app_nil_r. unfold prepared. case_bool_decide; [done|].
    by rewrite lookup_insert_ne.
Qed.

Lemma dayCell_foldl es dailySchedules classId day :
  dayCell (foldl dailyScheduleStep dailySchedules es) classId day
  = dayCell dailySchedules classId day ++ lessonsOf es classId day.
Proof.
  revert dailySchedules. induction es as [|e es IH]; intros ds; simpl.
  { by rewrite app_nil_r. }
  rewrite IH, dayCell_dailyScheduleStep, <- app_assoc. f_equal.
  unfold lessonsOf. rewrite filter_cons. by destruct (decide _).
Qed.

Lemma dayCell_dailySchedulesOf es classId day :
  dayCell (dailySchedulesOf es) classId day = lessonsOf es classId day.
Proof. unfold dailySchedulesOf. by rewrite dayCell_foldl. Qed.

Lemma hasConsecutiveSameSubjects_lessons es :
  hasConsecutiveSameSubjects (dailySchedulesOf es) = true
  ↔ ∃ classId day, hasRepeat (lessonsOf es classId day) = true.
Proof.
  unfold hasConsecutiveSameSubjects. rewrite existsb_exists. split.
  - intros ([classId schedule] & Hin & Hsome).
    apply existsb_exists in Hsome as ([day subjects] & Hin' & Hrepeat).
    apply list_elem_of_In, elem_of_map_to_list in Hin.
    apply list_elem_of_In, elem_of_map_to_list in Hin'.
    exists classId, day. rewrite <- dayCell_dailySchedulesOf. unfold dayCell.
    rewrite Hin. simpl. by rewrite Hin'.
  - intros (classId & day & Hrepeat).
    rewrite <- dayCell_dailySchedulesOf in Hrepeat. unfold dayCell in Hrepeat.
    destruct (dailySchedulesOf es !! classId) as [schedule|] eqn:Hc; [|done].
    simpl in Hrepeat. destruct (schedule !! day) as [subjects|] eqn:Hd; [|done].
    exists (classId, schedule). split.
    + by apply list_elem_of_In, elem_of_map_to_list.
    + apply existsb_exists. exists (day, subjects). split; [|done].
      by apply list_elem_of_In, elem_of_map_to_list.
Qed.

(** X19. [suggestOptimizations] advises against consecutive periods of
    the same subject exactly when, for some class and day, two active
    entries of that class and day that follow each other in the order of
    retrieval have the same subject: the check compares neighbours in the
    list of entries and does not read [period]. *)
Theorem suggestOptimizations_consecutive db :
  let es := storage.getTimetableEntries db in
  "Avoid scheduling the same subject in consecutive periods for better learning outcomes."
    ∈ suggestOptimizations db
  ↔ ∃ classId day, hasRepeat (lessonsOf es classId day) = true.
Proof.
  intros es. rewrite <- hasConsecutiveSameSubjects_lessons.
  unfold suggestOptimizations. fold es.
  destruct (workloadUnbalanced _), (afternoonHeavy es),
    (hasConsecutiveSameSubjects (dailySchedulesOf es)); simpl;
    split; intros Hin; try done;
    try (repeat first [apply list_elem_of_here | apply list_elem_of_further]; fail);
    repeat (apply elem_of_cons in Hin as [Hin|Hin]; [discriminate Hin|]);
    by apply elem_of_nil in Hin.
Qed.

(** X20. [suggestOptimizations] never returns an empty list and never more
    than three suggestions. The message "Current timetable appears
    well-optimized..." is returned only alone, and exactly when the workload
    comparison is false, the entries of period 5 and later are at most one
    and a half times those of period 4 and earlier, and no class has a
    repeated subject among neighbouring entries of a day. With no active
    entry the result is that message (the average of no workload is not a
    number, and the comparison with it is false). *)
Theorem suggestOptimizations_default db :
  let es := storage.getTimetableEntries db in
  let result := suggestOptimizations db in
  let wellOptimized :=
    "Current timetable appears well-optimized. No major issues detected." in
  result ≠ []
  ∧ (length result ≤ 3)%nat
  ∧ (wellOptimized ∈ result ↔ result = [wellOptimized])
  ∧ (result = [wellOptimized]
     ↔ workloadUnbalanced (map_to_list (teacherWorkloadOf es)).*2 = false
       ∧ (2 * length (filter (λ e, (5 ≤ TimetableEntry.period e)%Z) es)
          ≤ 3 * length (filter (λ e, (TimetableEntry.period e ≤ 4)%Z) es))%nat
       ∧ ∀ classId day, hasRepeat (lessonsOf es classId day) = false)
  ∧ (es = [] → result = [wellOptimized]).
Proof.
  intros es result wellOptimized.
  assert (hasConsecutiveSameSubjects (dailySchedulesOf es) = false
          ↔ ∀ classId day, hasRepeat (lessonsOf es classId day) = false) as Hrepeat.
  { rewrite <- not_true_iff_false, hasConsecutiveSameSubjects_lessons. split.
    - intros Hnone classId day. apply not_true_iff_false. intros Hyes. apply Hnone. eauto.
    - intros Hall (classId & day & Hyes). by rewrite Hall in Hyes. }
  assert (afternoonHeavy es = false
          ↔ (2 * length (filter (λ e, (5 ≤ TimetableEntry.period e)%Z) es)
             ≤ 3 * length (filter (λ e, (TimetableEntry.period e ≤ 4)%Z) es))%nat) as Hskew.
  { unfold afternoonHeavy. rewrite bool_decide_eq_false. lia. }
  rewrite <- Hrepeat, <- Hskew.
  split_and!.
  - unfold result, suggestOptimizations. by repeat case_match.
  - unfold result, suggestOptimizations. repeat case_match; simpl; lia.
  - unfold result, suggestOptimizations. fold es.
    destruct (workloadUnbalanced _), (afternoonHeavy es),
      (hasConsecutiveSameSubjects (dailySchedulesOf es)); simpl;
      split; intros Hin; try done;
      try (apply list_elem_of_here);
      repeat (apply elem_of_cons in Hin as [Hin|Hin]; [discriminate Hin|]);
      by apply elem_of_nil in Hin.
  - unfold result, suggestOptimizations. fold es.
    destruct (workloadUnbalanced _), (afternoonHeavy es),
      (hasConsecutiveSameSubjects (dailySchedulesOf es)); simpl;
      split; try done; by intros (? & ? & ?).
  - intros Hempty. unfold result, suggestOptimizations. fold es. by rewrite Hempty.
Qed.

(** ** The solver: a class within the grid *)

(** X21. No two entries returned by [solveSchedule] share class, day and
    period, and therefore no class receives more entries than the grid has
    slots, however many periods its constraints ask for. *)
Theorem solveSchedule_class_within_grid rs slots constraints teachers subjects classId :
  let es := solveSchedule rs slots constraints teachers subjects in
  NoDup (classSlot <$> es)
  ∧ (length (filter (λ e, TimetableEntry.classId e = classId) es) ≤ length slots)%nat.
Proof.
  intros es.
  pose proof (solveSchedule_class_slots_distinct rs slots constraints teachers subjects) as Hnd.
  fold es in Hnd. split; [done|].
  set (own := filter (λ e, TimetableEntry.classId e = classId) es).
  assert (NoDup (classSlot <$> own)) as Hown.
  { eapply sublist_NoDup; [exact Hnd|]. apply fmap_sublist, sublist_filter. }
  assert (NoDup ((λ x : string * string * Z, (x.1.2, x.2)) <$> (classSlot <$> own))) as Hcells.
  { apply NoDup_fmap_2_strong; [|done].
    intros x y Hx Hy Hxy.
    apply list_elem_of_fmap in Hx as (e1 & -> & [H1 _]%list_elem_of_filter).
    apply list_elem_of_fmap in Hy as (e2 & -> & [H2 _]%list_elem_of_filter).
    unfold classSlot in *. simpl in *. injection Hxy as Hd Hp. congruence. }
  rewrite <- (length_fmap (λ s, (TimeSlot.day s, TimeSlot.period s)) slots).
  rewrite <- (length_fmap classSlot own).
  rewrite <- (length_fmap (λ x : string * string * Z, (x.1.2, x.2)) (classSlot <$> own)).
  apply submseteq_length, NoDup_submseteq; [done|].
  intros cell Hcell.
  apply list_elem_of_fmap in Hcell as (x & -> & Hx).
  apply list_elem_of_fmap in Hx as (e & -> & [_ He]%list_elem_of_filter).
  apply solveSchedule_elem_of in He as (c & _ & (_ & _ & (s & Hs & Hd & Hp & _) & _) & _).
  apply list_elem_of_fmap. exists s. split; [|done]. simpl. congruence.
Qed.

(** ** [generateTimetable]: the timetable of a class after a run *)








(** ** [clearTimetable] *)

(** X23. After [clearTimetable] the table of timetable entries is empty,
    so the timetable of every class, of every teacher and of every version
    is empty; the other tables are untouched; [suggestOptimizations]
    returns its "well-optimized" message; and [validateTimetable] answers
    valid exactly when every row of the subject assignments of every class
    has [weeklyFrequency] zero. *)
Theorem clearTimetable_then db :
  let after := clearTimetable db in
  storage.timetableEntries after = []
  ∧ (∀ classId, getTimetableForClass after classId = [])
  ∧ (∀ teacherId, getTimetableForTeacher after teacherId = [])
  ∧ (∀ versionId, getTimetableEntriesForVersion after versionId = [])
  ∧ storage.timetableVersions after = storage.timetableVersions db
  ∧ storage.classes after = storage.classes db
  ∧ storage.teachers after = storage.teachers db
  ∧ storage.subjects after = storage.subjects db
  ∧ storage.classSubjectAssignments after = storage.classSubjectAssignments db
  ∧ storage.timetableStructures after = storage.timetableStructures db
  ∧ suggestOptimizations after
    = ["Current timetable appears well-optimized. No major issues detected."]
  ∧ (isValid (validateTimetable after) = true
     ↔ ∀ classData assignment,
         classData ∈ storage.classes db →
         assignment ∈ storage.getClassSubjectAssignments db (Some (Class.id classData)) →
         AssignmentRow.weeklyFrequency assignment = 0).
Proof.
  intros after. split_and!; [done..|].
  rewrite validateTimetable_isValid.
  change (storage.getTimetableEntries after) with (@nil TimetableEntry.t).
  unfold frequencyConflicts. rewrite bind_nil_all. split.
  - intros (_ & _ & Hall) classData assignment Hc Ha.
    specialize (Hall classData Hc). rewrite bind_nil_all in Hall.
    specialize (Hall assignment Ha). apply frequencyCheck_nil in Hall.
    unfold classSubjectCountOf in Hall. simpl in Hall.
    rewrite lookup_empty in Hall. simpl in Hall.
    rewrite lookup_empty in Hall. simpl in Hall. lia.
  - intros Hall. split_and!; [done..|]. intros classData Hc. apply bind_nil_all.
    intros assignment Ha. apply frequencyCheck_nil. unfold classSubjectCountOf. simpl.
    rewrite lookup_empty. simpl. rewrite lookup_empty. simpl. symmetry. by apply (Hall classData).
Qed.

(** ** [buildConstraints]: from the assignments to the entries *)

Lemma setActiveVersion_assignments db versionId classId :
  storage.getClassSubjectAssignments (storage.setActiveVersion db versionId classId)
  = storage.getClassSubjectAssignments db.
Proof. unfold storage.setActiveVersion. by destruct (filter _ _). Qed.

Lemma createVersions_assignments db weekStart weekEnd classes versionsCreated :
  storage.getClassSubjectAssignments
    (createVersions db weekStart weekEnd classes versionsCreated).1
  = storage.getClassSubjectAssignments db.
Proof.
  revert db versionsCreated.
  induction classes as [|classData rest IH]; intros db versionsCreated; simpl; [done|].
  by rewrite IH, setActiveVersion_assignments.
Qed.

Lemma elem_of_buildConstraints db classes c :
  c ∈ buildConstraints db classes ↔
  ∃ classData assignment,
    classData ∈ classes
    ∧ assignment ∈ storage.getClassSubjectAssignments db (Some (Class.id classData))
    ∧ c = ScheduleConstraint.mk (Class.id classData) (AssignmentRow.subjectId assignment)
            (AssignmentRow.weeklyFrequency assignment)
            (match JS.whenTruthy (AssignmentRow.assignedTeacherId assignment) with
             | Some teacherId => [teacherId]
             | None => []
             end).
Proof.
  unfold buildConstraints. rewrite list_elem_of_bind. split.
  - intros (classData & Hc & Hin). apply list_elem_of_bind in Hc as (assignment & Hc & Ha).
    apply list_elem_of_singleton in Hc. by exists classData, assignment.
  - intros (classData & assignment & Hin & Ha & ->). exists classData. split; [|done].
    apply list_elem_of_bind. exists assignment. split; [|done]. by apply list_elem_of_singleton.
Qed.

Lemma eligibleTeachers_preferred c teachers tid t0 t :
  ScheduleConstraint.preferredTeachers c = [tid] →
  t0 ∈ qualifiedTeachers c teachers → Teacher.id t0 = tid →
  t ∈ eligibleTeachers c teachers → Teacher.id t = tid.
Proof.
  intros Hpref Ht0 Hid0. unfold eligibleTeachers. rewrite Hpref. simpl.
  assert (t0 ∈ filter (λ t, Teacher.id t ∈ [tid]) (qualifiedTeachers c teachers)) as Hin.
  { apply list_elem_of_filter. split; [|done]. rewrite Hid0. apply list_elem_of_here. }
  rewrite bool_decide_eq_true_2.
  - intros [Ht _]%list_elem_of_filter. by apply list_elem_of_singleton in Ht.
  - destruct (filter _ _); [by apply elem_of_nil in Hin|simpl; lia].
Qed.

(** X24. Every entry of the schedule of a [generateTimetable] run comes
    from a row of the subject assignments of a class of the run: it has the
    class of the run and the subject of the row, the row asks for at least
    one period a week, and when the row names an assigned teacher who is in
    the roster of the run (active, of the school) and has the subject in
    [subjects], the entry is taught by that teacher. *)
Theorem generateTimetable_assigned_teacher_teaches
    this db rs weekStart weekEnd classId userSchoolId run e :
  prepareRun this db weekStart weekEnd classId userSchoolId = inr run →
  e ∈ solveSchedule rs (timeSlots (run_scheduler run)) (run_constraints run)
        (run_teachers run) (run_subjects run) →
  ∃ classData assignment,
    classData ∈ run_classes run
    ∧ assignment ∈ storage.getClassSubjectAssignments db (Some (Class.id classData))
    ∧ TimetableEntry.classId e = Class.id classData
    ∧ TimetableEntry.subjectId e = AssignmentRow.subjectId assignment
    ∧ 0 < AssignmentRow.weeklyFrequency assignment
    ∧ ∀ teacherId t,
        JS.whenTruthy (AssignmentRow.assignedTeacherId assignment) = Some teacherId →
        t ∈ run_teachers run → Teacher.id t = teacherId →
        AssignmentRow.subjectId assignment ∈ Teacher.subjects t →
        TimetableEntry.teacherId e = teacherId.
Proof.
  intros Hrun He.
  destruct (prepareRun_inr _ _ _ _ _ _ _ Hrun) as (_ & Hdb & _ & Hcs & _ & schoolId & Hteachers).
  apply solveSchedule_elem_of in He
    as (c & Hc & (Hclass & Hsubject & _ & (t' & Ht' & Hid') & _) & Hneeded & _).
  rewrite Hcs in Hc. apply elem_of_buildConstraints in Hc as (classData & assignment & Hin & Ha & ->).
  rewrite Hdb, createVersions_assignments in Ha. simpl in *.
  exists classData, assignment. split_and!; try done.
  intros teacherId t Hassigned Ht Hid Hsubject'. rewrite Hid'.
  eapply eligibleTeachers_preferred; [| |exact Hid|exact Ht'].
  - simpl. by rewrite Hassigned.
  - apply elem_of_qualifiedTeachers. simpl. split_and!; [done| |done].
    rewrite Hteachers in Ht. unfold storage.getTeachers in Ht.
    destruct (JS.whenTruthy (Some schoolId)); apply list_elem_of_filter in Ht; tauto.
Qed.

Lemma generateTimetable_assigned_teacher_teaches_witness :
  let e := TimetableEntry.mk "class-a" "t1" "math" "friday" 1 "08:00" "08:45" None None true in
  ∃ run,
    prepareRun constructor threeOfFive "2024-01-01" "2024-01-06" (Some "class-a")
      (Some "school-a") = inr run
    ∧ e ∈ solveSchedule steadySource (timeSlots (run_scheduler run)) (run_constraints run)
            (run_teachers run) (run_subjects run)
    ∧ ∃ classData assignment,
        classData ∈ run_classes run
        ∧ assignment ∈ storage.getClassSubjectAssignments threeOfFive (Some (Class.id classData))
        ∧ TimetableEntry.classId e = Class.id classData
        ∧ TimetableEntry.subjectId e = AssignmentRow.subjectId assignment
        ∧ 0 < AssignmentRow.weeklyFrequency assignment
        ∧ ∀ teacherId t,
            JS.whenTruthy (AssignmentRow.assignedTeacherId assignment) = Some teacherId →
            t ∈ run_teachers run → Teacher.id t = teacherId →
            AssignmentRow.subjectId assignment ∈ Teacher.subjects t →
            TimetableEntry.teacherId e = teacherId.
Proof.
  intros e.
  destruct (prepareRun constructor threeOfFive "2024-01-01" "2024-01-06"
              (Some "class-a") (Some "school-a")) as [early|run] eqn:Hrun;
    [by vm_compute in Hrun|].
  assert (e ∈ solveSchedule steadySource (timeSlots (run_scheduler run)) (run_constraints run)
                (run_teachers run) (run_subjects run)) as He.
  { vm_compute in Hrun. injection Hrun as <-.
    destruct (solveSchedule _ _ _ _ _) as [|e' es] eqn:Hs; [by vm_compute in Hs|].
    vm_compute in Hs. injection Hs as <- _. apply list_elem_of_here. }
  exists run. split; [done|]. split; [exact He|].
  exact (generateTimetable_assigned_teacher_teaches constructor threeOfFive steadySource
           "2024-01-01" "2024-01-06" _ _ run e Hrun He).
Defined.
